(** * Bitcore node: the external EVM chain-state provider

    A shallow embedding of [BaseEVMExternalStateProvider]
    (packages/bitcore-node, the provider that answers block, transaction,
    fee and balance queries from RPC peers and an external data API),
    followed by the properties of its range resolver, connection pool,
    fetch pipeline, fee estimator and balance query, and of the guard the
    application puts in front of its API routes.

    Layout: the JavaScript value layer ([JS]), the effect monad and the
    collaborators ([World], [Env], [M]), the provider's methods in the
    order of the source, and then the theorems. *)

From Stdlib Require Import ZArith Lia Bool List String Ascii DecimalString Sorted.
From stdpp Require Import base option list strings gmap.

Local Open Scope Z_scope.

(* ===================================================================== *)
(** * The JavaScript value layer                                          *)
(* ===================================================================== *)

Module JS.

(** ** Numbers

    A JavaScript number is modelled as [NaN], a signed infinity, or the
    exact decimal fraction [mant / 10^scale].  Every value that
    [parseInt], [Number] and the arithmetic of the provider produce from
    decimal input is of that shape.  Arithmetic is exact: the model agrees
    with IEEE-754 doubles wherever operands and results are integers of
    magnitude at most 2^53 (block heights, limits, confirmation counts),
    and it never rounds. Negative zero is identified with zero (both
    print as "0" and both are falsy). Where a property would not survive
    the rounding of doubles, its statement confines the numbers to safe
    integers ([safe_integer]); the one conversion that rounds by design,
    from BigInt to number, is [of_bigint]. *)

Inductive number : Type :=
| NaN
| Inf (neg : bool)
| Fin (mant : Z) (scale : nat).

(** An integer-valued number. *)
Definition Int (z : Z) : number := Fin z 0.

(** [Number.MAX_SAFE_INTEGER] and [Number.isSafeInteger] on an integer:
    the integers on which double arithmetic is the arithmetic of [Z], as
    long as the result is one of them too. *)
Definition MAX_SAFE_INTEGER : Z := 2 ^ 53 - 1.

Definition safe_integer (z : Z) : Prop :=
  - MAX_SAFE_INTEGER <= z <= MAX_SAFE_INTEGER.

(** [Number(x.toString())] for a BigInt [x]: the double nearest to [x],
    the even one of two that are equally near, and an infinity from
    [2^1024 - 2^970] on. Below [2^53] the value is [x] itself; above, the
    doubles are the multiples of [2^e] with [e = log2 |x| - 52]. *)
Definition of_bigint (x : Z) : number :=
  let a := Z.abs x in
  if a <? 2 ^ 53 then Int x
  else
    let e := Z.log2 a - 52 in
    let q := a / 2 ^ e in
    let r := a mod 2 ^ e in
    let half := 2 ^ (e - 1) in
    let q' := if r <? half then q
              else if half <? r then q + 1
              else if Z.even q then q else q + 1 in
    let v := q' * 2 ^ e in
    if 2 ^ 1024 <=? v then Inf (x <? 0) else Int (Z.sgn x * v).

(** Trailing zeros of the fraction are dropped, so that equal values have
    equal representations. *)
Fixpoint norm (m : Z) (sc : nat) : number :=
  match sc with
  | O => Fin m O
  | S sc' => if (m mod 10 =? 0) then norm (m / 10) sc' else Fin m sc
  end.

(** [align m from to] rescales the mantissa [m] of scale [from] to the
    larger scale [to]. *)
Definition align (m : Z) (from to : nat) : Z :=
  m * 10 ^ Z.of_nat (to - from).

Definition neg (x : number) : number :=
  match x with
  | NaN => NaN
  | Inf s => Inf (negb s)
  | Fin m sc => Fin (- m) sc
  end.

(** [x + y] *)
Definition add (x y : number) : number :=
  match x, y with
  | NaN, _ | _, NaN => NaN
  | Inf a, Inf b => if Bool.eqb a b then Inf a else NaN
  | Inf a, Fin _ _ => Inf a
  | Fin _ _, Inf b => Inf b
  | Fin m1 s1, Fin m2 s2 =>
      let s := Nat.max s1 s2 in norm (align m1 s1 s + align m2 s2 s) s
  end.

(** [x - y] *)
Definition sub (x y : number) : number := add x (neg y).

(** Three-way comparison of two non-NaN numbers. *)
Definition cmp (x y : number) : option comparison :=
  match x, y with
  | NaN, _ | _, NaN => None
  | Inf a, Inf b => Some (if a then (if b then Eq else Lt) else (if b then Gt else Eq))
  | Inf a, Fin _ _ => Some (if a then Lt else Gt)
  | Fin _ _, Inf b => Some (if b then Gt else Lt)
  | Fin m1 s1, Fin m2 s2 =>
      let s := Nat.max s1 s2 in Some (align m1 s1 s ?= align m2 s2 s)
  end.

(** [x < y], [x > y], [x >= y], [x <= y]: all false when an operand is NaN. *)
Definition lt (x y : number) : bool :=
  match cmp x y with Some Lt => true | _ => false end.
Definition gt (x y : number) : bool := lt y x.
Definition ge (x y : number) : bool :=
  match cmp x y with Some Gt | Some Eq => true | _ => false end.
Definition le (x y : number) : bool := ge y x.

(** [x === y] on numbers: NaN is not equal to itself. *)
Definition eqb (x y : number) : bool :=
  match cmp x y with Some Eq => true | _ => false end.

(** ToBoolean on a number. *)
Definition truthy (x : number) : bool :=
  match x with
  | NaN => false
  | Inf _ => true
  | Fin m _ => negb (m =? 0)
  end.

(** [x || y] on numbers. *)
Definition or (x y : number) : number := if truthy x then x else y.

(** A number that is neither NaN nor infinite. *)
Definition finite (x : number) : bool :=
  match x with Fin _ _ => true | _ => false end.

(** [Number.isNaN(x)] and, on a number, the global [isNaN(x)]. *)
Definition isNaN (x : number) : bool :=
  match x with NaN => true | _ => false end.

(** [Math.min(x, y)] *)
Definition min (x y : number) : number :=
  match cmp x y with
  | None => NaN
  | Some Gt => y
  | Some _ => x
  end.

(** ** Characters and digit strings

    A string is a sequence of one-byte characters. Of the white space of
    ECMAScript the ASCII characters are recognised: tab, line feed,
    vertical tab, form feed, carriage return and space. *)

Definition is_ws (c : ascii) : bool :=
  let n := nat_of_ascii c in
  (Nat.eqb n 9 || Nat.eqb n 10 || Nat.eqb n 11 || Nat.eqb n 12
   || Nat.eqb n 13 || Nat.eqb n 32)%bool.

Definition is_digit (c : ascii) : bool :=
  let n := nat_of_ascii c in (Nat.leb 48 n && Nat.leb n 57)%bool.

Definition digit_val (c : ascii) : Z := Z.of_nat (nat_of_ascii c - 48).

(** Value of a hexadecimal, octal or binary digit, if [c] is one. *)
Definition radix_digit (radix : Z) (c : ascii) : option Z :=
  let n := Z.of_nat (nat_of_ascii c) in
  let v := if (48 <=? n) && (n <=? 57) then Some (n - 48)
           else if (97 <=? n) && (n <=? 102) then Some (n - 87)
           else if (65 <=? n) && (n <=? 70) then Some (n - 55)
           else None in
  match v with
  | Some d => if d <? radix then Some d else None
  | None => None
  end.

Fixpoint drop_ws (l : list ascii) : list ascii :=
  match l with
  | c :: l' => if is_ws c then drop_ws l' else l
  | [] => []
  end.

(** The longest prefix of decimal digits, and what follows it. *)
Fixpoint span_digits (l : list ascii) : list ascii * list ascii :=
  match l with
  | c :: l' =>
      if is_digit c then let '(ds, r) := span_digits l' in (c :: ds, r)
      else ([], l)
  | [] => ([], [])
  end.

Definition digits_value (ds : list ascii) : Z :=
  fold_left (fun acc c => 10 * acc + digit_val c) ds 0.

Fixpoint radix_value (radix : Z) (l : list ascii) (acc : Z) : option Z :=
  match l with
  | [] => Some acc
  | c :: l' =>
      match radix_digit radix c with
      | Some d => radix_value radix l' (radix * acc + d)
      | None => None
      end
  end.

(** The decimal digits of a non-negative integer, most significant first. *)
Definition digit_chars (a : Z) : list ascii :=
  list_ascii_of_string (NilZero.string_of_uint (N.to_uint (Z.to_N a))).

Definition is_zero_char (c : ascii) : bool := Ascii.eqb c "0".

Fixpoint drop_zeros (l : list ascii) : list ascii :=
  match l with
  | c :: l' => if is_zero_char c then drop_zeros l' else l
  | [] => []
  end.

Definition strip_trailing_zeros (l : list ascii) : list ascii :=
  rev (drop_zeros (rev l)).

(** ** [Number.prototype.toString(10)]

    With [ds] the significant digits ([k] of them) and [n] the position
    of the decimal point, the four layouts of Number::toString: plain
    integer, fraction with the point inside the digits, fraction below
    one, and exponent notation. *)
Definition toString10 (x : number) : string :=
  match x with
  | NaN => "NaN"
  | Inf false => "Infinity"
  | Inf true => "-Infinity"
  | Fin m sc =>
      if m =? 0 then "0" else
      let all := digit_chars (Z.abs m) in
      let n := Z.of_nat (length all) - Z.of_nat sc in
      let ds := strip_trailing_zeros all in
      let k := Z.of_nat (length ds) in
      let body :=
        if (k <=? n) && (n <=? 21) then
          ds ++ repeat "0"%char (Z.to_nat (n - k))
        else if (0 <? n) && (n <=? 21) then
          firstn (Z.to_nat n) ds ++ "."%char :: skipn (Z.to_nat n) ds
        else if (-6 <? n) && (n <=? 0) then
          "0"%char :: "."%char :: repeat "0"%char (Z.to_nat (- n)) ++ ds
        else
          let e := n - 1 in
          let etxt := (if e <? 0 then "-"%char else "+"%char)
                        :: digit_chars (Z.abs e) in
          match ds with
          | [] => []
          | [d] => d :: "e"%char :: etxt
          | d :: rest => d :: "."%char :: rest ++ "e"%char :: etxt
          end in
      string_of_list_ascii ((if m <? 0 then ["-"%char] else []) ++ body)
  end.

(** ** [parseInt(s, 10)]

    Leading white space is skipped, an optional sign is read, and the
    longest prefix of decimal digits is the value; no digits give NaN.
    With an explicit radix of 10 no "0x" prefix is recognised. *)
Definition parseInt10 (s : string) : number :=
  let l := drop_ws (list_ascii_of_string s) in
  let '(sign, l) :=
    match l with
    | "-"%char :: r => (-1, r)
    | "+"%char :: r => (1, r)
    | _ => (1, l)
    end in
  let '(ds, _) := span_digits l in
  match ds with
  | [] => NaN
  | _ => Int (sign * digits_value ds)
  end.

(** ** [Number(s)] on a string (StringToNumber)

    White space is trimmed at both ends; the empty string is 0; the rest
    must be, in full, "Infinity" with an optional sign, a signed decimal
    literal with optional fraction and exponent, or an unsigned 0x, 0o or
    0b integer literal. Anything else is NaN. *)
Definition trim (l : list ascii) : list ascii :=
  rev (drop_ws (rev (drop_ws l))).

Definition infinity_chars : list ascii := list_ascii_of_string "Infinity".

Definition list_ascii_eqb (a b : list ascii) : bool :=
  String.eqb (string_of_list_ascii a) (string_of_list_ascii b).

(** The exponent part after the digits: nothing, or [e] or [E], an
    optional sign and at least one digit, up to the end of the input. *)
Definition parse_exponent (l : list ascii) : option Z :=
  match l with
  | [] => Some 0
  | c :: r =>
      if (Ascii.eqb c "e" || Ascii.eqb c "E")%bool then
        let '(sign, r) :=
          match r with
          | "-"%char :: r' => (-1, r')
          | "+"%char :: r' => (1, r')
          | _ => (1, r)
          end in
        match span_digits r with
        | ((_ :: _) as ds, []) => Some (sign * digits_value ds)
        | _ => None
        end
      else None
  end.

(** An unsigned decimal literal: digits, an optional point and fraction
    digits (one of the two digit runs may be empty, not both), and the
    exponent part. *)
Definition parse_unsigned_decimal (l : list ascii) : option number :=
  let '(ip, r1) := span_digits l in
  let '(dot, fp, r2) :=
    match r1 with
    | "."%char :: r => let '(fp, r2) := span_digits r in (true, fp, r2)
    | _ => (false, [], r1)
    end in
  match ip, fp with
  | [], [] => None
  | _, _ =>
      match parse_exponent r2 with
      | None => None
      | Some e =>
          let m := digits_value (ip ++ fp) in
          let p := e - Z.of_nat (length fp) in
          if 0 <=? p then Some (Int (m * 10 ^ p))
          else Some (norm m (Z.to_nat (- p)))
      end
  end.

Definition parse_str_decimal (l : list ascii) : number :=
  let '(negative, l) :=
    match l with
    | "-"%char :: r => (true, r)
    | "+"%char :: r => (false, r)
    | _ => (false, l)
    end in
  let v := if list_ascii_eqb l infinity_chars then Some (Inf false)
           else parse_unsigned_decimal l in
  match v with
  | Some x => if negative then neg x else x
  | None => NaN
  end.

Definition parse_non_decimal (l : list ascii) : option number :=
  match l with
  | "0"%char :: p :: ((_ :: _) as ds) =>
      let radix :=
        if (Ascii.eqb p "x" || Ascii.eqb p "X")%bool then Some 16
        else if (Ascii.eqb p "o" || Ascii.eqb p "O")%bool then Some 8
        else if (Ascii.eqb p "b" || Ascii.eqb p "B")%bool then Some 2
        else None in
      match radix with
      | Some r =>
          match radix_value r ds 0 with
          | Some v => Some (Int v)
          | None => Some NaN
          end
      | None => None
      end
  | _ => None
  end.

Definition Number_of_string (s : string) : number :=
  let l := trim (list_ascii_of_string s) in
  match l with
  | [] => Int 0
  | _ =>
      match parse_non_decimal l with
      | Some x => x
      | None => parse_str_decimal l
      end
  end.

(** The characters [toString10] can produce for a number other than NaN:
    digits, the sign, the point, the exponent mark and the letters of
    "Infinity". *)
Definition reprint_char (c : ascii) : bool :=
  is_digit c
  || existsb (Ascii.eqb c) (list_ascii_of_string "-+.eInfity").

Definition printable (l : list ascii) : Prop :=
  Forall (fun c => reprint_char c = true) l.

(** [s] is the canonical decimal reprint of a number: some number other
    than NaN prints as [s]. *)
Definition canonical_reprint (s : string) : Prop :=
  exists x : number, x <> NaN /\ toString10 x = s.

(** ** Primitive values that reach the provider as parameters *)

Inductive value : Type :=
| Undefined
| Num (n : number)
| Str (s : string).

(** ToBoolean *)
Definition truthy_value (v : value) : bool :=
  match v with
  | Undefined => false
  | Num n => truthy n
  | Str s => negb (String.eqb s "")
  end.

(** [Number(v)] *)
Definition Number (v : value) : number :=
  match v with
  | Undefined => NaN
  | Num n => n
  | Str s => Number_of_string s
  end.

(** [s !== v] for a string [s]: equal only to the same string. *)
Definition str_strict_neq (s : string) (v : value) : bool :=
  match v with
  | Str s' => negb (String.eqb s s')
  | _ => true
  end.

(** [typeof v === 'string'] *)
Definition is_string (v : value) : bool :=
  match v with Str _ => true | _ => false end.

End JS.

(** [x * y] and [parseInt(s)] without a radix, used by the fee of a
    transaction ([receipt.gasUsed * parseInt(tx.gasPrice)]). *)
Module JSArith.
Import JS.

Definition mul (x y : number) : number :=
  match x, y with
  | NaN, _ | _, NaN => NaN
  | Inf a, Inf b => Inf (xorb a b)
  | Inf a, Fin m _ =>
      if m =? 0 then NaN else Inf (xorb a (m <? 0))
  | Fin m _, Inf b =>
      if m =? 0 then NaN else Inf (xorb b (m <? 0))
  | Fin m1 s1, Fin m2 s2 => norm (m1 * m2) (s1 + s2)
  end.

(** The longest prefix of digits of the radix, as a value. *)
Fixpoint radix_prefix (radix : Z) (l : list ascii) (acc : option Z) : option Z :=
  match l with
  | [] => acc
  | c :: l' =>
      match radix_digit radix c with
      | Some d => radix_prefix radix l' (Some (radix * default 0 acc + d))
      | None => acc
      end
  end.

(** [parseInt(s)]: as [parseInt10], but a "0x" or "0X" after the sign
    switches to radix 16. *)
Definition parseInt (s : string) : number :=
  let l := drop_ws (list_ascii_of_string s) in
  let '(sign, l) :=
    match l with
    | "-"%char :: r => (-1, r)
    | "+"%char :: r => (1, r)
    | _ => (1, l)
    end in
  let '(radix, l) :=
    match l with
    | "0"%char :: "x"%char :: r => (16, r)
    | "0"%char :: "X"%char :: r => (16, r)
    | _ => (10, l)
    end in
  match radix_prefix radix l None with
  | Some v => Int (sign * v)
  | None => NaN
  end.

End JSArith.

(** [_.range(start, end)] of lodash: both ends are made finite, the step
    is 1 when [start < end] and -1 otherwise, and the array holds
    [max(ceil((end - start) / step), 0)] values from [start] on.  An array
    longer than 2^32 - 1 cannot be allocated. *)
Module Lodash.
Import JS.

Definition MAX_INTEGER : Z := (2 ^ 53 - 1) * 2 ^ 971.

Definition toFinite (x : number) : number :=
  match x with
  | NaN => Int 0
  | Inf s => Int (if s then - MAX_INTEGER else MAX_INTEGER)
  | Fin _ _ => x
  end.

(** The least integer not below a finite number; 0 on the others. *)
Definition ceil (x : number) : Z :=
  match x with
  | Fin m sc => - ((- m) / 10 ^ Z.of_nat sc)
  | _ => 0
  end.

Definition range (start end_ : number) : string + list number :=
  let s := toFinite start in
  let e := toFinite end_ in
  let step := if lt s e then 1 else -1 in
  let len := Z.max (ceil (if lt s e then sub e s else sub s e)) 0 in
  if 2 ^ 32 - 1 <? len then inl "RangeError: Invalid array length"%string
  else inr (map (fun i => add s (Int (Z.of_nat i * step))) (seq 0 (Z.to_nat len))).

End Lodash.

(* ===================================================================== *)
(** * Effects and collaborators                                           *)
(* ===================================================================== *)

(** An awaited computation settles with a value or with a thrown error
    (the error's message). *)
Inductive outcome (A : Type) : Type :=
| Ok (a : A)
| Throw (e : string).
Arguments Ok {A} a.
Arguments Throw {A} e.

(** ** Data exchanged with the peers and the data API *)

(** The argument of [web3.eth.getBlock]. *)
Inductive BlockTag : Type :=
| Latest
| ByNumber (n : JS.number)
| ByHash (h : option string).

(** A block as web3 returns it. [rb_height] is the [height] property,
    which web3 blocks do not carry and [blockTransform] reads first. *)
Record RawBlock : Type := {
  rb_height : option JS.number;
  rb_number : JS.number;
  rb_hash : string;
  rb_timestamp : Z;
  rb_parentHash : string;
  rb_transactions : list string;
  rb_size : Z;
  rb_nonce : string;
  rb_difficulty : string;
  rb_gasUsed : Z;
  rb_gasLimit : Z;
  rb_baseFeePerGas : option Z
}.

Record Receipt : Type := {
  rc_gasUsed : JS.number;
  rc_status : bool
}.

(** A transaction object as [transformTransactionData] reads it: the
    properties web3 sets ([tx_blockNumber] and [tx_blockHash] are null
    while the transaction is pending), the snake-case properties of the
    data API's records, and the properties [_getTransaction] adds. An
    absent or null property is [None]. *)
Record Tx : Type := {
  tx_hash : option string;
  tx_blockNumber : option JS.number;
  tx_block_number : option JS.number;
  tx_blockHash : option string;
  tx_block_hash : option string;
  tx_blockTime : option string;
  tx_block_timestamp : option string;
  tx_blockTimeNormalized : option string;
  tx_fee : option JS.number;
  tx_value : option string;
  tx_gasLimit : option JS.number;
  tx_gas : option JS.number;
  tx_gasPrice : option string;
  tx_gas_price : option string;
  tx_nonce : option JS.number;
  tx_to : option string;
  tx_to_address : option string;
  tx_from : option string;
  tx_from_address : option string;
  tx_data : option string;
  tx_effects : option string;
  tx_receipt : option Receipt
}.

(** The result of [transformTransactionData]. *)
Record TransformedTx : Type := {
  t_txid : option string;
  t_chain : string;
  t_network : string;
  t_blockHeight : option JS.number;
  t_blockHash : option string;
  t_blockTime : option string;
  t_blockTimeNormalized : option string;
  t_fee : option JS.number;
  t_value : option string;
  t_gasLimit : option JS.number;
  t_gasPrice : option string;
  t_nonce : option JS.number;
  t_to : option string;
  t_from : option string;
  t_data : option string;
  t_effects : option string
}.

Record FeeHistory : Type := {
  baseFeePerGas : list Z;
  reward : list (list Z)
}.

(** A date handed to the data API: the caller's value as received, or
    [new Date(d)] moved forward by whole calendar days with [setDate]. *)
Inductive DateV : Type :=
| AsGiven (d : string)
| NewDate (d : string) (days : Z).

(** An entry of the connection registry: the [{ rpc, web3, dataType }]
    object. [rpcId] stands for the identity of the object. *)
Record Rpc : Type := {
  rpcId : nat;
  dataType : string
}.

(** ** What happens outside the process *)

Inductive EthRequest : Type :=
| GetChainId
| GetBlockNumber
| GetBlock (tag : BlockTag)
| GetBlockBatch (heights : list JS.number)
| GetFeeHistory (count : Z) (newest : JS.number) (percentiles : list Z)
| GetTransaction (txId : string)
| GetTransactionReceipt (txId : string).

Inductive MoralisRequest : Type :=
| GetBlockByDate (chainId : Z) (date : DateV)
| GetBlockByHash (chainId : Z) (blockId : string)
| GetNativeBalanceByBlock (chainId : Z) (block : option JS.number)
                          (addresses : list string).

Inductive Event : Type :=
| EProbe (rpc : nat)
| EReconnect (rpc : nat)
| EConnect (network : string) (type : option string)
| EEth (rpc : nat) (req : EthRequest)
| EMoralis (req : MoralisRequest)
| EStorage (walletId : string)
| EUnhandledRejection (e : string)
| ELog (level : string) (msg : string) (detail : string).

(** The events that leave the process for a peer or the data API. *)
Definition is_network_call (e : Event) : bool :=
  match e with
  | EProbe _ | EReconnect _ | EConnect _ _ | EEth _ _ | EMoralis _ => true
  | EStorage _ | EUnhandledRejection _ | ELog _ _ _ => false
  end.

(** ** The collaborators

    One provider instance ([this_chain]) together with the answers of
    everything it calls and that is not part of this class: the helpers
    of [./provider], the peers behind the registry entries, the Moralis
    data API, the wallet storage of the internal provider, and the
    statistics and conversion utilities. *)
Record Env : Type := {
  this_chain : string;
  (* ./provider: isValidProviderType(params?.type, rpc.dataType), and
     the dataType of the configuration getProvider finds for a network
     and a requested type (it throws when it finds none) *)
  isValidProviderType : option string -> string -> bool;
  getProvider : string -> option string -> outcome (option string);
  (* a peer, by the identity of its registry entry: whether
     rpc.web3.eth.getBlockNumber() resolves before the 5000 ms timer of
     the race rejects; whether currentProvider.disconnect is a function;
     whether currentProvider.connected holds after disconnect() and
     connect() *)
  probe : nat -> bool;
  has_disconnect : nat -> bool;
  connected : nat -> bool;
  eth_getChainId : nat -> outcome Z;
  eth_getBlockNumber : nat -> outcome JS.number;
  eth_getBlock : nat -> BlockTag -> outcome (option RawBlock);
  eth_getFeeHistory : nat -> Z -> JS.number -> list Z -> outcome FeeHistory;
  eth_getTransaction : nat -> string -> outcome (option Tx);
  eth_getTransactionReceipt : nat -> string -> outcome (option Receipt);
  (* MoralisAPI, each answer being the parsed body *)
  moralis_getBlockByDate : Z -> DateV -> outcome JS.value;
  moralis_getBlockByHash : Z -> string -> outcome JS.value;
  moralis_getNativeBalanceByBlock :
    Z -> option JS.number -> list string -> outcome (option JS.value);
  (* InternalStateProvider *)
  getWalletAddresses : string -> outcome (list string);
  (* utils *)
  unixToDate : Z -> string;
  getNthQuartileMedian : list Z -> JS.number -> outcome Z;
  (* EVMTransactionStorage._apiTransform *)
  TxJSON : Type;
  apiTransform : TransformedTx -> TxJSON
}.

(** ** The state and the monad

    [rpcs] is the static registry [BaseEVMStateProvider.rpcs], an object
    keyed by chain whose values are objects keyed by network whose values
    are arrays of entries. [nextId] names the next object to be created
    and [trace] records, in order, what the process did to the outside. *)
Record World : Type := {
  rpcs : gmap string (gmap string (list Rpc));
  nextId : nat;
  trace : list Event
}.

Definition M (A : Type) : Type := World -> outcome A * World.

Definition ret {A : Type} (a : A) : M A := fun w => (Ok a, w).

Definition throw {A : Type} (e : string) : M A := fun w => (Throw e, w).

Definition bind {A B : Type} (m : M A) (k : A -> M B) : M B :=
  fun w =>
    match m w with
    | (Ok a, w') => k a w'
    | (Throw e, w') => (Throw e, w')
    end.

(** [try { m } catch (err) { h err }] *)
Definition try_catch {A : Type} (m : M A) (h : string -> M A) : M A :=
  fun w =>
    match m w with
    | (Ok a, w') => (Ok a, w')
    | (Throw e, w') => h e w'
    end.

(** The world after one more event. *)
Definition record_event (e : Event) (w : World) : World :=
  {| rpcs := rpcs w; nextId := nextId w; trace := trace w ++ [e] |}.

Definition emit (e : Event) : M unit := fun w => (Ok tt, record_event e w).

Definition settle {A : Type} (o : outcome A) : M A := fun w => (o, w).

Declare Scope M_scope.
Delimit Scope M_scope with M.
Notation "x <- c1 ;; c2" := (bind c1 (fun x => c2))
  (at level 100, c1 at next level, right associativity) : M_scope.
Notation "c1 ;; c2" := (bind c1 (fun _ => c2))
  (at level 100, right associativity) : M_scope.
Local Open Scope M_scope.

(** A request to the outside: it is recorded, then it settles. *)
Definition await {A : Type} (e : Event) (o : outcome A) : M A :=
  emit e ;; settle o.

(** [logger.info] and [logger.error] *)
Definition logger_info (msg : string) : M unit := emit (ELog "info" msg "").
Definition logger_error (msg detail : string) : M unit :=
  emit (ELog "error" msg detail).

(** [rpcs[chain]?.[network]] *)
Definition registered (w : World) (chain network : string) : option (list Rpc) :=
  rpcs w !! chain ≫= (.!! network).

(** The world in which [rpcs[chain][network]] is [arr]; [rpcs[chain]] is
    created when absent. *)
Definition store (chain network : string) (arr : list Rpc) (w : World) : World :=
  {| rpcs := <[chain := <[network := arr]> (default ∅ (rpcs w !! chain))]> (rpcs w);
     nextId := nextId w;
     trace := trace w |}.

Definition set_registered (chain network : string) (arr : list Rpc) : M unit :=
  fun w => (Ok tt, store chain network arr w).

(** A new object takes the next identity. *)
Definition take_id (w : World) : World :=
  {| rpcs := rpcs w; nextId := S (nextId w); trace := trace w |}.

Definition new_rpc (type : string) : M Rpc :=
  fun w => (Ok {| rpcId := nextId w; dataType := type |}, take_id w).

(** The array a method works on, [rpcs[chain]?.[network] || []]. *)
Definition pool (chain network : string) (w : World) : list Rpc :=
  default [] (registered w chain network).

Arguments record_event : simpl never.
Arguments store : simpl never.
Arguments take_id : simpl never.
Arguments pool : simpl never.

(** [arr.indexOf(rpc)], where entries are compared by identity. *)
Fixpoint indexOf_from (i : Z) (rpc : Rpc) (arr : list Rpc) : Z :=
  match arr with
  | [] => -1
  | x :: arr' =>
      if Nat.eqb (rpcId x) (rpcId rpc) then i else indexOf_from (i + 1) rpc arr'
  end.

Definition indexOf (rpc : Rpc) (arr : list Rpc) : Z := indexOf_from 0 rpc arr.

(** [arr.splice(idx, 1)]: a negative index counts from the end. *)
Definition splice1 (idx : Z) (arr : list Rpc) : list Rpc :=
  let len := Z.of_nat (length arr) in
  let start := if idx <? 0 then Z.max (len + idx) 0 else Z.min idx len in
  delete (Z.to_nat start) arr.

(** ** Parameters and results of the public operations *)

(** [IBlock], the block record of the node. *)
Record IBlock : Type := {
  ib_chain : option string;
  ib_network : option string;
  ib_height : JS.number;
  ib_hash : string;
  ib_time : string;
  ib_timeNormalized : string;
  ib_previousBlockHash : string;
  ib_nextBlockHash : string;
  ib_transactionCount : Z;
  ib_size : Z;
  ib_reward : Z;
  ib_processed : bool;
  ib_nonce : string;
  ib_difficulty : string;
  ib_gasUsed : Z;
  ib_gasLimit : Z;
  ib_baseFeePerGas : option Z;
  ib_transactions : option (list string)
}.

(** [{ ...convertedBlock, confirmations }] *)
Record BlockWithConfirmations : Type := {
  cb_block : IBlock;
  cb_confirmations : JS.number
}.

(** The [sort] argument: a number, or an object with one field and its
    direction such as [{ height: -1 }]. *)
Inductive SortSpec : Type :=
| SortNumber (n : JS.number)
| SortBy (field : string) (direction : JS.number).

(** [sort === -1]: an object is never strictly equal to a number. *)
Definition sort_is_minus_one (s : SortSpec) : bool :=
  match s with
  | SortNumber n => JS.eqb n (JS.Int (-1))
  | SortBy _ _ => false
  end.

Record Args : Type := {
  a_startDate : option string;
  a_endDate : option string;
  a_date : option string;
  a_since : JS.value;
  a_direction : JS.value;
  a_paging : JS.value;
  a_limit : option JS.number;
  a_sort : option SortSpec
}.

(** [args = {}] *)
Definition no_args : Args :=
  {| a_startDate := None; a_endDate := None; a_date := None;
     a_since := JS.Undefined; a_direction := JS.Undefined;
     a_paging := JS.Undefined; a_limit := None; a_sort := None |}.

Record GetBlockParams : Type := {
  p_chain : option string;
  p_network : option string;
  p_sinceBlock : JS.value;
  p_blockId : option string;
  p_args : option Args
}.

Record Options : Type := {
  o_limit : JS.number;
  o_sort : SortSpec;
  o_since : JS.value;
  o_direction : JS.value;
  o_paging : JS.value
}.

(** [ExternalGetBlockResults], with the [block] and [height] properties
    that [getBlocksParams] adds on the way. *)
Record Query : Type := {
  startBlock : JS.number;
  endBlock : JS.number;
  q_block : option string;
  q_height : option JS.number
}.

Definition set_block (q : Query) (b : string) : Query :=
  {| startBlock := startBlock q; endBlock := endBlock q;
     q_block := Some b; q_height := q_height q |}.

Definition set_height (q : Query) (h : JS.number) : Query :=
  {| startBlock := startBlock q; endBlock := endBlock q;
     q_block := q_block q; q_height := Some h |}.

Definition set_startBlock (q : Query) (n : JS.number) : Query :=
  {| startBlock := n; endBlock := endBlock q;
     q_block := q_block q; q_height := q_height q |}.

Definition set_endBlock (q : Query) (n : JS.number) : Query :=
  {| startBlock := startBlock q; endBlock := n;
     q_block := q_block q; q_height := q_height q |}.

(** What [getBlocks] resolves with: the array [Promise.all] resolved
    with, the array of converted blocks, an error handed back as a value
    by [.catch(error => error)], or undefined. *)
Inductive GetBlocksResult : Type :=
| RawBlocks (blocks : list (option RawBlock))
| ConvertedBlocks (blocks : list BlockWithConfirmations)
| ErrorValue (e : string)
| NoBlocks.

Record StreamTransactionParams : Type := {
  st_chain : option string;
  st_network : option string;
  st_txId : JS.value
}.

Record GetFeeParams : Type := {
  f_network : string;
  f_target : option JS.number
}.

Record FeeResult : Type := {
  feerate : JS.number;
  blocks : JS.number
}.

Record Wallet : Type := {
  w_id : option string
}.

Record GetWalletBalanceAtTimeParams : Type := {
  wb_network : string;
  wb_time : string;
  wb_wallet : option Wallet
}.

Record WalletBalance : Type := {
  unconfirmed : JS.number;
  confirmed : JS.value;
  balance : JS.value
}.

(** ToBoolean on an optional string: undefined and "" are falsy. *)
Definition truthy_str (o : option string) : bool :=
  match o with
  | Some s => negb (String.eqb s "")
  | None => false
  end.

(** A value used as a property key or in a template: undefined reads
    "undefined". *)
Definition key_of (o : option string) : string := default "undefined"%string o.

(** [o || d] for an optional number. *)
Definition or_undefined (o : option JS.number) (d : JS.number) : JS.number :=
  match o with
  | Some n => JS.or n d
  | None => d
  end.

(** ToBoolean on an optional number. *)
Definition truthy_opt (o : option JS.number) : bool :=
  match o with
  | Some n => JS.truthy n
  | None => false
  end.

(** ** Promises

    [Promise.all] resolves with all the values or rejects with the first
    rejection. [p.then(x)] runs [x] on the value only when [x] is
    callable; any other argument, an array of promises for one, is
    ignored and the value passes through. *)
Fixpoint Promise_all {A : Type} (ps : list (outcome A)) : outcome (list A) :=
  match ps with
  | [] => Ok []
  | Ok a :: ps' =>
      match Promise_all ps' with
      | Ok l => Ok (a :: l)
      | Throw e => Throw e
      end
  | Throw e :: _ => Throw e
  end.

Inductive ThenArg (A B C : Type) : Type :=
| ThenFunction (f : A -> outcome B)
| ThenArray (promises : list (outcome C)).
Arguments ThenFunction {A B C} f.
Arguments ThenArray {A B C} promises.

Definition Promise_then {A B C : Type} (p : outcome A) (x : ThenArg A B C)
  : outcome (A + B) :=
  match p with
  | Throw e => Throw e
  | Ok a =>
      match x with
      | ThenFunction f =>
          match f a with
          | Ok b => Ok (inr b)
          | Throw e => Throw e
          end
      | ThenArray _ => Ok (inl a)
      end
  end.

(** The rejections among promises that nothing listens to. *)
Fixpoint unhandled {A : Type} (ps : list (outcome A)) : M unit :=
  match ps with
  | [] => ret tt
  | Ok _ :: ps' => unhandled ps'
  | Throw e :: ps' => (emit (EUnhandledRejection e) ;; unhandled ps')%M
  end.


(* ===================================================================== *)
(** * BaseEVMExternalStateProvider                                        *)
(* ===================================================================== *)

Section Provider.

Variable env : Env.

(** ** getWeb3

    The [for ... of] loop walks the array held in the registry by index:
    each round reads the entry at the current index of the array as it is
    then, and an entry removed by [splice] shifts the later ones down
    while the index still advances. [fuel] bounds the rounds; the length
    of the array on entry is enough, since the array never grows during
    the loop. A call is followed from its start to its end on its own:
    what another call does to the registry while this one waits for a
    probe is outside the model. *)
Fixpoint getWeb3_loop (network : string) (type : option string)
    (fuel i : nat) : M (option Rpc) :=
  match fuel with
  | O => ret None
  | S fuel' => fun w =>
      match pool (this_chain env) network w !! i with
      | None => (Ok None, w)
      | Some rpc =>
          (if negb (isValidProviderType env type (dataType rpc)) then
             getWeb3_loop network type fuel' (S i)
           else
             emit (EProbe (rpcId rpc)) ;;
             if probe env (rpcId rpc) then ret (Some rpc)
             else
               (* try reconnecting *)
               reconnected <-
                 (if has_disconnect env (rpcId rpc) then
                    emit (EReconnect (rpcId rpc)) ;;
                    ret (connected env (rpcId rpc))
                  else ret false) ;;
               if (reconnected : bool) then ret (Some rpc)
               else
                 (fun w1 =>
                    let arr := pool (this_chain env) network w1 in
                    let idx := indexOf rpc arr in
                    set_registered (this_chain env) network (splice1 idx arr) w1) ;;
                 getWeb3_loop network type fuel' (S i)) w
      end
  end.

Definition getWeb3 (network : string) (type : option string) : M Rpc :=
  fun w =>
    (found <- getWeb3_loop network type
                (length (pool (this_chain env) network w)) 0 ;;
     match found with
     | Some rpc => ret rpc
     | None =>
         logger_info ("Making a new connection for " +:+ this_chain env
                        +:+ ":" +:+ network) ;;
         providerConfig <- settle (getProvider env network type) ;;
         emit (EConnect network type) ;;
         rpcObj <- new_rpc (match providerConfig with
                            | Some d => if String.eqb d "" then "combined"%string else d
                            | None => "combined"%string
                            end) ;;
         (fun w1 =>
            set_registered (this_chain env) network
              (pool (this_chain env) network w1 ++ [rpcObj]) w1) ;;
         ret rpcObj
     end) w.

(** ** getChainId *)
Definition getChainId (network : string) : M Z :=
  rpc <- getWeb3 network None ;;
  await (EEth (rpcId rpc) GetChainId) (eth_getChainId env (rpcId rpc)).

(** ** transformBlockData

    [block] is null when the peer has no such block; reading a property
    of null throws. *)
Definition transformBlockData (chain network : option string)
    (block : option RawBlock) (includeTxs : bool) : outcome IBlock :=
  match block with
  | None => Throw "TypeError: Cannot read properties of null (reading 'number')"
  | Some b =>
      Ok {| ib_chain := chain;
            ib_network := network;
            ib_height := rb_number b;
            ib_hash := rb_hash b;
            ib_time := unixToDate env (rb_timestamp b);
            ib_timeNormalized := unixToDate env (rb_timestamp b);
            ib_previousBlockHash := rb_parentHash b;
            ib_nextBlockHash := "";
            ib_transactionCount := Z.of_nat (length (rb_transactions b));
            ib_size := rb_size b;
            ib_reward := 5;
            ib_processed := true;
            ib_nonce := rb_nonce b;
            ib_difficulty := rb_difficulty b;
            ib_gasUsed := rb_gasUsed b;
            ib_gasLimit := rb_gasLimit b;
            ib_baseFeePerGas := rb_baseFeePerGas b;
            ib_transactions :=
              if includeTxs then Some (rb_transactions b) else None |}
  end.

(** ** getLocalTip *)
Definition getLocalTip (chain network : option string) (includeTxs : bool)
  : M IBlock :=
  rpc <- getWeb3 (key_of network) None ;;
  block <- await (EEth (rpcId rpc) (GetBlock Latest))
             (eth_getBlock env (rpcId rpc) Latest) ;;
  settle (transformBlockData chain network block includeTxs).

(** ** getBlockNumberByDate, getBlockNumberByBlockId,
       getNativeBalanceByBlock

    [block.number ? Number(block.number) : undefined] on the parsed body. *)
Definition getBlockNumberByDate (date : DateV) (network : string)
  : M (option JS.number) :=
  chainId <- getChainId network ;;
  number <- await (EMoralis (GetBlockByDate chainId date))
              (moralis_getBlockByDate env chainId date) ;;
  ret (if JS.truthy_value number then Some (JS.Number number) else None).

Definition getBlockNumberByBlockId (blockId : string) (network : string)
  : M (option JS.number) :=
  chainId <- getChainId network ;;
  number <- await (EMoralis (GetBlockByHash chainId blockId))
              (moralis_getBlockByHash env chainId blockId) ;;
  ret (if JS.truthy_value number then Some (JS.Number number) else None).

Definition getNativeBalanceByBlock (network : string)
    (block : option JS.number) (addresses : list string)
  : M (option JS.value) :=
  chainId <- getChainId network ;;
  await (EMoralis (GetNativeBalanceByBlock chainId block addresses))
    (moralis_getNativeBalanceByBlock env chainId block addresses).

(** ** getBlockTimestamp *)
Definition getBlockTimestamp (blockNumber : BlockTag) (network : string)
  : M string :=
  rpc <- getWeb3 network None ;;
  block <- await (EEth (rpcId rpc) (GetBlock blockNumber))
             (eth_getBlock env (rpcId rpc) blockNumber) ;;
  match block with
  | Some b => ret (unixToDate env (rb_timestamp b))
  | None => throw "TypeError: Cannot read properties of null (reading 'timestamp')"
  end.

(** ** getBlocksParams

    The body of the method, block by block; [query] is the object the
    method fills in. *)

(** [if (blockId) { ... }]: an identifier of 64 characters or more is a
    block hash, a shorter one must be the decimal reprint of the height
    it parses to. Identifiers are taken to be ASCII, as hashes and
    decimal heights are: on them [String.length] is [blockId.length]. *)
Definition read_blockId (blockId : option string) (query : Query) : M Query :=
  if truthy_str blockId then
    let blockId := key_of blockId in
    if (64 <=? String.length blockId)%nat then ret (set_block query blockId)
    else
      let height := JS.parseInt10 blockId in
      if JS.isNaN height || negb (String.eqb (JS.toString10 height) blockId)
      then throw "invalid block id provided"
      else ret (set_height query height)
  else ret query.

(** [if (date) { ... } if (startDate) { ... } if (endDate) { ... }] *)
Definition read_dates (args : Args) (network : option string) (query : Query)
  : M Query :=
  let '(startDate, endDate) :=
    if truthy_str (a_date args) then
      (Some (NewDate (key_of (a_date args)) 0),
       Some (NewDate (key_of (a_date args)) 1))
    else
      ((if truthy_str (a_startDate args)
        then Some (AsGiven (key_of (a_startDate args))) else None),
       (if truthy_str (a_endDate args)
        then Some (AsGiven (key_of (a_endDate args))) else None)) in
  query <-
    match startDate with
    | Some d =>
        n <- getBlockNumberByDate d (key_of network) ;;
        ret (set_startBlock query (or_undefined n (JS.Int 0)))
    | None => ret query
    end ;;
  match endDate with
  | Some d =>
      n <- getBlockNumberByDate d (key_of network) ;;
      ret (set_endBlock query (or_undefined n (JS.Int 0)))
  | None => ret query
  end.

(** [if (sinceBlock) { ... } else if (query?.block) { ... }] *)
Definition read_range (sinceBlock : JS.value) (limit : JS.number)
    (network : option string) (query : Query) : M Query :=
  if JS.truthy_value sinceBlock then
    let height := JS.Number sinceBlock in
    if JS.isNaN height || JS.str_strict_neq (JS.toString10 height) sinceBlock
    then throw "invalid block id provided"
    else ret (set_endBlock (set_startBlock query height) (JS.add height limit))
  else if truthy_str (q_block query) then
    blockNum <- getBlockNumberByBlockId (key_of (q_block query)) (key_of network) ;;
    if negb (truthy_opt blockNum) then
      throw ("Could not get block " +:+ key_of (q_block query))
    else ret (set_height query (default JS.NaN blockNum))
  else ret query.

(** [if (query?.height) { ... }] *)
Definition use_height (query : Query) : Query :=
  if truthy_opt (q_height query) then
    set_endBlock (set_startBlock query (default JS.NaN (q_height query)))
                 (default JS.NaN (q_height query))
  else query.

(** [if (!query.startBlock || !query.endBlock) { ... }]: the range is
    completed from the tip. *)
Definition use_tip (chain network : option string) (query : Query) : M Query :=
  if negb (JS.truthy (startBlock query)) || negb (JS.truthy (endBlock query))
  then
    tip <- getLocalTip chain network false ;;
    let tipHeight := ib_height tip in
    let query := set_endBlock query (JS.or (endBlock query) tipHeight) in
    ret (set_startBlock query
           (JS.or (startBlock query) (JS.sub (endBlock query) (JS.Int 1))))
  else ret query.

(** [if (limit > 0 && (query.endBlock - query.startBlock) > limit) { ... }] *)
Definition apply_limit (limit : JS.number) (query : Query) : Query :=
  if JS.gt limit (JS.Int 0)
     && JS.gt (JS.sub (endBlock query) (startBlock query)) limit
  then set_endBlock query (JS.add (startBlock query) limit)
  else query.

(** [if (sort === -1) { ... }] *)
Definition apply_sort (sort : SortSpec) (query : Query) : Query :=
  if sort_is_minus_one sort then
    let b := startBlock query in
    set_endBlock (set_startBlock query (endBlock query)) b
  else query.

Definition getBlocksParams (params : GetBlockParams) : M (Query * Options) :=
  let chain := p_chain params in
  let network := p_network params in
  let sinceBlock := p_sinceBlock params in
  let blockId := p_blockId params in
  let args := default no_args (p_args params) in
  let limit := default (JS.Int 10) (a_limit args) in
  let sort := default (SortBy "height" (JS.Int (-1))) (a_sort args) in
  let options := {| o_limit := limit; o_sort := sort; o_since := a_since args;
                    o_direction := a_direction args;
                    o_paging := a_paging args |} in
  let query := {| startBlock := JS.Int 0; endBlock := JS.Int 0;
                  q_block := None; q_height := None |} in
  if negb (truthy_str chain) || negb (truthy_str network) then
    throw "Missing required chain and/or network param"
  else
    query <- read_blockId blockId query ;;
    query <- read_dates args network query ;;
    (* Get range *)
    query <- read_range sinceBlock limit network query ;;
    let query := use_height query in
    query <- use_tip chain network query ;;
    let query := apply_limit limit query in
    let query := apply_sort sort query in
    ret (query, options).

(** ** getBlocks

    [blockTransform] awaits the promise of a block and attaches the
    confirmations to the converted block. *)
Definition blockHeight_of (b : RawBlock) : JS.number :=
  JS.or (or_undefined (rb_height b) (rb_number b)) (JS.Int 0).

Definition blockTransform (chain network : option string)
    (tipHeight : JS.number) (block : outcome (option RawBlock))
  : outcome BlockWithConfirmations :=
  match block with
  | Throw e => Throw e
  | Ok None => Throw "TypeError: Cannot read properties of null (reading 'height')"
  | Ok (Some b) =>
      let confirmations := JS.Int 0 in
      let blockHeight := blockHeight_of b in
      let confirmations :=
        if JS.ge blockHeight (JS.Int 0)
        then JS.add (JS.sub tipHeight blockHeight) (JS.Int 1)
        else confirmations in
      match transformBlockData chain network (Some b) false with
      | Ok convertedBlock =>
          Ok {| cb_block := convertedBlock; cb_confirmations := confirmations |}
      | Throw e => Throw e
      end
  end.

(** The requests of the range go out as one batch. What the function
    returns is [Promise.all(blockPromises).then(x).catch(error => error)]
    where [x] is the array [blockPromises.map(blockTransform)]: the
    transforms are started, but they are handed to [then] as an array. *)
Definition getBlocks (params : GetBlockParams) : M GetBlocksResult :=
  try_catch
    (let chain := p_chain params in
     let network := p_network params in
     qo <- getBlocksParams params ;;
     let query := fst qo in
     rpc <- getWeb3 (key_of network) (Some "historical"%string) ;;
     tip <- getLocalTip chain network false ;;
     let tipHeight := ib_height tip in
     match Lodash.range (startBlock query) (JS.add (endBlock query) (JS.Int 1)) with
     | inl e => throw e
     | inr blockNumbers =>
         (* batch getBlock requests to reduce latency *)
         emit (EEth (rpcId rpc) (GetBlockBatch blockNumbers)) ;;
         let blockPromises :=
           map (fun n => eth_getBlock env (rpcId rpc) (ByNumber n)) blockNumbers in
         let transforms :=
           map (blockTransform chain network tipHeight) blockPromises in
         unhandled transforms ;;
         match Promise_then (B := list BlockWithConfirmations)
                 (Promise_all blockPromises) (ThenArray transforms) with
         | Ok (inl raw) => ret (RawBlocks raw)
         | Ok (inr converted) => ret (ConvertedBlocks converted)
         | Throw error => ret (ErrorValue error)
         end
     end)
    (fun err =>
       logger_error "Error getting blocks from historical node: %o" err ;;
       ret NoBlocks).

(** ** transformTransactionData *)
Definition or_str (a b : option string) : option string :=
  if truthy_str a then a else b.

Definition or_num (a b : option JS.number) : option JS.number :=
  if truthy_opt a then a else b.

Definition transformTransactionData (chain network : option string) (tx : Tx)
  : TransformedTx :=
  {| t_txid := tx_hash tx;
     t_chain := key_of chain;
     t_network := key_of network;
     t_blockHeight := or_num (tx_blockNumber tx) (tx_block_number tx);
     t_blockHash := or_str (tx_blockHash tx) (tx_block_hash tx);
     t_blockTime := or_str (tx_blockTime tx) (tx_block_timestamp tx);
     t_blockTimeNormalized := tx_blockTimeNormalized tx;
     t_fee := tx_fee tx;
     t_value := tx_value tx;
     t_gasLimit := or_num (tx_gasLimit tx) (tx_gas tx);
     t_gasPrice := or_str (tx_gasPrice tx) (tx_gas_price tx);
     t_nonce := tx_nonce tx;
     t_to := or_str (tx_to tx) (tx_to_address tx);
     t_from := or_str (tx_from tx) (tx_from_address tx);
     t_data := tx_data tx;
     t_effects := tx_effects tx |}.

(** [tx.blockTime = blockTime] *)
Definition set_blockTime (tx : Tx) (blockTime : string) : Tx :=
  {| tx_hash := tx_hash tx; tx_blockNumber := tx_blockNumber tx;
     tx_block_number := tx_block_number tx; tx_blockHash := tx_blockHash tx;
     tx_block_hash := tx_block_hash tx; tx_blockTime := Some blockTime;
     tx_block_timestamp := tx_block_timestamp tx;
     tx_blockTimeNormalized := tx_blockTimeNormalized tx;
     tx_fee := tx_fee tx; tx_value := tx_value tx;
     tx_gasLimit := tx_gasLimit tx; tx_gas := tx_gas tx;
     tx_gasPrice := tx_gasPrice tx; tx_gas_price := tx_gas_price tx;
     tx_nonce := tx_nonce tx; tx_to := tx_to tx;
     tx_to_address := tx_to_address tx; tx_from := tx_from tx;
     tx_from_address := tx_from_address tx; tx_data := tx_data tx;
     tx_effects := tx_effects tx; tx_receipt := tx_receipt tx |}.

(** [tx.receipt = receipt; tx.fee = fee] *)
Definition set_receipt_fee (tx : Tx) (receipt : Receipt) (fee : JS.number) : Tx :=
  {| tx_hash := tx_hash tx; tx_blockNumber := tx_blockNumber tx;
     tx_block_number := tx_block_number tx; tx_blockHash := tx_blockHash tx;
     tx_block_hash := tx_block_hash tx; tx_blockTime := tx_blockTime tx;
     tx_block_timestamp := tx_block_timestamp tx;
     tx_blockTimeNormalized := tx_blockTimeNormalized tx;
     tx_fee := Some fee; tx_value := tx_value tx;
     tx_gasLimit := tx_gasLimit tx; tx_gas := tx_gas tx;
     tx_gasPrice := tx_gasPrice tx; tx_gas_price := tx_gas_price tx;
     tx_nonce := tx_nonce tx; tx_to := tx_to tx;
     tx_to_address := tx_to_address tx; tx_from := tx_from tx;
     tx_from_address := tx_from_address tx; tx_data := tx_data tx;
     tx_effects := tx_effects tx; tx_receipt := Some receipt |}.

(** [{ ...convertedTx, confirmations }] *)
Record TxWithConfirmations : Type := {
  ct_tx : TxJSON env;
  ct_confirmations : JS.number
}.

(** The confirmations [_getTransaction] attaches:
    [tx.blockNumber && tx.blockNumber >= 0] guards the assignment. *)
Definition tx_confirmations (tipHeight : JS.number) (tx : Tx) : JS.number :=
  let confirmations := JS.Int 0 in
  if truthy_opt (tx_blockNumber tx)
     && JS.ge (default JS.NaN (tx_blockNumber tx)) (JS.Int 0)
  then JS.add (JS.sub tipHeight (default JS.NaN (tx_blockNumber tx))) (JS.Int 1)
  else confirmations.

(** ** _getTransaction *)
Definition _getTransaction (chain network : option string) (txId : string)
    (tipHeight : JS.number) (web3 : Rpc) : M (option TxWithConfirmations) :=
  tx <- await (EEth (rpcId web3) (GetTransaction txId))
          (eth_getTransaction env (rpcId web3) txId) ;;
  match tx with
  | Some tx =>
      let confirmations := tx_confirmations tipHeight tx in
      blockTime <- getBlockTimestamp (ByHash (tx_blockHash tx)) (key_of network) ;;
      let tx := set_blockTime tx blockTime in
      receipt <- await (EEth (rpcId web3) (GetTransactionReceipt txId))
                   (eth_getTransactionReceipt env (rpcId web3) txId) ;;
      let tx :=
        match receipt with
        | Some receipt =>
            let fee :=
              JSArith.mul (rc_gasUsed receipt)
                (match tx_gasPrice tx with
                 | Some p => JSArith.parseInt p
                 | None => JS.NaN
                 end) in
            set_receipt_fee tx receipt fee
        | None => tx
        end in
      let tansformedTx := transformTransactionData chain network tx in
      let convertedTx := apiTransform env tansformedTx in
      ret (Some {| ct_tx := convertedTx; ct_confirmations := confirmations |})
  | None => ret None
  end.

(** The text of a value that has passed [typeof txId === 'string']. *)
Definition string_of_value (v : JS.value) : string :=
  match v with
  | JS.Str s => s
  | _ => ""
  end.

(** ** getTransaction *)
Definition getTransaction (params : StreamTransactionParams)
  : M (option TxWithConfirmations) :=
  try_catch
    (let chain := st_chain params in
     let network := st_network params in
     let txId := st_txId params in
     if negb (JS.is_string txId) || negb (truthy_str chain)
        || negb (truthy_str network)
     then throw "Missing required param"
     else
       web3 <- getWeb3 (key_of network) (Some "historical"%string) ;;
       tip <- getLocalTip chain network false ;;
       let tipHeight := ib_height tip in
       _getTransaction chain network (string_of_value txId) tipHeight web3)
    (fun err =>
       logger_error "Error getting transactions from historical node %o" err ;;
       ret None).

(** ** getFee *)

(** [gasPrices.sort((a, b) => (a < b ? 1 : a > b ? -1 : 0))] *)
Fixpoint insert_desc (x : Z) (l : list Z) : list Z :=
  match l with
  | [] => [x]
  | y :: l' => if y <? x then x :: l else y :: insert_desc x l'
  end.

Definition sort_desc (l : list Z) : list Z := fold_right insert_desc [] l.

(** The loop over [min(baseFeePerGas.length, reward.length)] blocks;
    [BigInt(reward[i][0])] throws when the block has no reward entry. *)
Fixpoint gasPrices_of (base : list Z) (rewards : list (list Z))
  : outcome (list Z) :=
  match base, rewards with
  | b :: base', r :: rewards' =>
      match r with
      | r0 :: _ =>
          match gasPrices_of base' rewards' with
          | Ok l => Ok (b + r0 :: l)
          | Throw e => Throw e
          end
      | [] => Throw "TypeError: Cannot convert undefined to a BigInt"
      end
  | _, _ => Ok []
  end.

(** [let { network, target = 4 } = params] *)
Definition target_of (params : GetFeeParams) : JS.number :=
  default (JS.Int 4) (f_target params).

(** [Math.min(target, 4) || 1] *)
Definition whichQuartile (target : JS.number) : JS.number :=
  JS.or (JS.min target (JS.Int 4)) (JS.Int 1).

Definition getFee (params : GetFeeParams) : M FeeResult :=
  let network := f_network params in
  let target := target_of params in
  web3 <- getWeb3 network (Some "historical"%string) ;;
  latestBlock <- await (EEth (rpcId web3) GetBlockNumber)
                   (eth_getBlockNumber env (rpcId web3)) ;;
  (* Getting the 25th percentile gas prices from the last 4k blocks *)
  feeHistory <- await (EEth (rpcId web3) (GetFeeHistory (20 * 200) latestBlock [25]))
                  (eth_getFeeHistory env (rpcId web3) (20 * 200) latestBlock [25]) ;;
  gasPrices <- settle (gasPrices_of (baseFeePerGas feeHistory) (reward feeHistory)) ;;
  (* Sort descending *)
  let gasPrices := sort_desc gasPrices in
  quartileMedian <- settle (getNthQuartileMedian env gasPrices (whichQuartile target)) ;;
  let feerate := JS.of_bigint quartileMedian in
  (* Fee returned in wei *)
  ret {| feerate := feerate; blocks := target |}.

(** ** getWalletBalanceAtTime *)
Definition total_balance (result : option JS.value) : JS.value :=
  match result with
  | Some v => v
  | None => JS.Undefined
  end.

Definition getWalletBalanceAtTime (params : GetWalletBalanceAtTimeParams)
  : M WalletBalance :=
  let network := wb_network params in
  let time := wb_time params in
  let wallet := wb_wallet params in
  try_catch
    ((* if (!wallet?._id): an absent and an empty identifier are falsy *)
     if negb (truthy_str (wallet ≫= w_id)) then throw "Missing wallet"
     else
       let _id := key_of (wallet ≫= w_id) in
       emit (EStorage _id) ;;
       addresses <- settle (getWalletAddresses env _id) ;;
       (* get block number based on time *)
       block <- getBlockNumberByDate (AsGiven time) network ;;
       result <- getNativeBalanceByBlock network block addresses ;;
       ret {| unconfirmed := JS.Int 0;
              confirmed := total_balance result;
              balance := total_balance result |})
    (fun err =>
       logger_error "Error getting wallet balance at time from external provider %o" err ;;
       throw err).

End Provider.

(* ===================================================================== *)
(** * The application: the guard in front of [/api/:chain/:network]       *)
(* ===================================================================== *)

(** [config.chains]: an object keyed by chain whose values are objects
    keyed by network. Only the keys are read here. *)
Definition ChainsConfig : Type := gmap string (gset string).

(** The property names a plain object inherits from [Object.prototype];
    each of them reads as a function or an object, which is truthy. *)
Definition Object_prototype_keys : list string :=
  ["constructor"; "__defineGetter__"; "__defineSetter__"; "hasOwnProperty";
   "__lookupGetter__"; "__lookupSetter__"; "isPrototypeOf";
   "propertyIsEnumerable"; "toString"; "valueOf"; "__proto__";
   "toLocaleString"]%string.

Definition inherited (key : string) : bool :=
  existsb (String.eqb key) Object_prototype_keys.

(** [const chains = Object.keys(config.chains)] *)
Definition chains (config : ChainsConfig) : list string :=
  (map_to_list config).*1.

(** The body of the inner loop:
    [networks[chain] = networks[chain] || {}] and then
    [Object.assign(networks[chain], { [network]: true })]. The map holds
    the own properties of [networks] and, for each, the own properties
    of its value. [Object.assign] writes by assignment, and assigning
    [true] to [__proto__] creates no property. *)
Definition assign_network (chain network : string)
    (networks : gmap string (gset string)) : gmap string (gset string) :=
  let target := default ∅ (networks !! chain) in
  <[chain := if String.eqb network "__proto__" then target
             else target ∪ {[network]}]> networks.

(** The two loops over the configuration. The chain names are taken not
    to be among [Object_prototype_keys] (see [plain_chains]): for such a
    name [networks[chain]] would read an inherited function. *)
Definition networks_of (config : ChainsConfig) : gmap string (gset string) :=
  map_fold (fun chain nets networks => set_fold (assign_network chain) networks nets)
           ∅ config.

Definition plain_chains (config : ChainsConfig) : bool :=
  forallb (fun chain => negb (inherited chain)) (chains config).

(** What the middleware does with a request: [resp.status(s).send(body)]
    or [next()]. *)
Inductive Response : Type :=
| Send (status : Z) (body : string)
| Next.

Section Guard.

(** Whether [Object.prototype[chain][network]] is truthy, for a [chain]
    among [Object_prototype_keys]. *)
Variable builtin : string -> string -> bool.

Definition route_guard (config : ChainsConfig) (chain network : string) : Response :=
  let networks := networks_of config in
  let hasChain := existsb (String.eqb chain) (chains config) in
  (* const chainNetworks = networks[chain] || null *)
  let hasChainNetworks :=
    match networks !! chain with
    | Some _ => true
    | None => inherited chain
    end in
  let hasNetworkForChain :=
    match networks !! chain with
    | Some own => bool_decide (network ∈ own) || inherited network
    | None => inherited chain && builtin chain network
    end in
  if truthy_str (Some chain) && negb hasChain then
    Send 500 ("This node is not configured for the chain " +:+ chain)
  else if truthy_str (Some network)
          && (negb hasChainNetworks || negb hasNetworkForChain) then
    Send 500 ("This node is not configured for the network " +:+ network
                +:+ " on chain " +:+ chain)
  else Next.

End Guard.

(* ===================================================================== *)
(** * Reading parameters and results                                      *)
(* ===================================================================== *)

(** The [limit] and [sort] that [getBlocksParams] works with: the
    arguments of the call, or the defaults 10 and [{ height: -1 }]. *)
Definition limit_of (params : GetBlockParams) : JS.number :=
  default (JS.Int 10) (a_limit (default no_args (p_args params))).

Definition sort_of (params : GetBlockParams) : SortSpec :=
  default (SortBy "height" (JS.Int (-1))) (a_sort (default no_args (p_args params))).

(** The same call with [args.sort] set to [sort]. *)
Definition with_sort (params : GetBlockParams) (sort : SortSpec) : GetBlockParams :=
  let args := default no_args (p_args params) in
  {| p_chain := p_chain params;
     p_network := p_network params;
     p_sinceBlock := p_sinceBlock params;
     p_blockId := p_blockId params;
     p_args := Some {| a_startDate := a_startDate args;
                       a_endDate := a_endDate args;
                       a_date := a_date args;
                       a_since := a_since args;
                       a_direction := a_direction args;
                       a_paging := a_paging args;
                       a_limit := a_limit args;
                       a_sort := Some sort |} |}.

(** The query with its two bounds exchanged. *)
Definition swap_bounds (q : Query) : Query :=
  set_endBlock (set_startBlock q (endBlock q)) (startBlock q).

(** The bounds a call resolved, when it resolved any. *)
Definition bounds_of (r : outcome (Query * Options)) : option (JS.number * JS.number) :=
  match r with
  | Ok (q, _) => Some (startBlock q, endBlock q)
  | Throw _ => None
  end.

(** [a - b <= limit] *)
Definition span_within (a b limit : JS.number) : Prop :=
  JS.le (JS.sub a b) limit = true.

(** The same call with [args.startDate] and [args.endDate] set. *)
Definition with_start_end (params : GetBlockParams)
    (startDate endDate : option string) : GetBlockParams :=
  let args := default no_args (p_args params) in
  {| p_chain := p_chain params;
     p_network := p_network params;
     p_sinceBlock := p_sinceBlock params;
     p_blockId := p_blockId params;
     p_args := Some {| a_startDate := startDate;
                       a_endDate := endDate;
                       a_date := a_date args;
                       a_since := a_since args;
                       a_direction := a_direction args;
                       a_paging := a_paging args;
                       a_limit := a_limit args;
                       a_sort := a_sort args |} |}.


(** An entry [getWeb3] returns: of the requested capability, and
    answering the probe or connected after the reconnection attempt. *)
Definition usable (env : Env) (type : option string) (x : Rpc) : Prop :=
  isValidProviderType env type (dataType x) = true
  /\ (probe env (rpcId x) = true
      \/ has_disconnect env (rpcId x) && connected env (rpcId x) = true).

(** The world after the probe of a usable entry, and after its
    reconnection when the probe failed. *)
Definition after_probe (env : Env) (rpc : Rpc) (w : World) : World :=
  if probe env (rpcId rpc) then record_event (EProbe (rpcId rpc)) w
  else record_event (EReconnect (rpcId rpc)) (record_event (EProbe (rpcId rpc)) w).

(* ===================================================================== *)
(** * A sample deployment                                                 *)
(* ===================================================================== *)

(** One chain ("ETH", network "mainnet", chain id 1) whose tip is block
    110, used by the examples below. *)

Definition sample_block (n : Z) : RawBlock :=
  {| rb_height := None;
     rb_number := JS.Int n;
     rb_hash := "0xb10c";
     rb_timestamp := 1700000000;
     rb_parentHash := "0xb10b";
     rb_transactions := ["0xfeed"%string];
     rb_size := 1000;
     rb_nonce := "0x0";
     rb_difficulty := "0";
     rb_gasUsed := 21000;
     rb_gasLimit := 30000000;
     rb_baseFeePerGas := Some 7 |}.

Definition sample_tx (blockNumber : option JS.number) : Tx :=
  {| tx_hash := Some "0xfeed"%string;
     tx_blockNumber := blockNumber;
     tx_block_number := None;
     tx_blockHash := Some "0xb10c"%string;
     tx_block_hash := None;
     tx_blockTime := None;
     tx_block_timestamp := None;
     tx_blockTimeNormalized := None;
     tx_fee := None;
     tx_value := Some "1"%string;
     tx_gasLimit := None;
     tx_gas := Some (JS.Int 21000);
     tx_gasPrice := Some "9"%string;
     tx_gas_price := None;
     tx_nonce := Some (JS.Int 3);
     tx_to := Some "0xb0b"%string;
     tx_to_address := None;
     tx_from := Some "0xa11ce"%string;
     tx_from_address := None;
     tx_data := None;
     tx_effects := None;
     tx_receipt := None |}.

(** Modelled from the spec: [isValidProviderType] of [./provider], which
    is not among the sources. "A handle tagged combined satisfies both
    historical and node capability requests; a handle tagged for one
    capability only satisfies that same capability." A request that names
    no capability is taken to accept every handle. *)
Definition sample_isValidProviderType (expected : option string) (type : string)
  : bool :=
  match expected with
  | None => true
  | Some t => String.eqb type "combined" || String.eqb type t
  end.

(** A stand-in for [StatsUtil.getNthQuartileMedian], which is not among
    the sources: the first value of the samples, none when there is no
    sample. *)
Definition sample_getNthQuartileMedian (samples : list Z) (n : JS.number)
  : outcome Z :=
  match samples with
  | x :: _ => Ok x
  | [] => Throw "no samples"
  end.

(** The peer with identity 0 neither answers the probe nor reconnects;
    every other peer answers. Blocks 0 to 110 exist, all with the same
    timestamp. The transaction
    "0xfeed" is in block 100, "0xfee0" is in block 0, no other
    transaction exists. The data API resolves the first of January 2024
    to block 100 and every other date to block 200. *)
Definition sample_env : Env :=
  {| this_chain := "ETH";
     isValidProviderType := sample_isValidProviderType;
     getProvider := fun _ type => Ok type;
     probe := fun id => negb (Nat.eqb id 0);
     has_disconnect := fun _ => true;
     connected := fun id => negb (Nat.eqb id 0);
     eth_getChainId := fun _ => Ok 1;
     eth_getBlockNumber := fun _ => Ok (JS.Int 110);
     eth_getBlock := fun _ tag =>
       match tag with
       | Latest => Ok (Some (sample_block 110))
       | ByNumber (JS.Fin n O) =>
           if (0 <=? n) && (n <=? 110) then Ok (Some (sample_block n))
           else Ok None
       | ByNumber _ => Ok None
       | ByHash _ => Ok (Some (sample_block 100))
       end;
     eth_getFeeHistory := fun _ _ _ _ =>
       Ok {| baseFeePerGas := [7; 8; 9]; reward := [[3]; [1]; [2]] |};
     eth_getTransaction := fun _ txId =>
       if String.eqb txId "0xfeed" then Ok (Some (sample_tx (Some (JS.Int 100))))
       else if String.eqb txId "0xfee0" then Ok (Some (sample_tx (Some (JS.Int 0))))
       else Ok None;
     eth_getTransactionReceipt := fun _ _ =>
       Ok (Some {| rc_gasUsed := JS.Int 21000; rc_status := true |});
     moralis_getBlockByDate := fun _ date =>
       match date with
       | AsGiven d | NewDate d 0 =>
           if String.eqb d "2024-01-01" then Ok (JS.Num (JS.Int 100))
           else Ok (JS.Num (JS.Int 200))
       | NewDate _ _ => Ok (JS.Num (JS.Int 200))
       end;
     moralis_getBlockByHash := fun _ _ => Ok (JS.Num (JS.Int 77));
     moralis_getNativeBalanceByBlock := fun _ _ _ => Ok (Some (JS.Str "1000"));
     getWalletAddresses := fun _ => Ok ["0xa11ce"%string];
     unixToDate := fun _ => "2023-11-14T22:13:20.000Z"%string;
     getNthQuartileMedian := sample_getNthQuartileMedian;
     TxJSON := TransformedTx;
     apiTransform := fun t => t |}.

(** The registry holding [pool] for ETH mainnet, before anything happened. *)
Definition sample_world (pool : list Rpc) : World :=
  {| rpcs := {[ "ETH"%string := {[ "mainnet"%string := pool ]} ]};
     nextId := 10;
     trace := [] |}.

Definition dead_peer : Rpc := {| rpcId := 0; dataType := "historical" |}.
Definition live_peer : Rpc := {| rpcId := 1; dataType := "historical" |}.

Definition sample_args (limit : option JS.number) (sort : option SortSpec) : Args :=
  {| a_startDate := None; a_endDate := None; a_date := None;
     a_since := JS.Undefined; a_direction := JS.Undefined;
     a_paging := JS.Undefined; a_limit := limit; a_sort := sort |}.

Definition sample_params (sinceBlock : JS.value) (blockId : option string)
    (args : option Args) : GetBlockParams :=
  {| p_chain := Some "ETH"%string; p_network := Some "mainnet"%string;
     p_sinceBlock := sinceBlock; p_blockId := blockId; p_args := args |}.

(** A configuration with two chains, for the guard. *)
Definition sample_config : ChainsConfig :=
  <["ETH"%string := {["mainnet"%string; "sepolia"%string]}]>
    (<["MATIC"%string := {["mainnet"%string]}]> ∅).

(** A transaction that is not in a block yet. *)
Definition sample_pending_tx : Tx :=
  {| tx_hash := Some "0xfeed"%string;
     tx_blockNumber := None;
     tx_block_number := None;
     tx_blockHash := None;
     tx_block_hash := None;
     tx_blockTime := None;
     tx_block_timestamp := None;
     tx_blockTimeNormalized := None;
     tx_fee := None;
     tx_value := Some "1"%string;
     tx_gasLimit := None;
     tx_gas := Some (JS.Int 21000);
     tx_gasPrice := Some "9"%string;
     tx_gas_price := None;
     tx_nonce := Some (JS.Int 3);
     tx_to := Some "0xb0b"%string;
     tx_to_address := None;
     tx_from := Some "0xa11ce"%string;
     tx_from_address := None;
     tx_data := None;
     tx_effects := None;
     tx_receipt := None |}.

(** The sample deployment with a peer that holds "0xfeed" as a pending
    transaction and returns no block for a null hash. *)
Definition sample_env_pending : Env :=
  {| this_chain := "ETH";
     isValidProviderType := sample_isValidProviderType;
     getProvider := fun _ type => Ok type;
     probe := fun _ => true;
     has_disconnect := fun _ => true;
     connected := fun _ => true;
     eth_getChainId := fun _ => Ok 1;
     eth_getBlockNumber := fun _ => Ok (JS.Int 110);
     eth_getBlock := fun _ tag =>
       match tag with
       | ByHash None => Ok None
       | _ => Ok (Some (sample_block 110))
       end;
     eth_getFeeHistory := fun _ _ _ _ =>
       Ok {| baseFeePerGas := []; reward := [] |};
     eth_getTransaction := fun _ _ => Ok (Some sample_pending_tx);
     eth_getTransactionReceipt := fun _ _ => Ok None;
     moralis_getBlockByDate := fun _ _ => Ok JS.Undefined;
     moralis_getBlockByHash := fun _ _ => Ok JS.Undefined;
     moralis_getNativeBalanceByBlock := fun _ _ _ => Ok None;
     getWalletAddresses := fun _ => Ok [];
     unixToDate := fun _ => "2023-11-14T22:13:20.000Z"%string;
     getNthQuartileMedian := sample_getNthQuartileMedian;
     TxJSON := TransformedTx;
     apiTransform := fun t => t |}.

(* ===================================================================== *)
(** * Properties of the value layer                                       *)
(* ===================================================================== *)

Section NumberFacts.
Import JS.

Lemma align_same (m : Z) (s : nat) : align m s s = m.
Proof. unfold align. rewrite Nat.sub_diag. simpl. lia. Qed.

Lemma add_Int (a b : Z) : add (Int a) (Int b) = Int (a + b).
Proof. unfold add, Int. simpl. rewrite !align_same. reflexivity. Qed.

Lemma sub_Int (a b : Z) : sub (Int a) (Int b) = Int (a - b).
Proof. unfold sub, neg, Int. fold (Int a) (Int (- b)). now rewrite add_Int. Qed.

Lemma cmp_Int (a b : Z) : cmp (Int a) (Int b) = Some (a ?= b).
Proof. unfold cmp, Int. simpl. now rewrite !align_same. Qed.

Lemma lt_Int (a b : Z) : lt (Int a) (Int b) = (a <? b).
Proof. unfold lt. rewrite cmp_Int. unfold Z.ltb. now destruct (a ?= b). Qed.

Lemma gt_Int (a b : Z) : gt (Int a) (Int b) = (b <? a).
Proof. apply lt_Int. Qed.

Lemma ge_Int (a b : Z) : ge (Int a) (Int b) = (b <=? a).
Proof.
  unfold ge. rewrite cmp_Int. unfold Z.leb. rewrite (Z.compare_antisym a b).
  now destruct (a ?= b).
Qed.

Lemma le_Int (a b : Z) : le (Int a) (Int b) = (a <=? b).
Proof. apply ge_Int. Qed.

Lemma truthy_Int (a : Z) : truthy (Int a) = negb (a =? 0).
Proof. reflexivity. Qed.

Lemma min_Int (a b : Z) : min (Int a) (Int b) = Int (Z.min a b).
Proof.
  unfold min. rewrite cmp_Int. unfold Z.min. now destruct (a ?= b).
Qed.

(** Comparison of finite numbers is total: [x <= y] is the negation of
    [x > y]. *)
Lemma le_negb_gt_Fin (m1 : Z) (s1 : nat) (m2 : Z) (s2 : nat) :
  le (Fin m1 s1) (Fin m2 s2) = negb (gt (Fin m1 s1) (Fin m2 s2)).
Proof.
  unfold le, gt, ge, lt, cmp.
  destruct (align m2 s2 (Nat.max s2 s1) ?= align m1 s1 (Nat.max s2 s1));
    reflexivity.
Qed.

(** What [norm] returns denotes the same fraction. *)
Lemma norm_spec (sc : nat) : forall m : Z,
  exists m' s', norm m sc = Fin m' s' /\ (s' <= sc)%nat
                /\ m' * 10 ^ Z.of_nat (sc - s') = m.
Proof.
  induction sc as [|sc IH]; intros m; simpl.
  - exists m, O. repeat split; [lia | simpl; lia].
  - destruct (m mod 10 =? 0) eqn:Hmod.
    + destruct (IH (m / 10)) as (m' & s' & Hn & Hle & Hval).
      exists m', s'. repeat split; [exact Hn | lia |].
      replace (S sc - s')%nat with (S (sc - s'))%nat by lia.
      rewrite Nat2Z.inj_succ, Z.pow_succ_r by lia.
      apply Z.eqb_eq in Hmod.
      pose proof (Z_div_mod_eq_full m 10) as Hdm.
      rewrite Hmod in Hdm. rewrite <- Hval in Hdm. lia.
    + exists m, (S sc). repeat split; [lia |].
      rewrite Nat.sub_diag. simpl. lia.
Qed.

Lemma norm_pow10 (k : nat) : forall a : Z, norm (a * 10 ^ Z.of_nat k) k = Int a.
Proof.
  induction k as [|k IH]; intros a.
  - simpl. unfold Int. f_equal. lia.
  - cbn [norm]. rewrite Nat2Z.inj_succ, Z.pow_succ_r by lia.
    replace (a * (10 * 10 ^ Z.of_nat k)) with (a * 10 ^ Z.of_nat k * 10) by lia.
    rewrite Z.mod_mul by lia. rewrite Z.eqb_refl.
    rewrite Z.div_mul by lia. apply IH.
Qed.

(** Adding an integer to a finite number and taking the number away again
    gives the integer back: decimal arithmetic is exact. *)
Lemma sub_add_cancel_Int (m : Z) (sc : nat) (L : Z) :
  sub (add (Fin m sc) (Int L)) (Fin m sc) = Int L.
Proof.
  unfold sub, neg, Int, add at 2.
  rewrite Nat.max_0_r, align_same.
  destruct (norm_spec sc (m + align L 0 sc)) as (m' & s' & Hn & Hle & Hval).
  rewrite Hn. unfold add.
  rewrite (Nat.max_r s' sc) by exact Hle.
  rewrite align_same. unfold align at 1. rewrite Hval.
  unfold align. rewrite Nat.sub_0_r.
  replace (m + L * 10 ^ Z.of_nat sc + - m) with (L * 10 ^ Z.of_nat sc) by lia.
  apply norm_pow10.
Qed.

End NumberFacts.

(** ** The characters of a printed number *)

Section PrintFacts.
Import JS.

Lemma printable_uint (d : Decimal.uint) :
  printable (list_ascii_of_string (NilEmpty.string_of_uint d)).
Proof.
  unfold printable.
  induction d; simpl; constructor; try exact IHd; reflexivity.
Qed.

Lemma printable_digit_chars (a : Z) : printable (digit_chars a).
Proof.
  unfold digit_chars, NilZero.string_of_uint.
  destruct (N.to_uint (Z.to_N a)) eqn:E;
    try (rewrite <- E; apply printable_uint).
  repeat constructor.
Qed.

Lemma printable_drop_zeros (l : list ascii) :
  printable l -> printable (drop_zeros l).
Proof.
  induction 1 as [|c l Hc Hl IH]; simpl; [constructor|].
  destruct (is_zero_char c); [exact IH | now constructor].
Qed.

Lemma printable_strip (l : list ascii) :
  printable l -> printable (strip_trailing_zeros l).
Proof.
  intros H. unfold strip_trailing_zeros.
  apply Forall_rev, printable_drop_zeros, Forall_rev, H.
Qed.

Lemma printable_zeros (n : nat) : printable (repeat "0"%char n).
Proof. induction n; simpl; constructor; [reflexivity | assumption]. Qed.

Lemma toString10_printable (x : number) :
  x <> NaN -> printable (list_ascii_of_string (toString10 x)).
Proof.
  intros Hx. destruct x as [|[|]|m sc]; [congruence | | |].
  - repeat constructor.
  - repeat constructor.
  - unfold toString10. destruct (m =? 0); [repeat constructor|].
    rewrite list_ascii_of_string_of_list_ascii.
    pose proof (printable_strip _ (printable_digit_chars (Z.abs m))) as Hds.
    set (ds := strip_trailing_zeros (digit_chars (Z.abs m))) in *.
    set (n := Z.of_nat (length (digit_chars (Z.abs m))) - Z.of_nat sc).
    apply Forall_app. split.
    { destruct (m <? 0); repeat constructor. }
    destruct ((Z.of_nat (length ds) <=? n) && (n <=? 21)).
    { apply Forall_app. split; [exact Hds | apply printable_zeros]. }
    destruct ((0 <? n) && (n <=? 21)).
    { apply Forall_app. split; [now apply Forall_take|].
      constructor; [reflexivity | now apply Forall_drop]. }
    destruct ((-6 <? n) && (n <=? 0)).
    { do 2 (constructor; [reflexivity|]).
      apply Forall_app. split; [apply printable_zeros | exact Hds]. }
    assert (He : printable ((if n - 1 <? 0 then "-"%char else "+"%char)
                              :: digit_chars (Z.abs (n - 1)))).
    { constructor; [now destruct (n - 1 <? 0) | apply printable_digit_chars]. }
    destruct Hds as [|d rest Hd Hrest]; [constructor|].
    destruct rest as [|d' rest'].
    + constructor; [exact Hd|]. constructor; [reflexivity | exact He].
    + constructor; [exact Hd|]. constructor; [reflexivity|].
      apply Forall_app. split; [exact Hrest|].
      constructor; [reflexivity | exact He].
Qed.

(** A string with a character that no number prints is the reprint of no
    number. *)
Lemma not_a_reprint (s : string) :
  forallb reprint_char (list_ascii_of_string s) = false ->
  forall x : number, x <> NaN -> toString10 x <> s.
Proof.
  intros Hs x Hx <-.
  pose proof (toString10_printable x Hx) as H.
  unfold printable in H. rewrite Forall_forall in H.
  assert (forallb reprint_char (list_ascii_of_string (toString10 x)) = true)
    as Ht by (apply forallb_forall; intros c Hc; apply H, list_elem_of_In, Hc).
  congruence.
Qed.

End PrintFacts.

(** * Properties of the monad *)

Lemma bind_Ok_inv {A B : Type} (m : M A) (k : A -> M B) (w w' : World) (b : B) :
  bind m k w = (Ok b, w') ->
  exists a w1, m w = (Ok a, w1) /\ k a w1 = (Ok b, w').
Proof.
  unfold bind. destruct (m w) as [[a|e] w1]; intros H; [eauto | discriminate].
Qed.

Lemma bind_Throw {A B : Type} (m : M A) (k : A -> M B) (w w' : World) (e : string) :
  m w = (Throw e, w') -> bind m k w = (Throw e, w').
Proof. unfold bind. now intros ->. Qed.

Lemma bind_Ok {A B : Type} (m : M A) (k : A -> M B) (w w1 : World) (a : A) :
  m w = (Ok a, w1) -> bind m k w = k a w1.
Proof. unfold bind. now intros ->. Qed.

(** * Properties of the range resolver *)

Section RangeFacts.
Variable env : Env.
Import JS.

(** The resolver is its validation, the five blocks that read the
    parameters, and then the limit and the sort applied to the query. *)
Lemma getBlocksParams_Ok_inv (params : GetBlockParams) (w w' : World)
    (q : Query) (o : Options) :
  getBlocksParams env params w = (Ok (q, o), w') ->
  exists q0 : Query,
    q = apply_sort (sort_of params) (apply_limit (limit_of params) q0)
    /\ o_limit o = limit_of params /\ o_sort o = sort_of params.
Proof.
  unfold getBlocksParams.
  destruct (negb (truthy_str (p_chain params)) || negb (truthy_str (p_network params)));
    [discriminate|].
  intros H.
  apply bind_Ok_inv in H as (q1 & w1 & _ & H).
  apply bind_Ok_inv in H as (q2 & w2 & _ & H).
  apply bind_Ok_inv in H as (q3 & w3 & _ & H).
  apply bind_Ok_inv in H as (q4 & w4 & _ & H).
  unfold ret in H. injection H as <- <- <-.
  exists q4. repeat split.
Qed.

Lemma apply_limit_bound (L : Z) (q : Query) :
  0 < L -> finite (startBlock q) = true ->
  finite (endBlock (apply_limit (Int L) q)) = true ->
  span_within (endBlock (apply_limit (Int L) q))
    (startBlock (apply_limit (Int L) q)) (Int L).
Proof.
  intros HL Hs. unfold apply_limit, span_within.
  rewrite gt_Int. replace (0 <? L) with true by (symmetry; apply Z.ltb_lt; lia).
  cbn [andb].
  destruct (gt (sub (endBlock q) (startBlock q)) (Int L)) eqn:Hgt.
  - cbn [set_endBlock endBlock startBlock]. intros _.
    destruct (startBlock q) as [| |m sc]; try discriminate.
    rewrite sub_add_cancel_Int, le_Int. apply Z.leb_le. lia.
  - intros He.
    destruct (startBlock q) as [| |m sc]; try discriminate.
    destruct (endBlock q) as [| |m' sc']; try discriminate.
    assert (exists m2 s2, sub (Fin m' sc') (Fin m sc) = Fin m2 s2) as (m2 & s2 & Hsub).
    { unfold sub, neg, add.
      destruct (norm_spec (Nat.max sc' sc)
                  (align m' sc' (Nat.max sc' sc) + align (- m) sc (Nat.max sc' sc)))
        as (m2 & s2 & Hn & _). eauto. }
    rewrite Hsub in *. unfold Int in *. rewrite le_negb_gt_Fin, Hgt. reflexivity.
Qed.


(** In the exact arithmetic of the model, with a positive integer limit
    [L] and finite bounds, the resolved range spans at most [L] in the
    direction of the sort. *)
Lemma span_within_positive_limit (params : GetBlockParams) (L : Z) (w w' : World)
    (q : Query) (o : Options) :
  0 < L ->
  limit_of params = Int L ->
  getBlocksParams env params w = (Ok (q, o), w') ->
  finite (startBlock q) = true ->
  finite (endBlock q) = true ->
  if sort_is_minus_one (sort_of params)
  then span_within (startBlock q) (endBlock q) (Int L)
  else span_within (endBlock q) (startBlock q) (Int L).
Proof.
  intros HL Hlim Hrun Hfs Hfe.
  apply getBlocksParams_Ok_inv in Hrun as (q0 & -> & _ & _).
  rewrite Hlim in *. unfold apply_sort in *.
  assert (startBlock (apply_limit (Int L) q0) = startBlock q0) as Hstart
    by (unfold apply_limit; now destruct (_ && _)).
  destruct (sort_is_minus_one (sort_of params));
    cbn [set_endBlock set_startBlock startBlock endBlock] in *.
  - rewrite Hstart in Hfe. now apply apply_limit_bound.
  - rewrite Hstart in Hfs. now apply apply_limit_bound.
Qed.

(** C8, as amended. With a limit [L] that is a positive safe integer, a
    range resolved to safe integers [s] and [e] spans at most [L] in the
    direction of the sort: [e - s <= L] when the bounds were not
    exchanged, and [s - e <= L] when [sort === -1] exchanged them. On
    safe integers the comparison the code makes in doubles is the
    comparison of the integers. *)
Theorem range_within_positive_limit :
  forall (params : GetBlockParams) (L s e : Z) (w w' : World)
         (q : Query) (o : Options),
    0 < L -> safe_integer L ->
    limit_of params = Int L ->
    getBlocksParams env params w = (Ok (q, o), w') ->
    startBlock q = Int s -> endBlock q = Int e ->
    safe_integer s -> safe_integer e ->
    if sort_is_minus_one (sort_of params) then s - e <= L else e - s <= L.
Proof.
  intros params L s e w w' q o HL _ Hlim Hrun Hs He _ _.
  pose proof (span_within_positive_limit params L w w' q o HL Hlim Hrun
                ltac:(now rewrite Hs) ltac:(now rewrite He)) as H.
  rewrite Hs, He in H. unfold span_within in H. rewrite !sub_Int, !le_Int in H.
  destruct (sort_is_minus_one (sort_of params)); now apply Z.leb_le.
Qed.

(** C2, as amended. A call with [sort === -1] resolves what the same
    call resolves with the ascending [sort === 1], with the two bounds
    exchanged, and it fails when that call fails. Hence
    [startBlock > endBlock] exactly when the ascending pair has
    [startBlock < endBlock], and [startBlock >= endBlock] exactly when it
    has [startBlock <= endBlock]. *)
Theorem descending_sort_exchanges_bounds :
  forall (params : GetBlockParams) (w : World),
    match getBlocksParams env (with_sort params (SortNumber (Int 1))) w with
    | (Ok (q, o), w') =>
        (exists o',
           getBlocksParams env (with_sort params (SortNumber (Int (-1)))) w
           = (Ok (swap_bounds q, o'), w'))
        /\ gt (startBlock (swap_bounds q)) (endBlock (swap_bounds q))
           = lt (startBlock q) (endBlock q)
        /\ ge (startBlock (swap_bounds q)) (endBlock (swap_bounds q))
           = le (startBlock q) (endBlock q)
    | (Throw e, w') =>
        getBlocksParams env (with_sort params (SortNumber (Int (-1)))) w
        = (Throw e, w')
    end.
Proof.
  intros params w. unfold getBlocksParams.
  cbn [with_sort p_chain p_network p_sinceBlock p_blockId p_args default
       a_limit a_sort a_since a_direction a_paging].
  destruct (negb (truthy_str (p_chain params)) || negb (truthy_str (p_network params)));
    [reflexivity|].
  set (args := default no_args (p_args params)).
  set (limit := default (Int 10) (a_limit args)).
  change (read_dates env _ (p_network params))
    with (read_dates env args (p_network params)).
  unfold bind.
  destruct (read_blockId _ _ w) as [[q1|e] w1]; [|reflexivity].
  destruct (read_dates env args (p_network params) q1 w1) as [[q2|e] w2]; [|reflexivity].
  destruct (read_range _ _ _ _ q2 w2) as [[q3|e] w3]; [|reflexivity].
  destruct (use_tip _ _ _ _ w3) as [[q4|e] w4]; [|reflexivity].
  unfold ret. split; [eexists; reflexivity|]. split; reflexivity.
Qed.

(** C7. A supplied block identifier (a non-empty string, as the method
    tests it) of fewer than 64 characters that is not the canonical
    decimal reprint of a number is rejected with the error "invalid
    block id provided", at once. A supplied [sinceBlock] cursor that is
    not such a reprint is never accepted, and it is rejected with the
    same error, at once, when no block identifier and no arguments
    precede it. *)
Theorem malformed_identifiers_rejected :
  forall s : string,
    s <> ""%string ->
    ~ canonical_reprint s ->
    (forall params : GetBlockParams,
       truthy_str (p_chain params) = true ->
       truthy_str (p_network params) = true ->
       p_blockId params = Some s ->
       (String.length s < 64)%nat ->
       forall w, getBlocksParams env params w
                 = (Throw "invalid block id provided", w))
    /\ (forall params : GetBlockParams,
          truthy_str (p_chain params) = true ->
          truthy_str (p_network params) = true ->
          p_sinceBlock params = Str s ->
          (forall w, exists e w', getBlocksParams env params w = (Throw e, w'))
          /\ (p_blockId params = None -> p_args params = None ->
              forall w, getBlocksParams env params w
                        = (Throw "invalid block id provided", w))).
Proof.
  intros s Hne Hnot.
  assert (forall x : number,
            isNaN x || negb (String.eqb (toString10 x) s) = true) as Hcheck.
  { intros x. destruct (isNaN x) eqn:Hx; [reflexivity|]. cbn [orb].
    destruct (String.eqb_spec (toString10 x) s) as [Heq|]; [|reflexivity].
    exfalso. apply Hnot. exists x. split; [|exact Heq]. now intros ->. }
  assert (truthy_str (Some s) = true) as Hts.
  { cbn. now destruct (String.eqb_spec s ""). }
  split.
  - intros params Hc Hn Hid Hlen w. unfold getBlocksParams.
    rewrite Hc, Hn, Hid. cbn [negb orb].
    apply bind_Throw. unfold read_blockId. rewrite Hts.
    change (key_of (Some s)) with s.
    replace (64 <=? String.length s)%nat with false
      by (symmetry; apply Nat.leb_gt; exact Hlen).
    now rewrite Hcheck.
  - intros params Hc Hn Hsince.
    assert (forall limit network q w,
              read_range env (Str s) limit network q w
              = (Throw "invalid block id provided", w)) as Hrange.
    { intros. unfold read_range. cbn [truthy_value].
      replace (negb (String.eqb s "")) with true
        by (now destruct (String.eqb_spec s "")).
      cbn [Number str_strict_neq]. now rewrite Hcheck. }
    split.
    + intros w. unfold getBlocksParams. rewrite Hc, Hn, Hsince. cbn [negb orb].
      unfold bind at 1.
      destruct (read_blockId _ _ w) as [[q1|e] w1]; [|eauto].
      unfold bind at 1.
      destruct (read_dates _ _ _ q1 w1) as [[q2|e] w2]; [|eauto].
      unfold bind at 1. rewrite Hrange. eauto.
    + intros Hid Hargs w. unfold getBlocksParams.
      rewrite Hc, Hn, Hsince, Hid, Hargs. cbn [negb orb].
      unfold read_blockId, read_dates. cbn. unfold bind, ret.
      now rewrite Hrange.
Qed.

End RangeFacts.

(** * Properties of the connection pool *)

Section PoolFacts.
Variable env : Env.

Lemma pool_record_event (chain network : string) (e : Event) (w : World) :
  pool chain network (record_event e w) = pool chain network w.
Proof. reflexivity. Qed.

Lemma pool_take_id (chain network : string) (w : World) :
  pool chain network (take_id w) = pool chain network w.
Proof. reflexivity. Qed.

Lemma pool_store (chain network : string) (arr : list Rpc) (w : World) :
  pool chain network (store chain network arr w) = arr.
Proof.
  unfold pool, registered, store. cbn [rpcs].
  rewrite lookup_insert_eq. cbn. now rewrite lookup_insert_eq.
Qed.

Lemma registered_store (chain network : string) (arr : list Rpc) (w : World) :
  registered (store chain network arr w) chain network = Some arr.
Proof.
  unfold registered, store. cbn [rpcs].
  rewrite lookup_insert_eq. cbn. now rewrite lookup_insert_eq.
Qed.

Lemma trace_store (chain network : string) (arr : list Rpc) (w : World) :
  trace (store chain network arr w) = trace w.
Proof. reflexivity. Qed.

Lemma length_splice1 (idx : Z) (arr : list Rpc) :
  (length (splice1 idx arr) <= length arr)%nat.
Proof.
  unfold splice1. generalize (Z.to_nat
    (if idx <? 0 then Z.max (Z.of_nat (length arr) + idx) 0
     else Z.min idx (Z.of_nat (length arr)))) as k.
  induction arr as [|x arr IH]; intros [|k]; simpl; try lia.
  specialize (IH k). lia.
Qed.

(** Fuel beyond the rounds the array allows changes nothing: the loop
    ends because the index passes the end of the array, never because
    the fuel runs out. *)
Lemma getWeb3_loop_fuel (network : string) (type : option string) :
  forall (fuel i : nat) (w : World) (extra : nat),
    (length (pool (this_chain env) network w) <= i + fuel)%nat ->
    getWeb3_loop env network type (fuel + extra) i w
    = getWeb3_loop env network type fuel i w.
Proof.
  induction fuel as [|fuel IH]; intros i w extra Hlen.
  - simpl (0 + extra)%nat.
    assert (pool (this_chain env) network w !! i = None) as Hnone
      by (apply lookup_ge_None; lia).
    destruct extra; simpl; [reflexivity|]. now rewrite Hnone.
  - simpl.
    destruct (pool (this_chain env) network w !! i) as [rpc|] eqn:Hi;
      [|reflexivity].
    assert (forall w1, pool (this_chain env) network w1 = pool (this_chain env) network w ->
              getWeb3_loop env network type (fuel + extra) (S i)
                (store (this_chain env) network
                   (splice1 (indexOf rpc (pool (this_chain env) network w1))
                      (pool (this_chain env) network w1)) w1)
              = getWeb3_loop env network type fuel (S i)
                (store (this_chain env) network
                   (splice1 (indexOf rpc (pool (this_chain env) network w1))
                      (pool (this_chain env) network w1)) w1)) as Hrm.
    { intros w1 Hw1. apply IH. rewrite pool_store, Hw1.
      pose proof (length_splice1 (indexOf rpc (pool (this_chain env) network w))
                    (pool (this_chain env) network w)). lia. }
    destruct (isValidProviderType env type (dataType rpc)); simpl.
    + unfold bind, emit, ret, set_registered.
      destruct (probe env (rpcId rpc)); [reflexivity|].
      destruct (has_disconnect env (rpcId rpc)).
      * destruct (connected env (rpcId rpc)); [reflexivity|].
        apply Hrm. reflexivity.
      * apply Hrm. reflexivity.
    + apply IH. lia.
Qed.

(** C9. The entry that follows a removed one is stepped over. With the
    entries [a] and [b] registered, [a] of the requested capability,
    silent and not reconnecting: [a] is removed, [b] is never probed,
    whatever its state, and a new connection is made and returned. *)
Theorem getWeb3_steps_over_entry_after_removal :
  forall (network : string) (type cfg : option string) (a b : Rpc) (w : World),
    registered w (this_chain env) network = Some [a; b] ->
    isValidProviderType env type (dataType a) = true ->
    probe env (rpcId a) = false ->
    has_disconnect env (rpcId a) && connected env (rpcId a) = false ->
    getProvider env network type = Ok cfg ->
    exists (fresh : Rpc) (w' : World),
      getWeb3 env network type w = (Ok fresh, w')
      /\ rpcId fresh = nextId w
      /\ registered w' (this_chain env) network = Some [b; fresh]
      /\ trace w' =
           trace w ++ [EProbe (rpcId a)]
             ++ (if has_disconnect env (rpcId a) then [EReconnect (rpcId a)] else [])
             ++ [ELog "info" ("Making a new connection for " +:+ this_chain env
                                +:+ ":" +:+ network) "";
                 EConnect network type].
Proof.
  intros network type cfg a b w Hreg Hvalid Hprobe Hrec Hcfg.
  assert (pool (this_chain env) network w = [a; b]) as Hpool
    by (unfold pool; now rewrite Hreg).
  unfold getWeb3. rewrite Hpool. cbn [length].
  unfold bind at 1. cbn [getWeb3_loop]. rewrite Hpool. cbn [lookup list_lookup].
  rewrite Hvalid. cbn [negb].
  unfold bind at 1. unfold emit at 1. rewrite Hprobe.
  assert (splice1 (indexOf a [a; b]) [a; b] = [b]) as Hsplice.
  { unfold indexOf. cbn [indexOf_from]. rewrite Nat.eqb_refl. reflexivity. }
  destruct (has_disconnect env (rpcId a)) eqn:Hdis; eexists _, _.
  - cbn [andb] in Hrec. unfold bind, emit, ret, set_registered.
    rewrite Hrec. rewrite !pool_record_event, Hpool, Hsplice.
    rewrite pool_store. cbn [lookup list_lookup].
    unfold logger_info, emit, settle, new_rpc. rewrite Hcfg.
    split; [reflexivity|]. split; [reflexivity|]. split.
    + rewrite registered_store, pool_take_id, !pool_record_event, pool_store.
      reflexivity.
    + unfold store, record_event, take_id. cbn [trace].
      rewrite <- !app_assoc. reflexivity.
  - unfold bind, emit, ret, set_registered.
    rewrite !pool_record_event, Hpool, Hsplice.
    rewrite pool_store. cbn [lookup list_lookup].
    unfold logger_info, emit, settle, new_rpc. rewrite Hcfg.
    split; [reflexivity|]. split; [reflexivity|]. split.
    + rewrite registered_store, pool_take_id, !pool_record_event, pool_store.
      reflexivity.
    + unfold store, record_event, take_id. cbn [trace].
      rewrite <- !app_assoc. reflexivity.
Qed.

End PoolFacts.

(** * Properties of the fetch pipeline *)

Section FetchFacts.
Variable env : Env.
Import JS.

Lemma await_run {A : Type} (e : Event) (o : outcome A) (w : World) :
  await e o w = (o, record_event e w).
Proof. reflexivity. Qed.

Lemma blockHeight_of_web3 (b : RawBlock) (h : Z) :
  rb_height b = None -> rb_number b = Int h -> blockHeight_of b = Int h.
Proof.
  intros Hh Hn. unfold blockHeight_of. rewrite Hh, Hn. cbn [or_undefined].
  unfold or. rewrite truthy_Int.
  destruct (Z.eqb_spec h 0) as [->|]; reflexivity.
Qed.

Lemma tx_confirmations_mined (t h : Z) (tx : Tx) :
  0 < h -> tx_blockNumber tx = Some (Int h) ->
  tx_confirmations (Int t) tx = Int (t - h + 1).
Proof.
  intros Hh Hn. unfold tx_confirmations. rewrite Hn.
  cbn [truthy_opt default from_option id]. rewrite truthy_Int, ge_Int.
  replace (h =? 0) with false by (symmetry; apply Z.eqb_neq; lia).
  replace (0 <=? h) with true by (symmetry; apply Z.leb_le; lia).
  cbn [negb andb]. now rewrite sub_Int, add_Int.
Qed.

(** What [_getTransaction] attaches is [tx_confirmations] of the
    transaction the peer returned. *)
Lemma _getTransaction_confirmations (chain network : option string)
    (txId : string) (tipHeight : number) (web3 : Rpc) (w w' : World)
    (r : TxWithConfirmations env) (tx : Tx) :
  eth_getTransaction env (rpcId web3) txId = Ok (Some tx) ->
  _getTransaction env chain network txId tipHeight web3 w = (Ok (Some r), w') ->
  ct_confirmations env r = tx_confirmations tipHeight tx.
Proof.
  intros Htx. unfold _getTransaction.
  unfold bind at 1. rewrite await_run, Htx.
  intros H.
  apply bind_Ok_inv in H as (blockTime & w1 & _ & H).
  apply bind_Ok_inv in H as (receipt & w2 & _ & H).
  unfold ret in H. injection H as <- _. reflexivity.
Qed.

(** C1, as amended. A block of height [h >= 0] converted by
    [blockTransform] under tip height [t] carries [t - h + 1]
    confirmations, and so does a transaction of block [h > 0] returned by
    [_getTransaction]; the tip block itself carries 1. The value is
    computed for every such height, above the tip as well as below. *)
Theorem confirmations_formula :
  forall t h : Z,
    (forall (chain network : option string) (b : RawBlock),
       0 <= h ->
       rb_height b = None ->
       rb_number b = Int h ->
       exists r : BlockWithConfirmations,
         blockTransform env chain network (Int t) (Ok (Some b)) = Ok r
         /\ ib_height (cb_block r) = Int h
         /\ cb_confirmations r = Int (t - h + 1))
    /\ (forall (chain network : option string) (txId : string) (web3 : Rpc)
               (w w' : World) (r : TxWithConfirmations env) (tx : Tx),
          0 < h ->
          eth_getTransaction env (rpcId web3) txId = Ok (Some tx) ->
          tx_blockNumber tx = Some (Int h) ->
          _getTransaction env chain network txId (Int t) web3 w = (Ok (Some r), w') ->
          ct_confirmations env r = Int (t - h + 1)).
Proof.
  intros t h. split.
  - intros chain network b Hh Hheight Hnumber.
    unfold blockTransform, transformBlockData.
    rewrite (blockHeight_of_web3 b h Hheight Hnumber), ge_Int.
    replace (0 <=? h) with true by (symmetry; apply Z.leb_le; lia).
    eexists. split; [reflexivity|]. cbn [cb_block cb_confirmations ib_height].
    split; [exact Hnumber|]. now rewrite sub_Int, add_Int.
  - intros chain network txId web3 w w' r tx Hh Htx Hn Hrun.
    rewrite (_getTransaction_confirmations _ _ _ _ _ _ _ _ _ Htx Hrun).
    now apply tx_confirmations_mined.
Qed.

(** C4. Whatever the range, [getBlocks] resolves with the array of raw
    blocks, with an error handed back as a value, or with undefined: the
    converted blocks with their confirmations are never what it returns,
    because the transforms reach [then] as an array. It never throws. *)
Theorem getBlocks_returns_raw_blocks :
  forall (params : GetBlockParams) (w : World),
    exists (r : GetBlocksResult) (w' : World),
      getBlocks env params w = (Ok r, w')
      /\ ((exists raw, r = RawBlocks raw)
          \/ (exists e, r = ErrorValue e)
          \/ r = NoBlocks).
Proof.
  intros params w. unfold getBlocks, try_catch.
  match goal with |- context [match ?m w with _ => _ end] => destruct (m w) as [[r|e] w1] eqn:Hrun end.
  - exists r, w1. split; [reflexivity|].
    apply bind_Ok_inv in Hrun as (qo & w2 & _ & Hrun).
    apply bind_Ok_inv in Hrun as (rpc & w3 & _ & Hrun).
    apply bind_Ok_inv in Hrun as (tip & w4 & _ & Hrun).
    destruct (Lodash.range _ _) as [err|blockNumbers]; [discriminate|].
    apply bind_Ok_inv in Hrun as (? & w5 & _ & Hrun).
    apply bind_Ok_inv in Hrun as (? & w6 & _ & Hrun).
    unfold Promise_then in Hrun.
    destruct (Promise_all _) as [raw|error];
      unfold ret in Hrun; injection Hrun as <- _; eauto.
  - eexists _, _. split; [reflexivity|]. now right; right.
Qed.

(** When every block of the batch is fetched, what [getBlocks] returns is
    the fetched array itself. *)
Lemma getBlocks_passes_blocks_through (params : GetBlockParams) (w w' : World)
    (raw : list (option RawBlock)) :
  getBlocks env params w = (Ok (RawBlocks raw), w') ->
  exists (rpc : Rpc) (blockNumbers : list number),
    Promise_all (map (fun n => eth_getBlock env (rpcId rpc) (ByNumber n)) blockNumbers)
    = Ok raw.
Proof.
  unfold getBlocks, try_catch.
  match goal with |- context [match ?m w with _ => _ end] => destruct (m w) as [[r|e] w1] eqn:Hrun end.
  - intros [= -> ->].
    apply bind_Ok_inv in Hrun as (qo & w2 & _ & Hrun).
    apply bind_Ok_inv in Hrun as (rpc & w3 & _ & Hrun).
    apply bind_Ok_inv in Hrun as (tip & w4 & _ & Hrun).
    destruct (Lodash.range _ _) as [err|blockNumbers]; [discriminate|].
    apply bind_Ok_inv in Hrun as (? & w5 & _ & Hrun).
    apply bind_Ok_inv in Hrun as (? & w6 & _ & Hrun).
    exists rpc, blockNumbers.
    unfold Promise_then in Hrun.
    destruct (Promise_all _) as [raw'|error]; unfold ret in Hrun; congruence.
  - unfold bind, logger_error, emit, ret. discriminate.
Qed.

(** C5, as amended. [getTransaction] never raises to its caller. When
    [txId] is not a string, or the chain or the network is missing, it
    throws "Missing required param" before any request leaves the
    process, catches and logs it, and returns undefined; when the peer
    has no such transaction it returns undefined as well. *)
Theorem getTransaction_never_raises :
  forall (params : StreamTransactionParams) (w : World),
    (exists r w', getTransaction env params w = (Ok r, w'))
    /\ (negb (is_string (st_txId params)) || negb (truthy_str (st_chain params))
          || negb (truthy_str (st_network params)) = true ->
        getTransaction env params w
        = (Ok None,
           record_event
             (ELog "error" "Error getting transactions from historical node %o"
                   "Missing required param") w))
    /\ (forall (web3 : Rpc) (tip : IBlock) (w1 w2 : World),
          negb (is_string (st_txId params)) || negb (truthy_str (st_chain params))
            || negb (truthy_str (st_network params)) = false ->
          getWeb3 env (key_of (st_network params)) (Some "historical"%string) w
            = (Ok web3, w1) ->
          getLocalTip env (st_chain params) (st_network params) false w1
            = (Ok tip, w2) ->
          eth_getTransaction env (rpcId web3) (string_of_value (st_txId params))
            = Ok None ->
          getTransaction env params w
          = (Ok None,
             record_event
               (EEth (rpcId web3) (GetTransaction (string_of_value (st_txId params))))
               w2)).
Proof.
  intros params w. split; [|split].
  - unfold getTransaction, try_catch.
    match goal with |- context [match ?m w with _ => _ end] => destruct (m w) as [[r|e] w1] end;
      eexists _, _; reflexivity.
  - intros Hbad. unfold getTransaction, try_catch. rewrite Hbad. reflexivity.
  - intros web3 tip w1 w2 Hgood Hweb3 Htip Htx.
    unfold getTransaction, try_catch. rewrite Hgood.
    rewrite (bind_Ok _ _ _ _ _ Hweb3), (bind_Ok _ _ _ _ _ Htip).
    unfold _getTransaction, bind. rewrite await_run, Htx. reflexivity.
Qed.

(** * Properties of the fee estimator and of the balance query *)

Lemma whichQuartile_clamps (n : Z) :
  0 <= n -> whichQuartile (Int n) = Int (Z.max 1 (Z.min n 4)).
Proof.
  intros Hn. unfold whichQuartile. rewrite min_Int. unfold or.
  rewrite truthy_Int.
  destruct (Z.eqb_spec (Z.min n 4) 0) as [H0|H0]; cbn [negb]; f_equal; lia.
Qed.

(** C3, as amended. The quartile [getFee] hands to the statistics helper
    is [Math.min(target, 4) || 1]: for a target that is a non-negative
    integer it is the target clamped to the range 1 to 4, so that 0
    gives 1; a missing target takes the default 4 and gives quartile 4. *)
Theorem fee_quartile_position :
  forall params : GetFeeParams,
    (forall (w w' : World) (r : FeeResult),
       getFee env params w = (Ok r, w') ->
       exists (gasPrices : list Z) (median : Z),
         getNthQuartileMedian env gasPrices (whichQuartile (target_of params))
         = Ok median
         /\ feerate r = of_bigint median
         /\ blocks r = target_of params)
    /\ (f_target params = None -> whichQuartile (target_of params) = Int 4)
    /\ (forall n : Z,
          f_target params = Some (Int n) -> 0 <= n ->
          whichQuartile (target_of params) = Int (Z.max 1 (Z.min n 4))).
Proof.
  intros params. split; [|split].
  - intros w w' r H. unfold getFee in H.
    apply bind_Ok_inv in H as (web3 & w1 & _ & H).
    apply bind_Ok_inv in H as (latestBlock & w2 & _ & H).
    apply bind_Ok_inv in H as (feeHistory & w3 & _ & H).
    apply bind_Ok_inv in H as (gasPrices & w4 & _ & H).
    apply bind_Ok_inv in H as (median & w5 & Hmed & H).
    unfold settle in Hmed. injection Hmed as Hmed _.
    unfold ret in H. injection H as <- _.
    exists (sort_desc gasPrices), median. repeat split. exact Hmed.
  - intros Hnone. unfold target_of. rewrite Hnone. reflexivity.
  - intros n Hn Hpos. unfold target_of. rewrite Hn. cbn [default from_option id].
    now apply whichQuartile_clamps.
Qed.

(** C10. Every balance [getWalletBalanceAtTime] returns has
    [unconfirmed] 0, and [confirmed] and [balance] both equal to the
    total balance the data API reports for the wallet's addresses at the
    block resolved from the given time. *)
Theorem wallet_balance_at_time :
  forall (params : GetWalletBalanceAtTimeParams) (w w' : World) (r : WalletBalance),
    getWalletBalanceAtTime env params w = (Ok r, w') ->
    unconfirmed r = Int 0
    /\ confirmed r = balance r
    /\ exists (_id : string) (addresses : list string) (block : option number)
              (result : option value) (w1 : World),
         wb_wallet params ≫= w_id = Some _id
         /\ getWalletAddresses env _id = Ok addresses
         /\ getBlockNumberByDate env (AsGiven (wb_time params)) (wb_network params)
              (record_event (EStorage _id) w) = (Ok block, w1)
         /\ getNativeBalanceByBlock env (wb_network params) block addresses w1
            = (Ok result, w')
         /\ balance r = total_balance result.
Proof.
  intros params w w' r. unfold getWalletBalanceAtTime, try_catch.
  destruct (truthy_str (wb_wallet params ≫= w_id)) eqn:Htruthy; cbn [negb].
  - destruct (wb_wallet params ≫= w_id) as [_id|] eqn:Hid; [|discriminate].
    change (key_of (Some _id)) with _id.
    match goal with |- context [match ?m w with _ => _ end] => destruct (m w) as [[r0|e] w0] eqn:Hrun end.
    + intros [= -> ->].
      unfold bind at 1 in Hrun. unfold emit in Hrun.
      apply bind_Ok_inv in Hrun as (addresses & w1 & Haddr & Hrun).
      unfold settle in Haddr. injection Haddr as Haddr <-.
      apply bind_Ok_inv in Hrun as (block & w2 & Hblock & Hrun).
      apply bind_Ok_inv in Hrun as (result & w3 & Hres & Hrun).
      unfold ret in Hrun. injection Hrun as <- <-.
      cbn [unconfirmed confirmed balance].
      split; [reflexivity|]. split; [reflexivity|].
      exists _id, addresses, block, result, w2. repeat split; assumption.
    + unfold bind, logger_error, emit, throw. discriminate.
  - unfold throw, bind, logger_error, emit. discriminate.
Qed.

End FetchFacts.

Section CursorFacts.
Variable env : Env.
Import JS.

(** X20. A cursor that is the reprint of a non-zero safe integer [S],
    alone in the call and with a limit [L] that is a safe integer, such
    that [S + L] is a safe integer other than zero, resolves to [S] and
    [S + L] before the sort is applied, without any request to the
    network. On these the parse, the reprint and the sum the code makes
    in doubles are those of the integers. *)
Lemma since_cursor_bounds (params : GetBlockParams) (s : string) (S L : Z)
    (w : World) :
  truthy_str (p_chain params) = true ->
  truthy_str (p_network params) = true ->
  p_blockId params = None ->
  a_date (default no_args (p_args params)) = None ->
  a_startDate (default no_args (p_args params)) = None ->
  a_endDate (default no_args (p_args params)) = None ->
  p_sinceBlock params = Str s ->
  s <> ""%string ->
  Number_of_string s = Int S ->
  toString10 (Int S) = s ->
  limit_of params = Int L ->
  S <> 0 -> S + L <> 0 ->
  safe_integer S -> safe_integer L -> safe_integer (S + L) ->
  exists o : Options,
    getBlocksParams env params w
    = (Ok (apply_sort (sort_of params)
             {| startBlock := Int S; endBlock := Int (S + L);
                q_block := None; q_height := None |}, o), w).
Proof.
  intros Hc Hn Hid Hdate Hstart Hend Hsince Hne Hnum Hprint Hlim HS HSL _ _ _.
  set (q0 := {| startBlock := Int 0; endBlock := Int 0;
                q_block := None; q_height := None |}).
  set (q1 := {| startBlock := Int S; endBlock := Int (S + L);
                q_block := None; q_height := None |}).
  assert (read_blockId None q0 w = (Ok q0, w)) as H1 by reflexivity.
  assert (read_dates env (default no_args (p_args params)) (p_network params) q0 w
          = (Ok q0, w)) as H2.
  { unfold read_dates. now rewrite Hdate, Hstart, Hend. }
  assert (read_range env (Str s) (Int L) (p_network params) q0 w = (Ok q1, w)) as H3.
  { unfold read_range. cbn [truthy_value Number].
    replace (negb (String.eqb s "")) with true
      by (now destruct (String.eqb_spec s "")).
    rewrite Hnum. cbn [str_strict_neq]. rewrite Hprint, String.eqb_refl.
    change (isNaN (Int S)) with false. cbn [negb orb]. unfold ret.
    unfold set_endBlock, set_startBlock, q0, q1.
    cbn [startBlock endBlock q_block q_height]. now rewrite add_Int. }
  assert (use_tip env (p_chain params) (p_network params) (use_height q1) w
          = (Ok q1, w)) as H4.
  { unfold use_height, use_tip, q1.
    cbn [q_height truthy_opt startBlock endBlock]. rewrite !truthy_Int.
    replace (S =? 0) with false by (symmetry; now apply Z.eqb_neq).
    replace (S + L =? 0) with false by (symmetry; now apply Z.eqb_neq).
    reflexivity. }
  assert (apply_limit (Int L) q1 = q1) as H5.
  { unfold apply_limit, q1. cbn [startBlock endBlock].
    rewrite sub_Int, !gt_Int.
    replace (L <? S + L - S) with false by (symmetry; apply Z.ltb_ge; lia).
    now rewrite andb_false_r. }
  unfold getBlocksParams. rewrite Hc, Hn, Hid, Hsince. cbn [negb orb].
  fold (limit_of params). fold (sort_of params). rewrite Hlim. fold q0.
  rewrite (bind_Ok _ _ _ _ _ H1), (bind_Ok _ _ _ _ _ H2), (bind_Ok _ _ _ _ _ H3),
    (bind_Ok _ _ _ _ _ H4), H5.
  eexists. reflexivity.
Qed.

End CursorFacts.

Section ZeroCursor.
Variable env : Env.
Import JS.

(** C6. The cursor "0", alone in the call and with an integer limit [L]
    other than 0, does not resolve to 0 and [L]: the start 0 is falsy, so
    the range is taken for unset and completed from the tip, which makes
    the start [endBlock - 1]. The resolved bounds are [L - 1] and [L]
    before the sort is applied. *)
Theorem since_zero_resolved_as_unset :
  forall (params : GetBlockParams) (L : Z) (w w' : World) (tip : IBlock),
    truthy_str (p_chain params) = true ->
    truthy_str (p_network params) = true ->
    p_blockId params = None ->
    a_date (default no_args (p_args params)) = None ->
    a_startDate (default no_args (p_args params)) = None ->
    a_endDate (default no_args (p_args params)) = None ->
    p_sinceBlock params = Str "0" ->
    limit_of params = Int L ->
    L <> 0 ->
    getLocalTip env (p_chain params) (p_network params) false w = (Ok tip, w') ->
    exists o : Options,
      getBlocksParams env params w
      = (Ok (apply_sort (sort_of params)
               {| startBlock := Int (L - 1); endBlock := Int L;
                  q_block := None; q_height := None |}, o), w').
Proof.
  intros params L w w' tip Hc Hn Hid Hdate Hstart Hend Hsince Hlim HL Htip.
  set (q0 := {| startBlock := Int 0; endBlock := Int 0;
                q_block := None; q_height := None |}).
  set (q1 := {| startBlock := Int 0; endBlock := Int L;
                q_block := None; q_height := None |}).
  set (q2 := {| startBlock := Int (L - 1); endBlock := Int L;
                q_block := None; q_height := None |}).
  assert (read_blockId None q0 w = (Ok q0, w)) as H1 by reflexivity.
  assert (read_dates env (default no_args (p_args params)) (p_network params) q0 w
          = (Ok q0, w)) as H2.
  { unfold read_dates. now rewrite Hdate, Hstart, Hend. }
  assert (read_range env (Str "0") (Int L) (p_network params) q0 w = (Ok q1, w)) as H3.
  { unfold read_range, ret, q0, q1, set_endBlock, set_startBlock.
    cbn [truthy_value Number String.eqb negb startBlock endBlock q_block q_height].
    change (Number_of_string "0") with (Int 0).
    change (toString10 (Int 0)) with "0"%string.
    cbn [isNaN Int str_strict_neq String.eqb Ascii.eqb Bool.eqb negb orb].
    fold (Int 0). now rewrite add_Int. }
  assert (use_tip env (p_chain params) (p_network params) (use_height q1) w
          = (Ok q2, w')) as H4.
  { unfold use_height, use_tip, q1.
    cbn [q_height truthy_opt startBlock endBlock]. rewrite truthy_Int.
    cbn [Z.eqb negb orb]. rewrite (bind_Ok _ _ _ _ _ Htip). unfold ret, q2.
    cbn [set_endBlock set_startBlock startBlock endBlock q_block q_height].
    unfold or. rewrite !truthy_Int.
    replace (L =? 0) with false by (symmetry; now apply Z.eqb_neq).
    cbn [Z.eqb negb]. now rewrite sub_Int. }
  assert (apply_limit (Int L) q2 = q2) as H5.
  { unfold apply_limit, q2. cbn [startBlock endBlock].
    rewrite sub_Int, !gt_Int.
    destruct (0 <? L) eqn:Hpos; [|reflexivity].
    replace (L <? L - (L - 1)) with false; [reflexivity|].
    symmetry. apply Z.ltb_ge. apply Z.ltb_lt in Hpos. lia. }
  unfold getBlocksParams. rewrite Hc, Hn, Hid, Hsince. cbn [negb orb].
  fold (limit_of params). fold (sort_of params). rewrite Hlim. fold q0.
  rewrite (bind_Ok _ _ _ _ _ H1), (bind_Ok _ _ _ _ _ H2), (bind_Ok _ _ _ _ _ H3),
    (bind_Ok _ _ _ _ _ H4), H5.
  eexists. reflexivity.
Qed.

End ZeroCursor.

(** * More on the connection pool *)

Section PoolInvariants.
Variable env : Env.









Lemma getWeb3_loop_skips (network : string) (type : option string)
    (rpc : Rpc) (post : list Rpc) (w : World) :
  usable env type rpc ->
  forall (pre done : list Rpc) (fuel : nat),
    pool (this_chain env) network w = done ++ pre ++ rpc :: post ->
    Forall (fun x => isValidProviderType env type (dataType x) = false) pre ->
    (length pre < fuel)%nat ->
    getWeb3_loop env network type fuel (length done) w
    = (Ok (Some rpc), after_probe env rpc w).
Proof.
  intros (Hvalid & Huse) pre.
  induction pre as [|x pre IH]; intros done fuel Hpool Hpre Hfuel.
  - destruct fuel as [|fuel]; [lia|]. cbn [getWeb3_loop].
    rewrite Hpool. cbn [app]. rewrite list_lookup_middle by reflexivity.
    rewrite Hvalid. cbn [negb]. unfold bind at 1, emit at 1, after_probe.
    destruct (probe env (rpcId rpc)); [reflexivity|].
    destruct Huse as [Huse|Huse]; [discriminate|].
    apply andb_true_iff in Huse as [Hdis Hcon]. rewrite Hdis.
    unfold bind, emit, ret. now rewrite Hcon.
  - destruct fuel as [|fuel]; [cbn in Hfuel; lia|]. cbn [getWeb3_loop].
    rewrite Hpool. cbn [app]. rewrite list_lookup_middle by reflexivity.
    inversion Hpre as [|? ? Hx Hpre']; subst. rewrite Hx. cbn [negb].
    replace (S (length done)) with (length (done ++ [x]))
      by (rewrite length_app; cbn; lia).
    apply IH; [|exact Hpre' | cbn in Hfuel; lia].
    rewrite Hpool, <- app_assoc. reflexivity.
Qed.

(** X4. Entries of another capability cost no probe, and the first entry
    of the requested capability, when it answers the probe or reconnects,
    is the handle returned: the registry is left as it was and the only
    requests are the probe and, the probe failing, the reconnection. *)
Theorem getWeb3_returns_first_usable :
  forall (network : string) (type : option string) (pre post : list Rpc)
         (rpc : Rpc) (w : World),
    pool (this_chain env) network w = pre ++ rpc :: post ->
    Forall (fun x => isValidProviderType env type (dataType x) = false) pre ->
    usable env type rpc ->
    getWeb3 env network type w = (Ok rpc, after_probe env rpc w)
    /\ pool (this_chain env) network (after_probe env rpc w) = pre ++ rpc :: post.
Proof.
  intros network type pre post rpc w Hpool Hpre Huse.
  split.
  - unfold getWeb3.
    rewrite (bind_Ok _ _ _ _ _
               (getWeb3_loop_skips network type rpc post w Huse pre []
                  (length (pool (this_chain env) network w))
                  Hpool Hpre ltac:(rewrite Hpool, length_app; cbn; lia))).
    reflexivity.
  - unfold after_probe. destruct (probe env (rpcId rpc));
      rewrite ?pool_record_event; exact Hpool.
Qed.

(** X5. With nothing registered for the chain and the network, a
    connection is made from the configuration [getProvider] returns,
    tagged with its [dataType] or, without one, "combined"; it becomes
    the only entry. When [getProvider] throws, the error reaches the
    caller and nothing is registered. *)
Theorem getWeb3_without_entries :
  forall (network : string) (type : option string) (w : World),
    pool (this_chain env) network w = [] ->
    match getProvider env network type with
    | Ok cfg =>
        exists (fresh : Rpc) (w' : World),
          getWeb3 env network type w = (Ok fresh, w')
          /\ rpcId fresh = nextId w
          /\ dataType fresh = match cfg with
                              | Some d => if String.eqb d "" then "combined"%string else d
                              | None => "combined"%string
                              end
          /\ registered w' (this_chain env) network = Some [fresh]
          /\ trace w' = trace w
                        ++ [ELog "info" ("Making a new connection for " +:+ this_chain env
                                           +:+ ":" +:+ network) "";
                            EConnect network type]
    | Throw e =>
        exists w' : World,
          getWeb3 env network type w = (Throw e, w')
          /\ pool (this_chain env) network w' = []
          /\ rpcs w' = rpcs w
    end.
Proof.
  intros network type w Hpool. unfold getWeb3. rewrite Hpool. cbn [length getWeb3_loop].
  unfold bind at 1, ret at 1. unfold logger_info, bind at 1, emit at 1.
  unfold bind at 1, settle.
  destruct (getProvider env network type) as [cfg|e].
  - unfold bind, emit, new_rpc, set_registered, ret.
    eexists _, _. split; [reflexivity|]. split; [reflexivity|].
    split; [reflexivity|]. split.
    + rewrite registered_store, pool_take_id, !pool_record_event, Hpool. reflexivity.
    + unfold store, take_id, record_event. cbn [trace].
      now rewrite <- app_assoc.
  - eexists. split; [reflexivity|]. rewrite pool_record_event. now split.
Qed.

End PoolInvariants.

(** * More on the range resolver *)

Section RangeBranches.
Variable env : Env.
Import JS.

Lemma lt_asym (x y : number) : lt x y = true -> lt y x = false.
Proof.
  unfold lt, cmp. destruct x as [|a|m1 s1], y as [|b|m2 s2];
    try discriminate; try reflexivity.
  - destruct a, b; (discriminate || reflexivity).
  - destruct a; (discriminate || reflexivity).
  - destruct b; (discriminate || reflexivity).
  - rewrite (Nat.max_comm s2 s1), (Z.compare_antisym (align m1 s1 _) (align m2 s2 _)).
    now destruct (align m1 s1 (Nat.max s1 s2) ?= align m2 s2 (Nat.max s1 s2)).
Qed.

(** The dates touch the two bounds only. *)
Lemma read_dates_keeps (args : Args) (network : option string)
    (q q' : Query) (w w' : World) :
  read_dates env args network q w = (Ok q', w') ->
  q_block q' = q_block q /\ q_height q' = q_height q.
Proof.
  unfold read_dates.
  destruct (if truthy_str (a_date args) then _ else _) as [startDate endDate].
  intros H. apply bind_Ok_inv in H as (q1 & w1 & H1 & H2).
  assert (q_block q1 = q_block q /\ q_height q1 = q_height q) as [Hb1 Hh1].
  { destruct startDate as [d|].
    - apply bind_Ok_inv in H1 as (n & w0 & _ & H1). unfold ret in H1.
      injection H1 as <- _. now split.
    - unfold ret in H1. injection H1 as <- _. now split. }
  destruct endDate as [d|].
  - apply bind_Ok_inv in H2 as (n & w0 & _ & H2). unfold ret in H2.
    injection H2 as <- _. cbn. now split.
  - unfold ret in H2. injection H2 as <- _. now split.
Qed.

(** Without a block hash in the query, the cursor touches the two
    bounds only. *)
Lemma read_range_keeps_height (sinceBlock : value) (limit : number)
    (network : option string) (q q' : Query) (w w' : World) :
  q_block q = None ->
  read_range env sinceBlock limit network q w = (Ok q', w') ->
  q_height q' = q_height q.
Proof.
  intros Hb. unfold read_range. rewrite Hb. cbn [truthy_str].
  destruct (truthy_value sinceBlock).
  - destruct (_ || _); [discriminate|]. unfold ret. now intros [= <- _].
  - unfold ret. now intros [= <- _].
Qed.

(** X6. A decimal block identifier fixes the range. When the identifier
    is the reprint of the non-zero height [h] it parses to, every range
    the call resolves is [h] to [h]: bounds set by the dates or by the
    cursor are overwritten, and no limit cuts it. *)
Theorem decimal_block_id_fixes_range :
  forall (params : GetBlockParams) (s : string) (h : Z) (w w' : World)
         (q : Query) (o : Options),
    p_blockId params = Some s ->
    (String.length s < 64)%nat ->
    parseInt10 s = Int h ->
    h <> 0 ->
    getBlocksParams env params w = (Ok (q, o), w') ->
    startBlock q = Int h /\ endBlock q = Int h.
Proof.
  intros params s h w w' q o Hid Hlen Hparse Hh.
  unfold getBlocksParams. rewrite Hid.
  destruct (negb _ || negb _); [discriminate|].
  intros H.
  apply bind_Ok_inv in H as (q1 & w1 & H1 & H).
  apply bind_Ok_inv in H as (q2 & w2 & H2 & H).
  apply bind_Ok_inv in H as (q3 & w3 & H3 & H).
  apply bind_Ok_inv in H as (q4 & w4 & H4 & H).
  unfold ret in H. injection H as <- _ _.
  assert (q_block q1 = None /\ q_height q1 = Some (Int h)) as [Hb1 Hh1].
  { unfold read_blockId in H1. destruct (truthy_str (Some s)) eqn:Hts.
    - change (key_of (Some s)) with s in H1.
      replace (64 <=? String.length s)%nat with false in H1
        by (symmetry; apply Nat.leb_gt; exact Hlen).
      rewrite Hparse in H1. destruct (_ || _); [discriminate|].
      unfold ret in H1. injection H1 as <- _. now split.
    - exfalso. cbn in Hts. destruct (String.eqb_spec s "") as [->|]; [|discriminate].
      discriminate Hparse. }
  destruct (read_dates_keeps _ _ _ _ _ _ H2) as [Hb2 Hh2].
  pose proof (read_range_keeps_height _ _ _ _ _ _ _ ltac:(now rewrite Hb2) H3) as Hh3.
  rewrite Hh2, Hh1 in Hh3.
  unfold use_height in H4. rewrite Hh3 in H4.
  cbn [truthy_opt default from_option id] in H4. rewrite truthy_Int in H4.
  replace (h =? 0) with false in H4 by (symmetry; now apply Z.eqb_neq).
  cbn [negb] in H4. unfold use_tip in H4.
  cbn [set_endBlock set_startBlock startBlock endBlock] in H4.
  rewrite truthy_Int in H4.
  replace (h =? 0) with false in H4 by (symmetry; now apply Z.eqb_neq).
  cbn [negb orb] in H4. unfold ret in H4. injection H4 as <- _.
  assert (forall limit q5, startBlock q5 = Int h -> endBlock q5 = Int h ->
            apply_limit limit q5 = q5) as Hlimit.
  { intros limit q5 Hs He. unfold apply_limit. rewrite Hs, He, sub_Int, Z.sub_diag.
    destruct (gt limit (Int 0)) eqn:Hgt; [|reflexivity].
    unfold gt in *. now rewrite (lt_asym _ _ Hgt). }
  rewrite Hlimit by reflexivity.
  unfold apply_sort. destruct (sort_is_minus_one _); now split.
Qed.


(** The resolver as the chain of its blocks, once the chain and the
    network are given. *)
Lemma getBlocksParams_run (params : GetBlockParams) (w w1 w2 w3 w4 : World)
    (q1 q2 q3 q4 : Query) :
  truthy_str (p_chain params) = true ->
  truthy_str (p_network params) = true ->
  read_blockId (p_blockId params)
    {| startBlock := Int 0; endBlock := Int 0; q_block := None; q_height := None |} w
  = (Ok q1, w1) ->
  read_dates env (default no_args (p_args params)) (p_network params) q1 w1
  = (Ok q2, w2) ->
  read_range env (p_sinceBlock params) (limit_of params) (p_network params) q2 w2
  = (Ok q3, w3) ->
  use_tip env (p_chain params) (p_network params) (use_height q3) w3 = (Ok q4, w4) ->
  exists o : Options,
    getBlocksParams env params w
    = (Ok (apply_sort (sort_of params) (apply_limit (limit_of params) q4), o), w4).
Proof.
  intros Hc Hn H1 H2 H3 H4. unfold getBlocksParams. rewrite Hc, Hn. cbn [negb orb].
  fold (limit_of params). fold (sort_of params).
  rewrite (bind_Ok _ _ _ _ _ H1), (bind_Ok _ _ _ _ _ H2), (bind_Ok _ _ _ _ _ H3),
    (bind_Ok _ _ _ _ _ H4).
  eexists. reflexivity.
Qed.

Lemma read_dates_none (args : Args) (network : option string) (q : Query) (w : World) :
  truthy_str (a_date args) = false ->
  truthy_str (a_startDate args) = false ->
  truthy_str (a_endDate args) = false ->
  read_dates env args network q w = (Ok q, w).
Proof. intros Hd Hs He. unfold read_dates. now rewrite Hd, Hs, He. Qed.

(** X7. When nothing resolves a bound, the range is the tip and the block
    before it. A call without cursor and dates, and without block
    identifier or with the identifier "0", resolves to [t - 1] and [t]
    for the tip height [t], whatever the integer limit: block 0 cannot be
    asked for by its number, and under tip 0 the range starts at -1. *)
Theorem unresolved_range_is_tip_and_previous :
  forall (params : GetBlockParams) (L t : Z) (tip : IBlock) (w w1 : World),
    truthy_str (p_chain params) = true ->
    truthy_str (p_network params) = true ->
    p_blockId params = None \/ p_blockId params = Some "0"%string ->
    truthy_value (p_sinceBlock params) = false ->
    truthy_str (a_date (default no_args (p_args params))) = false ->
    truthy_str (a_startDate (default no_args (p_args params))) = false ->
    truthy_str (a_endDate (default no_args (p_args params))) = false ->
    limit_of params = Int L ->
    getLocalTip env (p_chain params) (p_network params) false w = (Ok tip, w1) ->
    ib_height tip = Int t ->
    exists (q : Query) (o : Options),
      getBlocksParams env params w = (Ok (apply_sort (sort_of params) q, o), w1)
      /\ startBlock q = Int (t - 1) /\ endBlock q = Int t.
Proof.
  intros params L t tip w w1 Hc Hn Hid Hsince Hd Hs He Hlim Htip Ht.
  set (q0 := {| startBlock := Int 0; endBlock := Int 0;
                q_block := None; q_height := None |}).
  assert (exists q1, read_blockId (p_blockId params) q0 w = (Ok q1, w)
                     /\ startBlock q1 = Int 0 /\ endBlock q1 = Int 0
                     /\ q_block q1 = None /\ truthy_opt (q_height q1) = false)
    as (q1 & H1 & Hs1 & He1 & Hb1 & Hh1).
  { destruct Hid as [-> | ->].
    - exists q0. now repeat split.
    - exists (set_height q0 (Int 0)). now repeat split. }
  pose proof (read_dates_none _ (p_network params) q1 w Hd Hs He) as H2.
  assert (read_range env (p_sinceBlock params) (limit_of params) (p_network params) q1 w
          = (Ok q1, w)) as H3.
  { unfold read_range. now rewrite Hsince, Hb1. }
  set (q4 := set_startBlock (set_endBlock q1 (Int t)) (Int (t - 1))).
  assert (use_tip env (p_chain params) (p_network params) (use_height q1) w
          = (Ok q4, w1)) as H4.
  { unfold use_height. rewrite Hh1. unfold use_tip. rewrite Hs1.
    cbn [truthy_Int truthy Int negb Z.eqb orb].
    rewrite (bind_Ok _ _ _ _ _ Htip). unfold ret, q4.
    cbn [set_endBlock set_startBlock startBlock endBlock q_block q_height].
    rewrite Ht, He1, Hs1. unfold or.
    change (truthy (Int 0)) with false. cbn iota.
    now rewrite sub_Int. }
  destruct (getBlocksParams_run params w w w w w1 q1 q1 q1 q4 Hc Hn H1 H2 H3 H4)
    as [o Ho].
  assert (apply_limit (limit_of params) q4 = q4) as H5.
  { unfold apply_limit, q4. cbn [set_startBlock set_endBlock startBlock endBlock].
    rewrite Hlim, sub_Int, !gt_Int.
    destruct (0 <? L) eqn:Hpos; [|reflexivity].
    replace (L <? t - (t - 1)) with false; [reflexivity|].
    symmetry. apply Z.ltb_ge. apply Z.ltb_lt in Hpos. lia. }
  rewrite H5 in Ho. exists q4, o. split; [exact Ho|]. now split.
Qed.

(** X8. A block identifier of 64 characters or more is looked up as a
    hash when no cursor is given. A non-zero height [n] found for it
    makes the range [n] to [n]; when nothing is found the call fails
    with "Could not get block" and the identifier. *)
Theorem block_hash_resolves_to_its_height :
  forall (params : GetBlockParams) (id : string) (found : option number)
         (w w1 : World),
    truthy_str (p_chain params) = true ->
    truthy_str (p_network params) = true ->
    p_blockId params = Some id ->
    (64 <= String.length id)%nat ->
    truthy_value (p_sinceBlock params) = false ->
    truthy_str (a_date (default no_args (p_args params))) = false ->
    truthy_str (a_startDate (default no_args (p_args params))) = false ->
    truthy_str (a_endDate (default no_args (p_args params))) = false ->
    getBlockNumberByBlockId env id (key_of (p_network params)) w = (Ok found, w1) ->
    (forall n : Z,
       found = Some (Int n) -> n <> 0 ->
       exists (q : Query) (o : Options),
         getBlocksParams env params w = (Ok (apply_sort (sort_of params) q, o), w1)
         /\ startBlock q = Int n /\ endBlock q = Int n)
    /\ (truthy_opt found = false ->
        getBlocksParams env params w = (Throw ("Could not get block " +:+ id), w1)).
Proof.
  intros params id found w w1 Hc Hn Hid Hlen Hsince Hd Hs He Hlookup.
  set (q0 := {| startBlock := Int 0; endBlock := Int 0;
                q_block := None; q_height := None |}).
  assert (truthy_str (Some id) = true) as Hts.
  { cbn. destruct (String.eqb_spec id "") as [->|]; [cbn in Hlen; lia | reflexivity]. }
  assert (read_blockId (p_blockId params) q0 w = (Ok (set_block q0 id), w)) as H1.
  { rewrite Hid. unfold read_blockId. rewrite Hts.
    change (key_of (Some id)) with id.
    now replace (64 <=? String.length id)%nat with true
      by (symmetry; apply Nat.leb_le; exact Hlen). }
  pose proof (read_dates_none _ (p_network params) (set_block q0 id) w Hd Hs He) as H2.
  split.
  - intros n -> Hn0.
    assert (read_range env (p_sinceBlock params) (limit_of params) (p_network params)
              (set_block q0 id) w
            = (Ok (set_height (set_block q0 id) (Int n)), w1)) as H3.
    { unfold read_range. rewrite Hsince. cbn [set_block q_block]. rewrite Hts.
      change (key_of (Some id)) with id. rewrite (bind_Ok _ _ _ _ _ Hlookup).
      cbn [truthy_opt]. rewrite truthy_Int.
      replace (n =? 0) with false by (symmetry; now apply Z.eqb_neq).
      reflexivity. }
    set (q4 := set_endBlock (set_startBlock (set_height (set_block q0 id) (Int n))
                               (Int n)) (Int n)).
    assert (use_tip env (p_chain params) (p_network params)
              (use_height (set_height (set_block q0 id) (Int n))) w1
            = (Ok q4, w1)) as H4.
    { unfold use_height. cbn [set_height q_height truthy_opt]. rewrite truthy_Int.
      replace (n =? 0) with false by (symmetry; now apply Z.eqb_neq).
      cbn [negb]. change (default NaN (Some (Int n))) with (Int n). unfold use_tip.
      cbn [set_endBlock set_startBlock startBlock endBlock]. rewrite truthy_Int.
      replace (n =? 0) with false by (symmetry; now apply Z.eqb_neq).
      reflexivity. }
    destruct (getBlocksParams_run params w w w w1 w1 _ _ _ q4 Hc Hn H1 H2 H3 H4)
      as [o Ho].
    assert (apply_limit (limit_of params) q4 = q4) as H5.
    { unfold apply_limit, q4. cbn [set_startBlock set_endBlock startBlock endBlock].
      rewrite sub_Int, Z.sub_diag.
      destruct (gt (limit_of params) (Int 0)) eqn:Hgt; [|reflexivity].
      unfold gt in *. now rewrite (lt_asym _ _ Hgt). }
    rewrite H5 in Ho. exists q4, o. split; [exact Ho|]. now split.
  - intros Hnone. unfold getBlocksParams. rewrite Hc, Hn. cbn [negb orb].
    fold (limit_of params). fold q0.
    rewrite (bind_Ok _ _ _ _ _ H1), (bind_Ok _ _ _ _ _ H2).
    apply bind_Throw. unfold read_range. rewrite Hsince.
    cbn [set_block q_block]. rewrite Hts. change (key_of (Some id)) with id.
    rewrite (bind_Ok _ _ _ _ _ Hlookup). now rewrite Hnone.
Qed.

(** X9. With the [date] argument given, [startDate] and [endDate] play no
    part: two calls that differ only in them resolve alike. *)
Theorem date_overrides_start_and_end :
  forall (params : GetBlockParams) (startDate endDate startDate' endDate' : option string)
         (w : World),
    truthy_str (a_date (default no_args (p_args params))) = true ->
    getBlocksParams env (with_start_end params startDate endDate) w
    = getBlocksParams env (with_start_end params startDate' endDate') w.
Proof.
  intros params startDate endDate startDate' endDate' w Hdate.
  unfold getBlocksParams, with_start_end.
  cbn [p_chain p_network p_sinceBlock p_blockId p_args from_option id
       a_limit a_sort a_since a_direction a_paging].
  destruct (negb _ || negb _); [reflexivity|].
  unfold bind.
  destruct (read_blockId _ _ w) as [[q1|e] w1]; [|reflexivity].
  assert (forall sd ed,
            read_dates env
              {| a_startDate := sd; a_endDate := ed;
                 a_date := a_date (default no_args (p_args params));
                 a_since := a_since (default no_args (p_args params));
                 a_direction := a_direction (default no_args (p_args params));
                 a_paging := a_paging (default no_args (p_args params));
                 a_limit := a_limit (default no_args (p_args params));
                 a_sort := a_sort (default no_args (p_args params)) |}
              (p_network params) q1 w1
            = read_dates env (default no_args (p_args params)) (p_network params) q1 w1)
    as Hsame.
  { intros sd ed. unfold read_dates. cbn [a_date a_startDate a_endDate].
    now rewrite Hdate. }
  now rewrite !Hsame.
Qed.

(** X10. A [date] is resolved as the day it starts: the start of the range
    is looked up for the date and the end for the date moved by one day,
    in this order. When the two lookups answer with the heights [s] and
    [e], safe integers other than zero, these are the bounds, and a
    positive limit [L], a safe integer, cuts the end to [s + L] when
    [e - s] exceeds it. (A lookup that answers 0 or nothing leaves its
    bound to be completed from the tip.) *)
Theorem date_resolves_to_its_day :
  forall (params : GetBlockParams) (d : string) (s e L : Z) (w w1 w2 : World),
    truthy_str (p_chain params) = true ->
    truthy_str (p_network params) = true ->
    p_blockId params = None ->
    truthy_value (p_sinceBlock params) = false ->
    a_date (default no_args (p_args params)) = Some d ->
    d <> ""%string ->
    limit_of params = Int L -> 0 < L ->
    getBlockNumberByDate env (NewDate d 0) (key_of (p_network params)) w
    = (Ok (Some (Int s)), w1) ->
    getBlockNumberByDate env (NewDate d 1) (key_of (p_network params)) w1
    = (Ok (Some (Int e)), w2) ->
    s <> 0 -> e <> 0 ->
    safe_integer s -> safe_integer e -> safe_integer L ->
    exists (q : Query) (o : Options),
      getBlocksParams env params w = (Ok (apply_sort (sort_of params) q, o), w2)
      /\ startBlock q = Int s
      /\ endBlock q = Int (if L <? e - s then s + L else e).
Proof.
  intros params d s e L w w1 w2 Hc Hn Hid Hsince Hdate Hd Hlim HL Hstart Hend Hs He
         _ _ _.
  set (q0 := {| startBlock := Int 0; endBlock := Int 0;
                q_block := None; q_height := None |}).
  set (q2 := set_endBlock (set_startBlock q0 (Int s)) (Int e)).
  assert (read_blockId (p_blockId params) q0 w = (Ok q0, w)) as H1
    by now rewrite Hid.
  assert (read_dates env (default no_args (p_args params)) (p_network params) q0 w
          = (Ok q2, w2)) as H2.
  { unfold read_dates. rewrite Hdate. cbn [truthy_str].
    replace (negb (String.eqb d "")) with true
      by (now destruct (String.eqb_spec d "")).
    change (key_of (Some d)) with d.
    rewrite (bind_Ok _ _ _ _ _ (bind_Ok _ _ _ _ _ Hstart)).
    unfold ret at 1. rewrite (bind_Ok _ _ _ _ _ Hend). unfold ret, q2.
    cbn [or_undefined]. unfold or. rewrite !truthy_Int.
    replace (s =? 0) with false by (symmetry; now apply Z.eqb_neq).
    replace (e =? 0) with false by (symmetry; now apply Z.eqb_neq).
    reflexivity. }
  assert (read_range env (p_sinceBlock params) (limit_of params) (p_network params) q2 w2
          = (Ok q2, w2)) as H3.
  { unfold read_range. now rewrite Hsince. }
  assert (use_tip env (p_chain params) (p_network params) (use_height q2) w2
          = (Ok q2, w2)) as H4.
  { unfold use_height, use_tip, q2.
    cbn [set_endBlock set_startBlock q0 q_height truthy_opt startBlock endBlock].
    rewrite !truthy_Int.
    replace (s =? 0) with false by (symmetry; now apply Z.eqb_neq).
    replace (e =? 0) with false by (symmetry; now apply Z.eqb_neq).
    reflexivity. }
  destruct (getBlocksParams_run params w w w2 w2 w2 _ _ _ _ Hc Hn H1 H2 H3 H4)
    as [o Ho].
  exists (apply_limit (limit_of params) q2), o. split; [exact Ho|].
  unfold apply_limit, q2. cbn [set_endBlock set_startBlock startBlock endBlock].
  rewrite Hlim, sub_Int, !gt_Int.
  replace (0 <? L) with true by (symmetry; now apply Z.ltb_lt).
  cbn [andb]. destruct (L <? e - s); cbn [set_endBlock startBlock endBlock];
    rewrite ?add_Int; now split.
Qed.

End RangeBranches.

(** * More on the batch of [getBlocks] *)

Section BatchFacts.
Variable env : Env.
Import JS.








(** X13. A failure before the batch leaves, in resolving the range, in
    finding a peer or in reading the tip, is written to the error log
    once and the call resolves with undefined. *)
Theorem getBlocks_logs_early_failure :
  forall (params : GetBlockParams) (w : World) (e : string),
    (forall w1,
       getBlocksParams env params w = (Throw e, w1) ->
       getBlocks env params w
       = (Ok NoBlocks,
          record_event (ELog "error" "Error getting blocks from historical node: %o" e) w1))
    /\ (forall qo w1 w2,
          getBlocksParams env params w = (Ok qo, w1) ->
          getWeb3 env (key_of (p_network params)) (Some "historical"%string) w1
          = (Throw e, w2) ->
          getBlocks env params w
          = (Ok NoBlocks,
             record_event (ELog "error" "Error getting blocks from historical node: %o" e) w2))
    /\ (forall qo rpc w1 w2 w3,
          getBlocksParams env params w = (Ok qo, w1) ->
          getWeb3 env (key_of (p_network params)) (Some "historical"%string) w1
          = (Ok rpc, w2) ->
          getLocalTip env (p_chain params) (p_network params) false w2 = (Throw e, w3) ->
          getBlocks env params w
          = (Ok NoBlocks,
             record_event (ELog "error" "Error getting blocks from historical node: %o" e) w3)).
Proof.
  intros params w e. split; [|split].
  - intros w1 Hq. unfold getBlocks, try_catch.
    now rewrite (bind_Throw _ _ _ _ _ Hq).
  - intros qo w1 w2 Hq Hrpc. unfold getBlocks, try_catch.
    rewrite (bind_Ok _ _ _ _ _ Hq). now rewrite (bind_Throw _ _ _ _ _ Hrpc).
  - intros qo rpc w1 w2 w3 Hq Hrpc Htip. unfold getBlocks, try_catch.
    rewrite (bind_Ok _ _ _ _ _ Hq), (bind_Ok _ _ _ _ _ Hrpc).
    now rewrite (bind_Throw _ _ _ _ _ Htip).
Qed.

End BatchFacts.

(** * More on fees, balances and transactions *)

Section MoreFetchFacts.
Variable env : Env.
Import JS.

Lemma of_bigint_small (x : Z) : Z.abs x < 2 ^ 53 -> of_bigint x = Int x.
Proof.
  intros Hx. unfold of_bigint.
  now replace (Z.abs x <? 2 ^ 53) with true by (symmetry; now apply Z.ltb_lt).
Qed.

Lemma insert_desc_perm (x : Z) (l : list Z) : insert_desc x l ≡ₚ x :: l.
Proof.
  induction l as [|y l IH]; cbn [insert_desc]; [reflexivity|].
  destruct (y <? x); [reflexivity|]. rewrite IH. apply Permutation_swap.
Qed.

Lemma insert_desc_sorted (x : Z) (l : list Z) :
  StronglySorted Z.ge l -> StronglySorted Z.ge (insert_desc x l).
Proof.
  induction l as [|y l IH]; intros Hs; cbn [insert_desc].
  - constructor; constructor.
  - apply StronglySorted_inv in Hs as [Hl Hy].
    destruct (Z.ltb_spec y x) as [Hlt|Hge].
    + constructor; [constructor; assumption|].
      constructor; [lia|]. eapply Forall_impl; [exact Hy|]. cbn. intros; lia.
    + constructor; [now apply IH|].
      rewrite insert_desc_perm. constructor; [lia | exact Hy].
Qed.

Lemma sort_desc_perm (l : list Z) : sort_desc l ≡ₚ l.
Proof.
  induction l as [|x l IH]; cbn; [reflexivity|].
  fold (sort_desc l). now rewrite insert_desc_perm, IH.
Qed.

Lemma sort_desc_sorted (l : list Z) : StronglySorted Z.ge (sort_desc l).
Proof.
  induction l as [|x l IH]; cbn; [constructor|].
  fold (sort_desc l). now apply insert_desc_sorted.
Qed.

Lemma gasPrices_of_sums : forall (base : list Z) (rewards : list (list Z)) (l : list Z),
  gasPrices_of base rewards = Ok l ->
  length l = Nat.min (length base) (length rewards)
  /\ forall (i : nat) (b : Z) (rw : list Z),
       base !! i = Some b -> rewards !! i = Some rw ->
       exists r0 : Z, head rw = Some r0 /\ l !! i = Some (b + r0).
Proof.
  induction base as [|b base IH]; intros rewards l H.
  - cbn in H. injection H as <-. split; [reflexivity|]. intros i b rw Hb. discriminate.
  - destruct rewards as [|r rewards].
    + cbn in H. injection H as <-. split; [reflexivity|]. intros i b' rw _ Hr. discriminate.
    + cbn [gasPrices_of] in H. destruct r as [|r0 r]; [discriminate|].
      destruct (gasPrices_of base rewards) as [l'|] eqn:Hrec; [|discriminate].
      injection H as <-. destruct (IH _ _ Hrec) as [Hlen Hnth].
      split; [cbn; now rewrite Hlen|].
      intros [|i] b' rw Hb Hr; cbn in Hb, Hr.
      * injection Hb as <-. injection Hr as <-. exists r0. now split.
      * cbn. now apply Hnth.
Qed.

(** X14. The prices [getFee] hands to the statistics helper are the sums
    of base fee and first reward of the blocks of the fee history, as
    many as the shorter of its two arrays has, in descending order. The
    history is asked for the 4000 blocks up to the latest one, at the
    25th percentile. The feerate is the helper's answer converted from
    BigInt to a number: the answer itself below [2^53], the nearest
    double above. *)
Theorem getFee_prices_sorted_descending :
  forall (params : GetFeeParams) (w w' : World) (r : FeeResult),
    getFee env params w = (Ok r, w') ->
    exists (web3 : Rpc) (latest : number) (h : FeeHistory)
           (sums prices : list Z) (median : Z),
      eth_getBlockNumber env (rpcId web3) = Ok latest
      /\ eth_getFeeHistory env (rpcId web3) 4000 latest [25] = Ok h
      /\ length sums = Nat.min (length (baseFeePerGas h)) (length (reward h))
      /\ (forall (i : nat) (b : Z) (rw : list Z),
            baseFeePerGas h !! i = Some b -> reward h !! i = Some rw ->
            exists r0 : Z, head rw = Some r0 /\ sums !! i = Some (b + r0))
      /\ prices ≡ₚ sums
      /\ StronglySorted Z.ge prices
      /\ getNthQuartileMedian env prices (whichQuartile (target_of params)) = Ok median
      /\ feerate r = of_bigint median
      /\ (Z.abs median < 2 ^ 53 -> feerate r = Int median).
Proof.
  intros params w w' r H. unfold getFee in H.
  apply bind_Ok_inv in H as (web3 & w1 & _ & H).
  apply bind_Ok_inv in H as (latest & w2 & Hlatest & H).
  apply bind_Ok_inv in H as (h & w3 & Hh & H).
  apply bind_Ok_inv in H as (sums & w4 & Hsums & H).
  apply bind_Ok_inv in H as (median & w5 & Hmed & H).
  rewrite await_run in Hlatest. injection Hlatest as Hlatest _.
  rewrite await_run in Hh. injection Hh as Hh _.
  unfold settle in Hsums, Hmed. injection Hsums as Hsums _. injection Hmed as Hmed _.
  unfold ret in H. injection H as <- _.
  destruct (gasPrices_of_sums _ _ _ Hsums) as [Hlen Hnth].
  exists web3, latest, h, sums, (sort_desc sums), median.
  split; [exact Hlatest|]. split; [exact Hh|]. split; [exact Hlen|].
  split; [exact Hnth|]. split; [apply sort_desc_perm|].
  split; [apply sort_desc_sorted|]. split; [exact Hmed|].
  split; [reflexivity|]. cbn [feerate]. apply of_bigint_small.
Qed.

(** X15. Every failure of [getWalletBalanceAtTime] is written to the error
    log and raised again to the caller, the log line being the last
    thing done. A missing wallet, and a wallet whose identifier is
    absent or empty, fails with "Missing wallet" before anything is read
    or requested. *)
Theorem wallet_failure_logged_and_raised :
  forall (params : GetWalletBalanceAtTimeParams) (w : World),
    (truthy_str (wb_wallet params ≫= w_id) = false ->
     getWalletBalanceAtTime env params w
     = (Throw "Missing wallet",
        record_event
          (ELog "error" "Error getting wallet balance at time from external provider %o"
                "Missing wallet") w))
    /\ (forall (e : string) (w' : World),
          getWalletBalanceAtTime env params w = (Throw e, w') ->
          exists w0 : World,
            w' = record_event
                   (ELog "error"
                      "Error getting wallet balance at time from external provider %o" e)
                   w0).
Proof.
  intros params w. split.
  - intros Hnone. unfold getWalletBalanceAtTime, try_catch. now rewrite Hnone.
  - intros e w'. unfold getWalletBalanceAtTime, try_catch.
    destruct (negb (truthy_str (wb_wallet params ≫= w_id)));
      [unfold bind, logger_error, emit, throw; intros [= <- <-]; now eexists|].
    match goal with
    | |- context [match ?m w with _ => _ end] => destruct (m w) as [[r0|e0] w0]
    end; [discriminate|].
    unfold bind, logger_error, emit, throw. intros [= <- <-]. now exists w0.
Qed.

(** X16. A transaction without block number, or with a block number that
    is zero or negative, is returned with 0 confirmations whatever the
    tip. *)
Theorem unmined_transaction_has_no_confirmations :
  forall (chain network : option string) (txId : string) (tipHeight : number)
         (web3 : Rpc) (w w' : World) (r : TxWithConfirmations env) (tx : Tx),
    eth_getTransaction env (rpcId web3) txId = Ok (Some tx) ->
    tx_blockNumber tx = None
    \/ (exists n : Z, tx_blockNumber tx = Some (Int n) /\ n <= 0) ->
    _getTransaction env chain network txId tipHeight web3 w = (Ok (Some r), w') ->
    ct_confirmations env r = Int 0.
Proof.
  intros chain network txId tipHeight web3 w w' r tx Htx Hnum Hrun.
  rewrite (_getTransaction_confirmations _ _ _ _ _ _ _ _ _ _ Htx Hrun).
  unfold tx_confirmations. destruct Hnum as [-> | (n & -> & Hn)]; [reflexivity|].
  cbn [truthy_opt default from_option id]. rewrite truthy_Int, ge_Int.
  destruct (Z.eqb_spec n 0) as [->|Hn0]; [reflexivity|].
  cbn [negb andb]. now replace (0 <=? n) with false by (symmetry; apply Z.leb_gt; lia).
Qed.

(** X17. When the peer cannot return the block a transaction names, as for
    a pending one whose block hash is null, [getTransaction] logs the
    failure and resolves with undefined although the transaction is
    known to the peer. *)
Theorem getTransaction_without_block_returns_undefined :
  forall (params : StreamTransactionParams) (web3 rpc : Rpc) (tip : IBlock) (tx : Tx)
         (w w1 w2 w3 : World),
    negb (is_string (st_txId params)) || negb (truthy_str (st_chain params))
      || negb (truthy_str (st_network params)) = false ->
    getWeb3 env (key_of (st_network params)) (Some "historical"%string) w = (Ok web3, w1) ->
    getLocalTip env (st_chain params) (st_network params) false w1 = (Ok tip, w2) ->
    eth_getTransaction env (rpcId web3) (string_of_value (st_txId params))
    = Ok (Some tx) ->
    getWeb3 env (key_of (st_network params)) None
      (record_event (EEth (rpcId web3) (GetTransaction (string_of_value (st_txId params))))
         w2)
    = (Ok rpc, w3) ->
    eth_getBlock env (rpcId rpc) (ByHash (tx_blockHash tx)) = Ok None ->
    getTransaction env params w
    = (Ok None,
       record_event
         (ELog "error" "Error getting transactions from historical node %o"
               "TypeError: Cannot read properties of null (reading 'timestamp')")
         (record_event (EEth (rpcId rpc) (GetBlock (ByHash (tx_blockHash tx)))) w3)).
Proof.
  intros params web3 rpc tip tx w w1 w2 w3 Hgood Hweb3 Htip Htx Hrpc Hblock.
  unfold getTransaction, try_catch. rewrite Hgood.
  rewrite (bind_Ok _ _ _ _ _ Hweb3), (bind_Ok _ _ _ _ _ Htip).
  unfold _getTransaction. unfold bind at 1. rewrite await_run, Htx.
  unfold getBlockTimestamp. unfold bind at 1. unfold bind at 1.
  rewrite Hrpc. unfold bind at 1. rewrite await_run, Hblock. reflexivity.
Qed.

End MoreFetchFacts.

(** * The guard of the API routes *)

Section GuardFacts.
Variable builtin : string -> string -> bool.

Lemma hasChain_spec (config : ChainsConfig) (chain : string) :
  existsb (String.eqb chain) (chains config) = true <-> is_Some (config !! chain).
Proof.
  rewrite existsb_exists. unfold chains. split.
  - intros (c & Hin & Heq). apply String.eqb_eq in Heq as <-.
    apply list_elem_of_In, list_elem_of_fmap in Hin as ([c ns] & -> & Hin).
    apply elem_of_map_to_list in Hin. now exists ns.
  - intros [ns Hns]. exists chain. split; [|apply String.eqb_refl].
    apply list_elem_of_In, list_elem_of_fmap. exists (chain, ns).
    split; [reflexivity|]. now apply elem_of_map_to_list.
Qed.

Lemma inherited_proto : inherited "__proto__" = true.
Proof. reflexivity. Qed.

(** What the inner loop leaves for one chain. *)
Lemma assign_networks (chain : string) (networks : gmap string (gset string)) :
  networks !! chain = None ->
  forall nets : gset string,
    set_fold (assign_network chain) networks nets
    = if decide (nets = ∅) then networks
      else <[chain := nets ∖ {["__proto__"%string]}]> networks.
Proof.
  intros Hnone.
  apply (set_fold_ind_L
           (fun r (X : gset string) =>
              r = if decide (X = ∅) then networks
                  else <[chain := X ∖ {["__proto__"%string]}]> networks)).
  - now rewrite decide_True.
  - intros x X r Hx ->.
    rewrite (decide_False (P := {[x]} ∪ X = ∅))
      by (intros H; apply (not_elem_of_empty (C := gset string) x); rewrite <- H;
          apply elem_of_union; left; now apply elem_of_singleton).
    unfold assign_network. destruct (decide (X = ∅)) as [->|HX].
    + rewrite Hnone. cbn [default from_option id]. f_equal.
      destruct (String.eqb_spec x "__proto__") as [->|Hp];
        apply set_eq; intros y; set_unfold; intuition congruence.
    + rewrite lookup_insert_eq. cbn [default from_option id].
      rewrite insert_insert_eq. f_equal.
      destruct (String.eqb_spec x "__proto__") as [->|Hp];
        apply set_eq; intros y; set_unfold; intuition congruence.
Qed.

(** The map the two loops build: a chain is in it when it has at least
    one network, with its networks. *)
Lemma networks_of_lookup (config : ChainsConfig) (chain : string) :
  networks_of config !! chain
  = match config !! chain with
    | Some nets => if decide (nets = ∅) then None
                   else Some (nets ∖ {["__proto__"%string]})
    | None => None
    end.
Proof.
  unfold networks_of. revert chain.
  apply (map_fold_weak_ind
           (fun (r m : gmap string (gset string)) =>
              forall chain,
                r !! chain
                = match m !! chain with
                  | Some nets => if decide (nets = ∅) then None
                                 else Some (nets ∖ {["__proto__"%string]})
                  | None => None
                  end)).
  - intros chain. now rewrite !lookup_empty.
  - intros c nets m r Hc IH chain.
    assert (r !! c = None) as Hrc by (now rewrite IH, Hc).
    rewrite assign_networks by exact Hrc.
    destruct (decide (c = chain)) as [->|Hne].
    + rewrite lookup_insert_eq. destruct (decide (nets = ∅)).
      * now rewrite IH, Hc.
      * now rewrite lookup_insert_eq.
    + rewrite (lookup_insert_ne m) by exact Hne.
      destruct (decide (nets = ∅)); [apply IH|].
      rewrite lookup_insert_ne by exact Hne. apply IH.
Qed.

Lemma plain_chains_spec (config : ChainsConfig) (chain : string) :
  plain_chains config = true -> is_Some (config !! chain) -> inherited chain = false.
Proof.
  unfold plain_chains. rewrite forallb_forall. intros Hall [ns Hns].
  apply negb_true_iff, Hall. unfold chains.
  apply list_elem_of_In, list_elem_of_fmap. exists (chain, ns).
  split; [reflexivity|]. now apply elem_of_map_to_list.
Qed.

Lemma truthy_str_Some (s : string) : s <> ""%string -> truthy_str (Some s) = true.
Proof. intros Hs. cbn. now destruct (String.eqb_spec s ""). Qed.

(** X18. A request for a named chain and network passes the guard exactly
    when the chain is configured with at least one network and the
    network is one of them, or is a name every object inherits, such as
    "constructor" or "toString". *)
Theorem route_guard_passes_configured_pairs :
  forall (config : ChainsConfig) (chain network : string),
    plain_chains config = true ->
    chain <> ""%string -> network <> ""%string ->
    (route_guard builtin config chain network = Next
     <-> exists nets : gset string,
           config !! chain = Some nets /\ nets <> ∅
           /\ (network ∈ nets \/ inherited network = true)).
Proof.
  intros config chain network Hplain Hc Hn. unfold route_guard.
  rewrite (truthy_str_Some _ Hc), (truthy_str_Some _ Hn), networks_of_lookup.
  cbn [andb]. destruct (config !! chain) as [nets|] eqn:Hcfg.
  - replace (existsb (String.eqb chain) (chains config)) with true
      by (symmetry; apply hasChain_spec; now rewrite Hcfg).
    cbn [negb]. destruct (decide (nets = ∅)) as [->|Hne].
    + rewrite (plain_chains_spec config chain Hplain) by (now rewrite Hcfg).
      cbn [negb orb andb]. split; [discriminate|]. intros (ns & [= <-] & Hns & _).
      now destruct Hns.
    + cbn [negb orb]. destruct (inherited network) eqn:Hin.
      * rewrite orb_true_r. cbn [negb]. split; [|reflexivity].
        intros _. exists nets. split; [reflexivity|]. split; [exact Hne | now right].
      * rewrite orb_false_r. destruct (decide (network ∈ nets)) as [Hel|Hnel].
        -- rewrite bool_decide_eq_true_2.
           ++ cbn [negb]. split; [|reflexivity]. intros _. exists nets.
              split; [reflexivity|]. split; [exact Hne | now left].
           ++ apply elem_of_difference. split; [exact Hel|].
              intros Hp. apply elem_of_singleton in Hp. subst network.
              now rewrite inherited_proto in Hin.
        -- rewrite bool_decide_eq_false_2
             by (intros H; now apply elem_of_difference in H as [H _]).
           cbn [negb]. split; [discriminate|].
           intros (ns & [= <-] & _ & [Hel | Hinh]); [contradiction | discriminate].
  - replace (existsb (String.eqb chain) (chains config)) with false.
    + cbn [negb]. split; [discriminate|]. intros (ns & Hns & _). discriminate.
    + symmetry. apply not_true_is_false. intros H. apply hasChain_spec in H.
      rewrite Hcfg in H. now destruct H.
Qed.

(** X19. The guard turns a request away with status 500 and a message that
    names what is missing: the chain when the chain is not configured,
    the network and the chain when the chain is configured without this
    network. *)
Theorem route_guard_rejections :
  forall (config : ChainsConfig) (chain network : string),
    (chain <> ""%string -> config !! chain = None ->
     route_guard builtin config chain network
     = Send 500 ("This node is not configured for the chain " +:+ chain))
    /\ (forall nets : gset string,
          plain_chains config = true -> network <> ""%string ->
          config !! chain = Some nets ->
          network ∉ nets -> inherited network = false ->
          route_guard builtin config chain network
          = Send 500 ("This node is not configured for the network " +:+ network
                        +:+ " on chain " +:+ chain)).
Proof.
  intros config chain network. split.
  - intros Hc Hcfg. unfold route_guard. rewrite (truthy_str_Some _ Hc).
    replace (existsb (String.eqb chain) (chains config)) with false; [reflexivity|].
    symmetry. apply not_true_is_false. intros H. apply hasChain_spec in H.
    rewrite Hcfg in H. now destruct H.
  - intros nets Hplain Hn Hcfg Hnel Hin. unfold route_guard.
    replace (existsb (String.eqb chain) (chains config)) with true
      by (symmetry; apply hasChain_spec; now rewrite Hcfg).
    rewrite andb_false_r, (truthy_str_Some _ Hn), networks_of_lookup, Hcfg.
    cbn [andb]. destruct (decide (nets = ∅)).
    + rewrite (plain_chains_spec config chain Hplain) by (now rewrite Hcfg).
      reflexivity.
    + rewrite Hin, bool_decide_eq_false_2
        by (intros H; now apply elem_of_difference in H as [H _]).
      reflexivity.
Qed.

End GuardFacts.

(** * The sample deployment at work *)

Section Examples.
Import JS.

(** ** Confirmations *)

(** C1, at the tip: block 110 under tip 110 carries one confirmation,
    and the transaction "0xfeed" of block 100 carries eleven. *)
Lemma confirmations_formula_witness :
  (exists r : BlockWithConfirmations,
     blockTransform sample_env (Some "ETH"%string) (Some "mainnet"%string)
       (Int 110) (Ok (Some (sample_block 110))) = Ok r
     /\ ib_height (cb_block r) = Int 110
     /\ cb_confirmations r = Int (110 - 110 + 1))
  /\ (exists (r : TxWithConfirmations sample_env) (w' : World),
        _getTransaction sample_env (Some "ETH"%string) (Some "mainnet"%string)
          "0xfeed" (Int 110) live_peer (sample_world [live_peer])
        = (Ok (Some r), w')
        /\ ct_confirmations sample_env r = Int (110 - 100 + 1)).
Proof.
  split.
  - apply (proj1 (confirmations_formula sample_env 110 110)
             (Some "ETH"%string) (Some "mainnet"%string) (sample_block 110));
      [lia | reflexivity | reflexivity].
  - destruct (_getTransaction sample_env (Some "ETH"%string) (Some "mainnet"%string)
                "0xfeed" (Int 110) live_peer (sample_world [live_peer]))
      as [[[r|]|e] w'] eqn:Hrun;
      [ | vm_compute in Hrun; discriminate | vm_compute in Hrun; discriminate ].
    exists r, w'. split; [reflexivity|].
    apply (proj2 (confirmations_formula sample_env 110 100)
             (Some "ETH"%string) (Some "mainnet"%string) "0xfeed" live_peer
             (sample_world [live_peer]) w' r (sample_tx (Some (Int 100))));
      [lia | reflexivity | reflexivity | exact Hrun].
Defined.

(** C1, counterexample. Under tip 5 the block 7, two above the tip, has
    its confirmations computed all the same: the guard [blockHeight >= 0]
    holds and the value is 5 - 7 + 1 = -1, not the initial 0. *)
Lemma confirmations_computed_above_tip :
  exists r : BlockWithConfirmations,
    blockTransform sample_env (Some "ETH"%string) (Some "mainnet"%string)
      (Int 5) (Ok (Some (sample_block 7))) = Ok r
    /\ lt (Int 5) (ib_height (cb_block r)) = true
    /\ cb_confirmations r = Int (-1)
    /\ cb_confirmations r <> Int 0.
Proof.
  eexists. split; [reflexivity|]. cbn. repeat split. discriminate.
Qed.

(** The transaction "0xfee0" of block 0 keeps the initial 0 under tip
    110, where the block 0 itself gets 111: a block number of 0 is falsy
    in the guard of [_getTransaction]. *)
Lemma confirmations_of_block_zero :
  tx_confirmations (Int 110) (sample_tx (Some (Int 0))) = Int 0
  /\ exists r : BlockWithConfirmations,
       blockTransform sample_env (Some "ETH"%string) (Some "mainnet"%string)
         (Int 110) (Ok (Some (sample_block 0))) = Ok r
       /\ cb_confirmations r = Int 111.
Proof. split; [reflexivity|]. eexists. split; reflexivity. Qed.

(** ** The range resolver *)

(** The scenario of the specification: [sinceBlock] "100" with limit 5
    resolves to 100 and 105, and asks nothing of the network. *)
Lemma since_100_limit_5 :
  let r := getBlocksParams sample_env
             (sample_params (Str "100") None (Some (sample_args (Some (Int 5)) None)))
             (sample_world [live_peer]) in
  bounds_of r.1 = Some (Int 100, Int 105) /\ trace r.2 = [].
Proof. vm_compute. split; reflexivity. Qed.

(** C6, at the default limit 10 under tip 110: the cursor "0" resolves to
    the range 9 to 10. *)
Lemma since_zero_resolved_as_unset_witness :
  exists (o : Options) (w' : World),
    getBlocksParams sample_env (sample_params (Str "0") None None)
      (sample_world [live_peer])
    = (Ok ({| startBlock := Int 9; endBlock := Int 10;
              q_block := None; q_height := None |}, o), w').
Proof.
  destruct (getLocalTip sample_env (Some "ETH"%string) (Some "mainnet"%string)
              false (sample_world [live_peer])) as [[tip|e] w'] eqn:Htip;
    [|vm_compute in Htip; discriminate].
  destruct (since_zero_resolved_as_unset sample_env
              (sample_params (Str "0") None None) 10
              (sample_world [live_peer]) w' tip) as [o Ho];
    [reflexivity | reflexivity | reflexivity | reflexivity | reflexivity
    | reflexivity | reflexivity | reflexivity | lia | exact Htip |].
  exists o, w'. exact Ho.
Defined.

(** The same call, by evaluation: the tip is fetched to complete a range
    that the cursor had given in full. *)
Lemma since_zero_asks_for_the_tip :
  let r := getBlocksParams sample_env (sample_params (Str "0") None None)
             (sample_world [live_peer]) in
  bounds_of r.1 = Some (Int 9, Int 10)
  /\ trace r.2 = [EProbe 1; EEth 1 (GetBlock Latest)].
Proof. vm_compute. split; reflexivity. Qed.

(** A decimal block identifier given along with the cursor takes the
    range over. *)
Lemma since_with_block_id :
  bounds_of (getBlocksParams sample_env (sample_params (Str "100") (Some "7"%string) None)
               (sample_world [live_peer])).1
  = Some (Int 7, Int 7).
Proof. vm_compute. reflexivity. Qed.

(** The examples of the specification, as block identifier and as cursor. *)
Lemma malformed_examples_rejected :
  Forall (fun s =>
            (getBlocksParams sample_env (sample_params Undefined (Some s) None)
               (sample_world [live_peer])).1
            = Throw "invalid block id provided"
            /\ (getBlocksParams sample_env (sample_params (Str s) None None)
                  (sample_world [live_peer])).1
               = Throw "invalid block id provided")
         ["12a"; "007"; "abc"; " 7"; "+7"; "0x10"; "1e3"; "-0"]%string.
Proof. repeat constructor. Qed.

(** The cursor is converted with [Number], so the reprint of a number
    that is not an integer is accepted where the block identifier, read
    with [parseInt], is not; a cursor that is a number, not a string, is
    never its own reprint. *)
Lemma cursor_reprints :
  bounds_of (getBlocksParams sample_env (sample_params (Str "1.5") None None)
               (sample_world [live_peer])).1
  = Some (Fin 15 1, Fin 115 1)
  /\ (getBlocksParams sample_env (sample_params Undefined (Some "1.5"%string) None)
        (sample_world [live_peer])).1
     = Throw "invalid block id provided"
  /\ (getBlocksParams sample_env (sample_params (Num (Int 100)) None None)
        (sample_world [live_peer])).1
     = Throw "invalid block id provided".
Proof. vm_compute. repeat split. Qed.

Lemma not_canonical_12a : ~ canonical_reprint "12a".
Proof.
  intros (x & Hx & Hprint). revert Hprint. now apply not_a_reprint.
Qed.

(** C7, at "12a". *)
Lemma malformed_identifiers_rejected_witness :
  getBlocksParams sample_env (sample_params Undefined (Some "12a"%string) None)
    (sample_world [live_peer])
  = (Throw "invalid block id provided", sample_world [live_peer])
  /\ getBlocksParams sample_env (sample_params (Str "12a") None None)
       (sample_world [live_peer])
     = (Throw "invalid block id provided", sample_world [live_peer]).
Proof.
  destruct (malformed_identifiers_rejected sample_env "12a"
              ltac:(discriminate) not_canonical_12a) as [Hid Hsince].
  split.
  - apply Hid; [reflexivity | reflexivity | reflexivity | cbn; lia].
  - apply (Hsince (sample_params (Str "12a") None None));
      reflexivity.
Defined.

(** C8, counterexample. A limit of 0 is supplied, the two dates resolve
    to blocks 100 and 200, and the range stays 100 to 200: its span of
    100 is not within the limit. *)
Lemma zero_limit_not_enforced :
  let params :=
    sample_params Undefined None
      (Some {| a_startDate := Some "2024-01-01"%string;
               a_endDate := Some "2024-01-02"%string;
               a_date := None; a_since := Undefined; a_direction := Undefined;
               a_paging := Undefined; a_limit := Some (Int 0); a_sort := None |}) in
  exists q o w',
    getBlocksParams sample_env params (sample_world [live_peer]) = (Ok (q, o), w')
    /\ limit_of params = Int 0
    /\ startBlock q = Int 100 /\ endBlock q = Int 200
    /\ ~ span_within (endBlock q) (startBlock q) (limit_of params).
Proof.
  intros params.
  destruct (getBlocksParams sample_env params (sample_world [live_peer]))
    as [[[q o]|e] w'] eqn:Hrun; [|vm_compute in Hrun; discriminate].
  exists q, o, w'. split; [reflexivity|].
  vm_compute in Hrun. injection Hrun as <- _ _.
  repeat split. vm_compute. discriminate.
Qed.

(** C8, at [sinceBlock] "100" with limit 5. *)
Lemma range_within_positive_limit_witness :
  exists q o w',
    getBlocksParams sample_env
      (sample_params (Str "100") None (Some (sample_args (Some (Int 5)) None)))
      (sample_world [live_peer]) = (Ok (q, o), w')
    /\ startBlock q = Int 100 /\ endBlock q = Int 105
    /\ 105 - 100 <= 5.
Proof.
  destruct (getBlocksParams sample_env
      (sample_params (Str "100") None (Some (sample_args (Some (Int 5)) None)))
      (sample_world [live_peer])) as [[[q o]|e] w'] eqn:Hrun;
    [|vm_compute in Hrun; discriminate].
  exists q, o, w'. split; [reflexivity|].
  assert (startBlock q = Int 100 /\ endBlock q = Int 105) as [Hs He]
    by (vm_compute in Hrun; injection Hrun as <- _ _; split; reflexivity).
  split; [exact Hs|]. split; [exact He|].
  apply (range_within_positive_limit sample_env
           (sample_params (Str "100") None (Some (sample_args (Some (Int 5)) None)))
           5 100 105 (sample_world [live_peer]) w' q o);
    [ lia | unfold safe_integer, MAX_SAFE_INTEGER; lia | reflexivity | exact Hrun
    | exact Hs | exact He
    | unfold safe_integer, MAX_SAFE_INTEGER; lia
    | unfold safe_integer, MAX_SAFE_INTEGER; lia ].
Defined.

(** C2, counterexample. The block identifier "7" with [sort === -1]
    resolves to 7 and 7: the bounds were exchanged, and [startBlock] is
    not greater than [endBlock]. *)
Lemma descending_single_height_not_strict :
  let params :=
    sample_params Undefined (Some "7"%string)
      (Some (sample_args None (Some (SortNumber (Int (-1)))))) in
  exists q o w',
    getBlocksParams sample_env params (sample_world [live_peer]) = (Ok (q, o), w')
    /\ sort_is_minus_one (sort_of params) = true
    /\ startBlock q = Int 7 /\ endBlock q = Int 7
    /\ gt (startBlock q) (endBlock q) = false.
Proof.
  intros params.
  destruct (getBlocksParams sample_env params (sample_world [live_peer]))
    as [[[q o]|e] w'] eqn:Hrun; [|vm_compute in Hrun; discriminate].
  exists q, o, w'. split; [reflexivity|].
  vm_compute in Hrun. injection Hrun as <- _ _. repeat split.
Qed.

(** Without a [sort] argument the default [{ height: -1 }] applies and
    the bounds are not exchanged. *)
Lemma default_sort_keeps_order :
  sort_is_minus_one (sort_of (sample_params (Str "100") None None)) = false
  /\ bounds_of (getBlocksParams sample_env (sample_params (Str "100") None None)
                  (sample_world [live_peer])).1
     = Some (Int 100, Int 110).
Proof. vm_compute. split; reflexivity. Qed.

(** ** The connection pool *)

(** C9, at the scenario of the specification: a silent entry followed
    by a healthy one of the requested capability. The silent entry is
    removed, the healthy one is neither probed nor returned, and a new
    connection is made. *)
Lemma getWeb3_steps_over_entry_after_removal_witness :
  probe sample_env (rpcId live_peer) = true
  /\ exists (fresh : Rpc) (w' : World),
       getWeb3 sample_env "mainnet" (Some "historical"%string)
         (sample_world [dead_peer; live_peer]) = (Ok fresh, w')
       /\ rpcId fresh = 10%nat
       /\ registered w' "ETH" "mainnet" = Some [live_peer; fresh]
       /\ trace w' =
            [EProbe 0; EReconnect 0;
             ELog "info" "Making a new connection for ETH:mainnet" "";
             EConnect "mainnet" (Some "historical"%string)].
Proof.
  split; [reflexivity|].
  apply (getWeb3_steps_over_entry_after_removal sample_env "mainnet"
           (Some "historical"%string) (Some "historical"%string)
           dead_peer live_peer (sample_world [dead_peer; live_peer]));
    reflexivity.
Defined.

(** With the healthy entry first, it is returned after one probe. *)
Lemma getWeb3_first_healthy :
  let r := getWeb3 sample_env "mainnet" (Some "historical"%string)
             (sample_world [live_peer; dead_peer]) in
  r.1 = Ok live_peer
  /\ registered r.2 "ETH" "mainnet" = Some [live_peer; dead_peer]
  /\ trace r.2 = [EProbe 1].
Proof. vm_compute. repeat split. Qed.

(** ** getBlocks *)

(** C4, the scenario of the specification with limit 1: the blocks 100
    and 101 come back as the peer sent them, without confirmations. *)
Lemma getBlocks_sample_range :
  (getBlocks sample_env
     (sample_params (Str "100") None (Some (sample_args (Some (Int 1)) None)))
     (sample_world [live_peer])).1
  = Ok (RawBlocks [Some (sample_block 100); Some (sample_block 101)]).
Proof. vm_compute. reflexivity. Qed.

(** A block that does not exist makes its transform fail; the failure is
    an unhandled rejection and the array with the null entry is returned. *)
Lemma getBlocks_missing_block :
  let r := getBlocks sample_env
             (sample_params (Str "110") None (Some (sample_args (Some (Int 1)) None)))
             (sample_world [live_peer]) in
  r.1 = Ok (RawBlocks [Some (sample_block 110); None])
  /\ trace r.2 =
       [EProbe 1; EProbe 1; EEth 1 (GetBlock Latest);
        EEth 1 (GetBlockBatch [Int 110; Int 111]);
        EUnhandledRejection
          "TypeError: Cannot read properties of null (reading 'height')"].
Proof. vm_compute. split; reflexivity. Qed.

(** ** getTransaction *)

(** C5, counterexample. Without a chain nothing is raised: the call
    returns undefined, as it does for the transaction "0xnone" that no
    peer knows. *)
Lemma getTransaction_missing_chain_returns_undefined :
  (getTransaction sample_env
     {| st_chain := None; st_network := Some "mainnet"%string;
        st_txId := Str "0xfeed" |} (sample_world [live_peer])).1
  = Ok None
  /\ (getTransaction sample_env
        {| st_chain := Some "ETH"%string; st_network := Some "mainnet"%string;
           st_txId := Str "0xnone" |} (sample_world [live_peer])).1
     = Ok None.
Proof. vm_compute. split; reflexivity. Qed.

(** Nothing leaves the process when the guard fails: the one event of
    the call is the log entry. *)
Lemma getTransaction_guard_makes_no_request :
  let w' := (getTransaction sample_env
               {| st_chain := None; st_network := Some "mainnet"%string;
                  st_txId := Num (Int 7) |} (sample_world [live_peer])).2 in
  trace w' = [ELog "error" "Error getting transactions from historical node %o"
                "Missing required param"]
  /\ existsb is_network_call (trace w') = false.
Proof. vm_compute. split; reflexivity. Qed.

(** A string that is no transaction identifier passes the guard and is
    sent to the peer. *)
Lemma getTransaction_malformed_id_is_sent :
  trace (getTransaction sample_env
           {| st_chain := Some "ETH"%string; st_network := Some "mainnet"%string;
              st_txId := Str "not an id" |} (sample_world [live_peer])).2
  = [EProbe 1; EProbe 1; EEth 1 (GetBlock Latest);
     EEth 1 (GetTransaction "not an id")].
Proof. vm_compute. reflexivity. Qed.

(** C5, at a call without a chain and at a transaction no peer knows. *)
Lemma getTransaction_never_raises_witness :
  getTransaction sample_env
    {| st_chain := None; st_network := Some "mainnet"%string;
       st_txId := Str "0xfeed" |} (sample_world [live_peer])
  = (Ok None,
     record_event
       (ELog "error" "Error getting transactions from historical node %o"
             "Missing required param") (sample_world [live_peer]))
  /\ exists w2 : World,
       getTransaction sample_env
         {| st_chain := Some "ETH"%string; st_network := Some "mainnet"%string;
            st_txId := Str "0xnone" |} (sample_world [live_peer])
       = (Ok None, record_event (EEth 1 (GetTransaction "0xnone")) w2).
Proof.
  split.
  - apply (proj1 (proj2 (getTransaction_never_raises sample_env
             {| st_chain := None; st_network := Some "mainnet"%string;
                st_txId := Str "0xfeed" |} (sample_world [live_peer])))).
    reflexivity.
  - pose (params := {| st_chain := Some "ETH"%string;
                       st_network := Some "mainnet"%string;
                       st_txId := Str "0xnone" |}).
    destruct (getWeb3 sample_env "mainnet" (Some "historical"%string)
                (sample_world [live_peer])) as [[web3|e] w1] eqn:Hweb3;
      [|vm_compute in Hweb3; discriminate].
    assert (web3 = live_peer) as ->
      by (vm_compute in Hweb3; now injection Hweb3 as <- _).
    destruct (getLocalTip sample_env (Some "ETH"%string) (Some "mainnet"%string)
                false w1) as [[tip|e] w2] eqn:Htip.
    + exists w2.
      apply (proj2 (proj2 (getTransaction_never_raises sample_env params
                             (sample_world [live_peer]))) live_peer tip w1 w2);
        [reflexivity | exact Hweb3 | exact Htip | reflexivity].
    + exfalso. vm_compute in Hweb3. injection Hweb3 as <-.
      vm_compute in Htip. discriminate.
Defined.

(** ** getFee *)

(** C3, counterexample. A call without a target uses quartile 4, not
    quartile 1. *)
Lemma missing_target_uses_quartile_four :
  whichQuartile (target_of {| f_network := "mainnet"; f_target := None |})
  = Int 4
  /\ whichQuartile (target_of {| f_network := "mainnet"; f_target := None |})
     <> Int 1.
Proof. split; [reflexivity | discriminate]. Qed.

(** A negative target is below the range and is used as it is. *)
Lemma negative_target_is_not_clamped :
  whichQuartile (target_of {| f_network := "mainnet"; f_target := Some (Int (-3)) |})
  = Int (-3).
Proof. reflexivity. Qed.

(** C3, at the targets 7, 0 and none. *)
Lemma fee_quartile_position_witness :
  (exists r w',
     getFee sample_env {| f_network := "mainnet"; f_target := Some (Int 7) |}
       (sample_world [live_peer]) = (Ok r, w')
     /\ feerate r = Int 11 /\ blocks r = Int 7)
  /\ whichQuartile (target_of {| f_network := "mainnet"; f_target := Some (Int 7) |})
     = Int 4
  /\ whichQuartile (target_of {| f_network := "mainnet"; f_target := Some (Int 0) |})
     = Int 1
  /\ whichQuartile (target_of {| f_network := "mainnet"; f_target := None |})
     = Int 4.
Proof.
  split; [|split; [|split]].
  - destruct (getFee sample_env {| f_network := "mainnet"; f_target := Some (Int 7) |}
                (sample_world [live_peer])) as [[r|e] w'] eqn:Hrun;
      [|vm_compute in Hrun; discriminate].
    exists r, w'. split; [reflexivity|].
    destruct (proj1 (fee_quartile_position sample_env
                       {| f_network := "mainnet"; f_target := Some (Int 7) |})
                _ _ _ Hrun) as (gasPrices & median & _ & _ & Hblocks).
    split; [|exact Hblocks].
    vm_compute in Hrun. now injection Hrun as <- _.
  - apply (proj2 (proj2 (fee_quartile_position sample_env
             {| f_network := "mainnet"; f_target := Some (Int 7) |})) 7);
      [reflexivity | lia].
  - apply (proj2 (proj2 (fee_quartile_position sample_env
             {| f_network := "mainnet"; f_target := Some (Int 0) |})) 0);
      [reflexivity | lia].
  - apply (proj1 (proj2 (fee_quartile_position sample_env
             {| f_network := "mainnet"; f_target := None |}))).
    reflexivity.
Defined.

(** ** getWalletBalanceAtTime *)

(** C10, at the wallet "w1" on the first of January 2024. *)
Lemma wallet_balance_at_time_witness :
  exists r w',
    getWalletBalanceAtTime sample_env
      {| wb_network := "mainnet"; wb_time := "2024-01-01";
         wb_wallet := Some {| w_id := Some "w1"%string |} |}
      (sample_world [live_peer]) = (Ok r, w')
    /\ unconfirmed r = Int 0
    /\ confirmed r = balance r
    /\ balance r = Str "1000".
Proof.
  destruct (getWalletBalanceAtTime sample_env
      {| wb_network := "mainnet"; wb_time := "2024-01-01";
         wb_wallet := Some {| w_id := Some "w1"%string |} |}
      (sample_world [live_peer])) as [[r|e] w'] eqn:Hrun;
    [|vm_compute in Hrun; discriminate].
  exists r, w'. split; [reflexivity|].
  destruct (wallet_balance_at_time sample_env _ _ _ _ Hrun) as (Hu & Hc & _).
  split; [exact Hu|]. split; [exact Hc|].
  vm_compute in Hrun. now injection Hrun as <- _.
Defined.

(** Without a wallet the call logs and raises "Missing wallet". *)
Lemma getWalletBalanceAtTime_missing_wallet :
  let r := getWalletBalanceAtTime sample_env
             {| wb_network := "mainnet"; wb_time := "2024-01-01";
                wb_wallet := None |} (sample_world [live_peer]) in
  r.1 = Throw "Missing wallet"
  /\ trace r.2 =
       [ELog "error"
          "Error getting wallet balance at time from external provider %o"
          "Missing wallet"].
Proof. vm_compute. split; reflexivity. Qed.

End Examples.

(** * Further examples on the sample deployment *)

Section MoreExamples.
Import JS.

(** ** The connection pool *)


(** X4, at a registry that starts with an entry of the node capability:
    the historical request steps over it without a probe. *)
Lemma getWeb3_returns_first_usable_witness :
  getWeb3 sample_env "mainnet" (Some "historical"%string)
    (sample_world [{| rpcId := 2; dataType := "node" |}; live_peer; dead_peer])
  = (Ok live_peer,
     after_probe sample_env live_peer
       (sample_world [{| rpcId := 2; dataType := "node" |}; live_peer; dead_peer]))
  /\ pool "ETH" "mainnet"
       (after_probe sample_env live_peer
          (sample_world [{| rpcId := 2; dataType := "node" |}; live_peer; dead_peer]))
     = [{| rpcId := 2; dataType := "node" |}] ++ live_peer :: [dead_peer].
Proof.
  apply (getWeb3_returns_first_usable sample_env "mainnet" (Some "historical"%string)
           [{| rpcId := 2; dataType := "node" |}] [dead_peer] live_peer
           (sample_world [{| rpcId := 2; dataType := "node" |}; live_peer; dead_peer])).
  - reflexivity.
  - constructor; [reflexivity | constructor].
  - split; [reflexivity | left; reflexivity].
Defined.

(** X5, at an empty registry. *)
Lemma getWeb3_without_entries_witness :
  exists (fresh : Rpc) (w' : World),
    getWeb3 sample_env "mainnet" (Some "historical"%string) (sample_world [])
    = (Ok fresh, w')
    /\ rpcId fresh = 10%nat
    /\ dataType fresh = "historical"%string
    /\ registered w' "ETH" "mainnet" = Some [fresh]
    /\ trace w' = [ELog "info" "Making a new connection for ETH:mainnet" "";
                   EConnect "mainnet" (Some "historical"%string)].
Proof.
  exact (getWeb3_without_entries sample_env "mainnet" (Some "historical"%string)
           (sample_world []) eq_refl).
Defined.

(** ** The range resolver *)

(** X6, at the block identifier "105". *)
Lemma decimal_block_id_fixes_range_witness :
  exists (q : Query) (o : Options) (w' : World),
    getBlocksParams sample_env (sample_params Undefined (Some "105"%string) None)
      (sample_world [live_peer]) = (Ok (q, o), w')
    /\ startBlock q = Int 105 /\ endBlock q = Int 105.
Proof.
  destruct (getBlocksParams sample_env
              (sample_params Undefined (Some "105"%string) None)
              (sample_world [live_peer])) as [[[q o]|e] w'] eqn:Hrun;
    [|vm_compute in Hrun; discriminate].
  exists q, o, w'. split; [reflexivity|].
  apply (decimal_block_id_fixes_range sample_env
           (sample_params Undefined (Some "105"%string) None) "105" 105
           (sample_world [live_peer]) w' q o);
    [reflexivity | cbn; lia | reflexivity | lia | exact Hrun].
Defined.

(** X20, at the cursor "100" with limit 5: the world is left as it was. *)
Lemma since_cursor_bounds_witness :
  exists o : Options,
    getBlocksParams sample_env
      (sample_params (Str "100") None (Some (sample_args (Some (Int 5)) None)))
      (sample_world [live_peer])
    = (Ok (apply_sort (SortBy "height" (Int (-1)))
             {| startBlock := Int 100; endBlock := Int (100 + 5);
                q_block := None; q_height := None |}, o),
       sample_world [live_peer]).
Proof.
  apply (since_cursor_bounds sample_env
           (sample_params (Str "100") None (Some (sample_args (Some (Int 5)) None)))
           "100" 100 5 (sample_world [live_peer]));
    [ reflexivity | reflexivity | reflexivity | reflexivity | reflexivity
    | reflexivity | reflexivity | discriminate | reflexivity | reflexivity
    | reflexivity | lia | lia
    | unfold safe_integer, MAX_SAFE_INTEGER; lia
    | unfold safe_integer, MAX_SAFE_INTEGER; lia
    | unfold safe_integer, MAX_SAFE_INTEGER; lia ].
Defined.

(** X7, at a call without parameters under tip 110. *)
Lemma unresolved_range_is_tip_and_previous_witness :
  exists (q : Query) (o : Options) (w1 : World),
    getBlocksParams sample_env (sample_params Undefined None None)
      (sample_world [live_peer])
    = (Ok (apply_sort (sort_of (sample_params Undefined None None)) q, o), w1)
    /\ startBlock q = Int (110 - 1) /\ endBlock q = Int 110.
Proof.
  destruct (getLocalTip sample_env (Some "ETH"%string) (Some "mainnet"%string)
              false (sample_world [live_peer])) as [[tip|e] w1] eqn:Htip;
    [|vm_compute in Htip; discriminate].
  assert (ib_height tip = Int 110) as Hheight.
  { pose proof Htip as Htip'. vm_compute in Htip'. now injection Htip' as <- _. }
  destruct (unresolved_range_is_tip_and_previous sample_env
              (sample_params Undefined None None) 10 110 tip
              (sample_world [live_peer]) w1) as (q & o & Hrun & Hbounds);
    [ reflexivity | reflexivity | left; reflexivity | reflexivity | reflexivity
    | reflexivity | reflexivity | reflexivity | exact Htip | exact Hheight | ].
  exists q, o, w1. split; [exact Hrun | exact Hbounds].
Defined.

(** X8, at a block hash the data API places at height 77. *)
Lemma block_hash_resolves_to_its_height_witness :
  exists (q : Query) (o : Options) (w1 : World),
    getBlocksParams sample_env
      (sample_params Undefined
         (Some "0x4e3a3754410177e6937ef1f84bba68ea139e8d1a2258c5f85db9f1cd715a1bdd"%string)
         None)
      (sample_world [live_peer])
    = (Ok (apply_sort (SortBy "height" (Int (-1))) q, o), w1)
    /\ startBlock q = Int 77 /\ endBlock q = Int 77.
Proof.
  pose (hash := "0x4e3a3754410177e6937ef1f84bba68ea139e8d1a2258c5f85db9f1cd715a1bdd"%string).
  destruct (getBlockNumberByBlockId sample_env hash "mainnet"
              (sample_world [live_peer])) as [[found|e] w1] eqn:Hfound;
    [|vm_compute in Hfound; discriminate].
  assert (found = Some (Int 77)) as ->.
  { pose proof Hfound as Hfound'. vm_compute in Hfound'. now injection Hfound' as <- _. }
  destruct (proj1 (block_hash_resolves_to_its_height sample_env
                     (sample_params Undefined (Some hash) None) hash (Some (Int 77))
                     (sample_world [live_peer]) w1
                     eq_refl eq_refl eq_refl ltac:(cbn; lia) eq_refl eq_refl eq_refl
                     eq_refl Hfound)
              77 eq_refl ltac:(lia)) as (q & o & Hrun & Hbounds).
  exists q, o, w1. split; [exact Hrun | exact Hbounds].
Defined.

(** X9, at the first of January 2024. *)
Lemma date_overrides_start_and_end_witness :
  getBlocksParams sample_env
    (with_start_end
       (sample_params Undefined None
          (Some {| a_startDate := None; a_endDate := None;
                   a_date := Some "2024-01-01"%string;
                   a_since := Undefined; a_direction := Undefined;
                   a_paging := Undefined; a_limit := None; a_sort := None |}))
       (Some "2020-01-01"%string) (Some "2020-02-01"%string))
    (sample_world [live_peer])
  = getBlocksParams sample_env
      (with_start_end
         (sample_params Undefined None
            (Some {| a_startDate := None; a_endDate := None;
                     a_date := Some "2024-01-01"%string;
                     a_since := Undefined; a_direction := Undefined;
                     a_paging := Undefined; a_limit := None; a_sort := None |}))
         None None)
      (sample_world [live_peer]).
Proof.
  apply (date_overrides_start_and_end sample_env). reflexivity.
Defined.

(** X10, at the first of January 2024, which starts at block 100, the
    next day starting at block 200: with the default limit the range is
    100 to 110. *)
Lemma date_resolves_to_its_day_witness :
  exists (q : Query) (o : Options) (w2 : World),
    getBlocksParams sample_env
      (sample_params Undefined None
         (Some {| a_startDate := None; a_endDate := None;
                  a_date := Some "2024-01-01"%string;
                  a_since := Undefined; a_direction := Undefined;
                  a_paging := Undefined; a_limit := None; a_sort := None |}))
      (sample_world [live_peer])
    = (Ok (apply_sort (SortBy "height" (Int (-1))) q, o), w2)
    /\ startBlock q = Int 100 /\ endBlock q = Int 110.
Proof.
  pose (params :=
          sample_params Undefined None
            (Some {| a_startDate := None; a_endDate := None;
                     a_date := Some "2024-01-01"%string;
                     a_since := Undefined; a_direction := Undefined;
                     a_paging := Undefined; a_limit := None; a_sort := None |})).
  destruct (getBlockNumberByDate sample_env (NewDate "2024-01-01" 0) "mainnet"
              (sample_world [live_peer])) as [[s|e] w1] eqn:Hstart;
    [|vm_compute in Hstart; discriminate].
  assert (s = Some (Int 100)) as ->.
  { pose proof Hstart as H. vm_compute in H. now injection H as <- _. }
  destruct (getBlockNumberByDate sample_env (NewDate "2024-01-01" 1) "mainnet" w1)
    as [[e|err] w2] eqn:Hend.
  - assert (e = Some (Int 200)) as ->.
    { pose proof Hstart as H. vm_compute in H. injection H as <-.
      vm_compute in Hend. now injection Hend as <- _. }
    destruct (date_resolves_to_its_day sample_env params "2024-01-01" 100 200 10
                (sample_world [live_peer]) w1 w2)
      as (q & o & Hrun & Hs & He);
      [ reflexivity | reflexivity | reflexivity | reflexivity | reflexivity
      | discriminate | reflexivity | lia | exact Hstart | exact Hend | lia | lia
      | unfold safe_integer, MAX_SAFE_INTEGER; lia
      | unfold safe_integer, MAX_SAFE_INTEGER; lia
      | unfold safe_integer, MAX_SAFE_INTEGER; lia | ].
    exists q, o, w2. split; [exact Hrun|]. split; [exact Hs | exact He].
  - exfalso. vm_compute in Hstart. injection Hstart as <-.
    vm_compute in Hend. discriminate.
Defined.

(** ** getBlocks *)



(** X13, at a cursor that is no number. *)
Lemma getBlocks_logs_early_failure_witness :
  getBlocks sample_env (sample_params (Str "12a") None None) (sample_world [live_peer])
  = (Ok NoBlocks,
     record_event
       (ELog "error" "Error getting blocks from historical node: %o"
             "invalid block id provided")
       (sample_world [live_peer])).
Proof.
  apply (proj1 (getBlocks_logs_early_failure sample_env
                  (sample_params (Str "12a") None None) (sample_world [live_peer])
                  "invalid block id provided")).
  vm_compute. reflexivity.
Defined.

(** ** getFee, getWalletBalanceAtTime and getTransaction *)

(** X14, at the sample fee history: three sums, handed over sorted. *)
Lemma getFee_prices_sorted_descending_witness :
  exists (r : FeeResult) (w' : World) (sums prices : list Z),
    getFee sample_env {| f_network := "mainnet"; f_target := None |}
      (sample_world [live_peer]) = (Ok r, w')
    /\ length sums = 3%nat
    /\ prices ≡ₚ sums
    /\ StronglySorted Z.ge prices.
Proof.
  destruct (getFee sample_env {| f_network := "mainnet"; f_target := None |}
              (sample_world [live_peer])) as [[r|e] w'] eqn:Hrun;
    [|vm_compute in Hrun; discriminate].
  destruct (getFee_prices_sorted_descending sample_env _ _ _ _ Hrun)
    as (web3 & latest & h & sums & prices & median
        & _ & Hh & Hlen & _ & Hperm & Hsorted & _).
  exists r, w', sums, prices. split; [reflexivity|].
  cbn in Hh. injection Hh as <-.
  split; [exact Hlen|]. split; [exact Hperm | exact Hsorted].
Defined.

(** X15, at a wallet whose identifier is the empty string. *)
Lemma wallet_failure_logged_and_raised_witness :
  getWalletBalanceAtTime sample_env
    {| wb_network := "mainnet"; wb_time := "2024-01-01";
       wb_wallet := Some {| w_id := Some ""%string |} |}
    (sample_world [live_peer])
  = (Throw "Missing wallet",
     record_event
       (ELog "error" "Error getting wallet balance at time from external provider %o"
             "Missing wallet")
       (sample_world [live_peer])).
Proof.
  apply (proj1 (wallet_failure_logged_and_raised sample_env
                  {| wb_network := "mainnet"; wb_time := "2024-01-01";
                     wb_wallet := Some {| w_id := Some ""%string |} |}
                  (sample_world [live_peer]))).
  reflexivity.
Defined.

(** The conversion of the fee from BigInt rounds to the nearest double,
    to the even one on a tie. *)
Lemma of_bigint_rounds :
  of_bigint 9007199254740993 = Int 9007199254740992
  /\ of_bigint 9007199254740995 = Int 9007199254740996
  /\ of_bigint (- 9007199254740993) = Int (- 9007199254740992)
  /\ of_bigint 11 = Int 11.
Proof. vm_compute. repeat split. Qed.

(** X16, at the transaction "0xfee0" of block 0 under tip 110. *)
Lemma unmined_transaction_has_no_confirmations_witness :
  exists (r : TxWithConfirmations sample_env) (w' : World),
    _getTransaction sample_env (Some "ETH"%string) (Some "mainnet"%string)
      "0xfee0" (Int 110) live_peer (sample_world [live_peer])
    = (Ok (Some r), w')
    /\ ct_confirmations sample_env r = Int 0.
Proof.
  destruct (_getTransaction sample_env (Some "ETH"%string) (Some "mainnet"%string)
              "0xfee0" (Int 110) live_peer (sample_world [live_peer]))
    as [[[r|]|e] w'] eqn:Hrun;
    [ | vm_compute in Hrun; discriminate | vm_compute in Hrun; discriminate ].
  exists r, w'. split; [reflexivity|].
  apply (unmined_transaction_has_no_confirmations sample_env
           (Some "ETH"%string) (Some "mainnet"%string) "0xfee0" (Int 110) live_peer
           (sample_world [live_peer]) w' r (sample_tx (Some (Int 0))));
    [ reflexivity | right; exists 0; split; [reflexivity | lia] | exact Hrun ].
Defined.

(** X17, at a peer that holds "0xfeed" as a pending transaction. *)
Lemma getTransaction_without_block_returns_undefined_witness :
  exists w3 : World,
    getTransaction sample_env_pending
      {| st_chain := Some "ETH"%string; st_network := Some "mainnet"%string;
         st_txId := Str "0xfeed" |}
      (sample_world [live_peer])
    = (Ok None,
       record_event
         (ELog "error" "Error getting transactions from historical node %o"
               "TypeError: Cannot read properties of null (reading 'timestamp')")
         (record_event (EEth 1 (GetBlock (ByHash None))) w3)).
Proof.
  pose (params := {| st_chain := Some "ETH"%string;
                     st_network := Some "mainnet"%string;
                     st_txId := Str "0xfeed" |}).
  destruct (getWeb3 sample_env_pending "mainnet" (Some "historical"%string)
              (sample_world [live_peer])) as [[web3|e] w1] eqn:Hweb3;
    [|vm_compute in Hweb3; discriminate].
  pose proof Hweb3 as Hweb3'. vm_compute in Hweb3'. injection Hweb3' as <- <-.
  match type of Hweb3 with _ = (Ok ?web3, ?w1) =>
    destruct (getLocalTip sample_env_pending (Some "ETH"%string)
                (Some "mainnet"%string) false w1)
      as [[tip|e] w2] eqn:Htip; [|vm_compute in Htip; discriminate]
  end.
  pose proof Htip as Htip'. vm_compute in Htip'. injection Htip' as _ <-.
  match type of Htip with _ = (Ok _, ?w2) =>
    destruct (getWeb3 sample_env_pending "mainnet" None
                (record_event (EEth 1 (GetTransaction "0xfeed")) w2))
      as [[rpc|e] w3] eqn:Hrpc; [|vm_compute in Hrpc; discriminate]
  end.
  assert (rpc = live_peer) as ->.
  { pose proof Hrpc as Hrpc'. vm_compute in Hrpc'. now injection Hrpc' as <- _. }
  exists w3.
  exact (getTransaction_without_block_returns_undefined sample_env_pending params
           live_peer live_peer tip sample_pending_tx _ _ _ w3
           eq_refl Hweb3 Htip eq_refl Hrpc eq_refl).
Defined.

(** ** The guard of the API routes *)

(** X18, at a configured pair. *)
Lemma route_guard_passes_configured_pairs_witness :
  route_guard (fun _ _ => false) sample_config "ETH" "sepolia" = Next.
Proof.
  apply (route_guard_passes_configured_pairs (fun _ _ => false) sample_config "ETH" "sepolia").
  - vm_compute. reflexivity.
  - discriminate.
  - discriminate.
  - exists {["mainnet"%string; "sepolia"%string]}.
    split; [reflexivity|]. split; [|left; now vm_compute].
    intros H.
    apply (f_equal (fun X : gset string => bool_decide ("mainnet"%string ∈ X))) in H.
    vm_compute in H. discriminate.
Defined.

(** X19, at a chain that is not configured and at a network its chain
    does not have. *)
Lemma route_guard_rejections_witness :
  route_guard (fun _ _ => false) sample_config "BTC" "mainnet"
  = Send 500 "This node is not configured for the chain BTC"
  /\ route_guard (fun _ _ => false) sample_config "MATIC" "sepolia"
     = Send 500 "This node is not configured for the network sepolia on chain MATIC".
Proof.
  split.
  - apply (proj1 (route_guard_rejections (fun _ _ => false) sample_config "BTC" "mainnet")).
    + discriminate.
    + reflexivity.
  - apply (proj2 (route_guard_rejections (fun _ _ => false) sample_config "MATIC" "sepolia")
             {["mainnet"%string]}).
    + vm_compute. reflexivity.
    + discriminate.
    + reflexivity.
    + now vm_compute.
    + reflexivity.
Defined.

(** The names every object inherits pass as networks of a configured
    chain. *)
Lemma route_guard_inherited_names :
  route_guard (fun _ _ => false) sample_config "ETH" "constructor" = Next
  /\ route_guard (fun _ _ => false) sample_config "ETH" "goerli"
     = Send 500 "This node is not configured for the network goerli on chain ETH".
Proof. split; vm_compute; reflexivity. Qed.

End MoreExamples.
